(** * File-Converter: a shallow embedding of the image converter

    The development follows the three Python modules of the repository:
    - [converter.py]: [FileConverter.convert], [_get_conversion_method]
      and [_image_to_image];
    - [main.py]: [validate_args], [get_input_files] and [main];
    - [utils.py] is logging set-up only and has no counterpart here.

    Strings are ASCII strings.  A path is a [PurePosixPath] (CPython 3.7 to
    3.11, the versions [setup.py] lists).  The file system and the log are
    an explicit state threaded through a small state-and-exception monad.
    Pillow, [glob] and the codecs are outside the repository: the operations
    the source calls on them are modelled after their documentation, and
    what is numerical or platform dependent (resampling kernels, encoders,
    pattern matching) is a field of the [Platform] class.

    [main] is the function from the parsed arguments on, without Ctrl-C.
    [main_argv] is the process: [parse_args] on the command line, which
    ends the process for [--help], [--version] and a usage error, then
    [main_from], which is [main] with the [KeyboardInterrupt] that Ctrl-C
    raises inside the [try] block.  Every exception of type [exn] derives
    from [Exception].

    The file system is keyed by the paths as they are spelled: it has no
    symbolic links and does not resolve [..], so a tree holds one spelling
    per node.  [exists], [is_file] and [is_dir] are total: the errors that
    [stat] raises for a path it may not read are not modelled. *)

From Stdlib Require Import String Ascii List Bool Arith Lia NArith DecimalString.
Import ListNotations.
Local Open Scope list_scope.
Local Open Scope string_scope.
Local Open Scope nat_scope.

(* ================================================================== *)
(** ** Python strings *)
(* ================================================================== *)

Module PyStr.

(** [c.lower()] on one ASCII character. *)
Definition lower_ascii (c : ascii) : ascii :=
  let n := nat_of_ascii c in
  if (65 <=? n) && (n <=? 90) then ascii_of_nat (n + 32) else c.

(** [s.lower()] on an ASCII string: the letters A to Z are folded. *)
Fixpoint lower (s : string) : string :=
  match s with
  | EmptyString => EmptyString
  | String c s' => String (lower_ascii c) (lower s')
  end.

(** [s.lstrip(c)] for a one-character argument. *)
Fixpoint lstrip (c : ascii) (s : string) : string :=
  match s with
  | EmptyString => EmptyString
  | String a s' => if Ascii.eqb a c then lstrip c s' else s
  end.

(** [s.rfind(c)] for a one-character argument; [None] stands for [-1]. *)
Fixpoint rfind (c : ascii) (s : string) : option nat :=
  match s with
  | EmptyString => None
  | String a s' =>
      match rfind c s' with
      | Some i => Some (S i)
      | None => if Ascii.eqb a c then Some 0 else None
      end
  end.

(** [c in s] for a one-character [c]. *)
Fixpoint contains (c : ascii) (s : string) : bool :=
  match s with
  | EmptyString => false
  | String a s' => Ascii.eqb a c || contains c s'
  end.

(** [s.split(c)] for a one-character separator. *)
Fixpoint split (c : ascii) (s : string) : list string :=
  match s with
  | EmptyString => [EmptyString]
  | String a s' =>
      if Ascii.eqb a c then EmptyString :: split c s'
      else match split c s' with
           | h :: t => String a h :: t
           | [] => [String a EmptyString]
           end
  end.

(** [sep.join(l)]. *)
Definition join (sep : string) (l : list string) : string := String.concat sep l.

(** [s[i:]] and [s[:i]] for [0 <= i <= len(s)]. *)
Definition slice_from (i : nat) (s : string) : string :=
  substring i (String.length s - i) s.
Definition slice_to (i : nat) (s : string) : string := substring 0 i s.

(** [s.startswith(c)] for a one-character prefix. *)
Definition startswith (c : ascii) (s : string) : bool :=
  match s with
  | String a _ => Ascii.eqb a c
  | EmptyString => false
  end.

(** [c.isspace()] on ASCII: tab, line feed, vertical tab, form feed,
    carriage return, the four separators 0x1c-0x1f and the space. *)
Definition isspace (c : ascii) : bool :=
  let n := nat_of_ascii c in
  ((9 <=? n) && (n <=? 13)) || ((28 <=? n) && (n <=? 32)).

Fixpoint lstrip_space (s : string) : string :=
  match s with
  | EmptyString => EmptyString
  | String a s' => if isspace a then lstrip_space s' else s
  end.

Fixpoint rstrip_space (s : string) : string :=
  match s with
  | EmptyString => EmptyString
  | String a s' =>
      match rstrip_space s' with
      | EmptyString => if isspace a then EmptyString else String a EmptyString
      | r => String a r
      end
  end.

(** [s.strip()]. *)
Definition strip (s : string) : string := rstrip_space (lstrip_space s).

(** The lines a text file opened with [open(p, 'r')] iterates over
    (universal newlines: a line ends at LF, CR or CR LF).  The terminator is
    dropped; every caller strips the line anyway. *)
Fixpoint lines_from (cur : string -> string) (s : string) : list string :=
  match s with
  | EmptyString =>
      match cur EmptyString with
      | EmptyString => []
      | l => [l]
      end
  | String a s' =>
      if Ascii.eqb a "010" then cur EmptyString :: lines_from (fun t => t) s'
      else if Ascii.eqb a "013" then
        match s' with
        | String b s'' =>
            if Ascii.eqb b "010" then cur EmptyString :: lines_from (fun t => t) s''
            else cur EmptyString :: lines_from (fun t => t) s'
        | EmptyString => [cur EmptyString]
        end
      else lines_from (fun t => cur (String a t)) s'
  end.

Definition readlines (s : string) : list string := lines_from (fun t => t) s.

(** [str(n)] for a natural number. *)
Definition of_nat (n : nat) : string := NilEmpty.string_of_uint (Nat.to_uint n).

(** Truth value of a string: the empty string is false. *)
Definition truthy (s : string) : bool :=
  match s with EmptyString => false | _ => true end.

(** [x in l] for a list (or a set) of strings. *)
Definition mem (x : string) (l : list string) : bool :=
  existsb (String.eqb x) l.

End PyStr.

(* ================================================================== *)
(** ** Exceptions and outcomes *)
(* ================================================================== *)

(** The four places where [converter.py] raises [ConversionError]. *)
Inductive reason : Type :=
  | UnsupportedOutput (output_format : string)
  | SameFormat (input_ext : string)
  | UnsupportedPair (input_ext output_format : string)
  | Failed (cause : string).

(** The exceptions of the model; all of them derive from [Exception]. *)
Inductive exn : Type :=
  | ConversionError (why : reason)
  | ValueError (msg : string)
  | OSError (msg : string).

(** The f-strings of the [raise ConversionError(...)] statements. *)
Definition message (r : reason) : string :=
  match r with
  | UnsupportedOutput f => "Unsupported output format: " ++ f
  | SameFormat e => "Input and output formats are the same: " ++ e
  | UnsupportedPair e f =>
      "Conversion from " ++ e ++ " to " ++ f ++ " is not supported"
  | Failed c => "Failed to convert image: " ++ c
  end.

(** [str(e)]. *)
Definition str_exn (e : exn) : string :=
  match e with
  | ConversionError r => message r
  | ValueError m => m
  | OSError m => m
  end.

(** What a call produces: a value, or a raised exception. *)
Inductive outcome (A : Type) : Type :=
  | Return (a : A)
  | Raise (e : exn).
Arguments Return {A} a.
Arguments Raise {A} e.

Definition returned {A} (o : outcome A) : bool :=
  match o with Return _ => true | Raise _ => false end.

(* ================================================================== *)
(** ** pathlib.PurePosixPath *)
(* ================================================================== *)

(** A parsed path: the root ([""], ["/"] or ["//"]) and the components
    after it.  [Path('.')] and [Path('')] are the path without root and
    without components. *)
Record Path : Type := mkPath { root : string; parts : list string }.

Module PathLib.

Definition eqb (p q : Path) : bool :=
  String.eqb (root p) (root q)
  && (if list_eq_dec string_dec (parts p) (parts q) then true else false).

(** Number of leading separators of a string. *)
Fixpoint leading_seps (s : string) : nat :=
  match s with
  | String a s' => if Ascii.eqb a "/" then S (leading_seps s') else 0
  | EmptyString => 0
  end.

(** [splitroot] of the POSIX flavour: exactly two leading slashes are kept
    as the root ["//"], any other number collapses to ["/"]. *)
Definition splitroot (s : string) : string * string :=
  match leading_seps s with
  | 0 => ("", s)
  | 2 => ("//", PyStr.lstrip "/" s)
  | _ => ("/", PyStr.lstrip "/" s)
  end.

Definition is_component (x : string) : bool :=
  PyStr.truthy x && negb (String.eqb x ".").

(** [Path(s)]: empty components and [.] components are dropped. *)
Definition of_string (s : string) : Path :=
  let '(r, rel) := splitroot s in
  mkPath r (filter is_component (PyStr.split "/" rel)).

(** [str(p)]. *)
Definition str (p : Path) : string :=
  match root p, parts p with
  | EmptyString, [] => "."
  | r, l => r ++ PyStr.join "/" l
  end.

(** [p.name]: the last component, or the empty string. *)
Definition name (p : Path) : string := last (parts p) "".

(** [p.suffix]: from the last dot of the name, unless that dot is the first
    or the last character. *)
Definition suffix (p : Path) : string :=
  let n := name p in
  match PyStr.rfind "." n with
  | Some i =>
      if (0 <? i) && (i <? String.length n - 1) then PyStr.slice_from i n else ""
  | None => ""
  end.

(** [p.stem]. *)
Definition stem (p : Path) : string :=
  let n := name p in
  match PyStr.rfind "." n with
  | Some i =>
      if (0 <? i) && (i <? String.length n - 1) then PyStr.slice_to i n else n
  | None => n
  end.

(** [p.parent]: the path without its last component; a path without
    components is its own parent. *)
Definition parent (p : Path) : Path := mkPath (root p) (removelast (parts p)).

(** [repr(p)]. *)
Definition repr (p : Path) : string := "PosixPath('" ++ str p ++ "')".

(** [p.with_suffix(s)]. *)
Definition with_suffix (p : Path) (s : string) : outcome Path :=
  if PyStr.contains "/" s then Raise (ValueError ("Invalid suffix '" ++ s ++ "'"))
  else if (PyStr.truthy s && negb (PyStr.startswith "." s)) || String.eqb s "."
  then Raise (ValueError ("Invalid suffix '" ++ s ++ "'"))
  else
    let n := name p in
    if negb (PyStr.truthy n) then Raise (ValueError (repr p ++ " has an empty name"))
    else
      let old_suffix := suffix p in
      let n' :=
        if negb (PyStr.truthy old_suffix) then n ++ s
        else PyStr.slice_to (String.length n - String.length old_suffix) n ++ s in
      Return (mkPath (root p) (removelast (parts p) ++ [n'])%list).

(** [p / s] for a string [s]: an absolute [s] replaces [p]. *)
Definition joinpath (p : Path) (s : string) : Path :=
  let q := of_string s in
  if PyStr.truthy (root q) then q
  else mkPath (root p) (parts p ++ parts q)%list.

End PathLib.

(* ================================================================== *)
(** ** Pillow images *)
(* ================================================================== *)

(** A pixel is the list of its band values (each in [0, 255]); an image is
    its mode string (['L'], ['LA'], ['RGB'], ['RGBA'], ['P'], ...), its size
    (width, height) and its pixels in row order. *)
Definition Pixel : Type := list N.

Record Image : Type := mkImage {
  mode : string;
  size : nat * nat;
  data : list Pixel
}.

(** [Image.Resampling]. *)
Inductive Resampling : Type :=
  | NEAREST | BOX | BILINEAR | HAMMING | BICUBIC | LANCZOS.

Module PIL.

(** [Image.new(mode, size, color)]: every pixel is [color]. *)
Definition new (m : string) (sz : nat * nat) (color : Pixel) : Image :=
  mkImage m sz (repeat color (fst sz * snd sz)).

(** [im.split()[-1]]: the last band as an ['L'] image. *)
Definition last_band (im : Image) : Image :=
  mkImage "L" (size im) (map (fun px => [last px 0%N]) (data im)).

(** The value of a pixel of an ['L'] image. *)
Definition level (px : Pixel) : N := hd 0%N px.

(** [im.convert('RGB')] on one pixel, for the two modes the converter
    pastes: ['RGBA'] loses its alpha band, ['LA'] repeats its luminance. *)
Definition to_RGB (m : string) (px : Pixel) : Pixel :=
  if String.eqb m "RGBA" then firstn 3 px
  else if String.eqb m "LA" then let l := hd 0%N px in [l; l; l]
  else px.

(** Division by 255 with rounding, as Pillow's [DIV255]. *)
Definition div255 (a : N) : N :=
  let t := (a + 128)%N in N.shiftr (N.shiftr t 8 + t) 8.

(** One band under a mask value: 0 keeps the destination, 255 copies the
    source, a value between mixes them. *)
Definition blend (m out inp : N) : N := div255 (out * (255 - m) + inp * m)%N.

Fixpoint blend_pixel (m : N) (out inp : Pixel) : Pixel :=
  match out, inp with
  | o :: out', i :: inp' => blend m o i :: blend_pixel m out' inp'
  | _, _ => out
  end.

Fixpoint paste_data (out inp mask : list Pixel) : list Pixel :=
  match out, inp, mask with
  | o :: out', i :: inp', m :: mask' =>
      blend_pixel (level m) o i :: paste_data out' inp' mask'
  | _, _, _ => out
  end.

(** [bg.paste(im, mask=mask)] with the default box, for images of one size:
    [im] is converted to the mode of [bg] first. *)
Definition paste (bg im mask : Image) : Image :=
  mkImage (mode bg) (size bg)
    (paste_data (data bg) (map (to_RGB (mode im)) (data im)) (data mask)).

(** The number of bands of the modes the converter tells apart; any other
    mode counts as one band. *)
Definition bands (m : string) : nat :=
  if String.eqb m "RGBA" then 4 else if String.eqb m "LA" then 2
  else if String.eqb m "RGB" then 3 else 1.

(** A decoded image is well formed when it has one pixel per position and
    one value per band, each at most 255. *)
Definition well_formed (im : Image) : Prop :=
  List.length (data im) = fst (size im) * snd (size im)
  /\ Forall (fun px => List.length px = bands (mode im)
                       /\ Forall (fun v => (v <= 255)%N) px) (data im).

End PIL.

(* ================================================================== *)
(** ** The file system, the log and the platform *)
(* ================================================================== *)

(** What reading a regular file gives: its text when it decodes as text, and
    the image Pillow identifies in it, if any. *)
Record File : Type := mkFile {
  as_text : option string;
  as_image : option Image
}.

Inductive Node : Type :=
  | Dir
  | Regular (f : File).

(** The file system maps paths to nodes.  The path without root and
    components is the current directory.  A path is looked up as it is
    spelled. *)
Definition FS : Type := list (Path * Node).

Inductive Level : Type := INFO | ERROR.

(** What the process writes: log records and lines on standard error. *)
Inductive Event : Type :=
  | Log (lvl : Level) (msg : string)
  | Stderr (line : string).

Record World : Type := mkWorld { fs : FS; out : list Event }.

(** What an encoder does with an image: it writes the file, or it raises
    with a message, leaving what it had written by then. *)
Inductive Encoded : Type :=
  | Written (f : File)
  | Refused (msg : string) (partial : File).

(** What lies outside the repository and is not modelled further:
    - [resample f size im]: the pixels Pillow computes when it resizes [im]
      to [size] with filter [f];
    - [EXTENSION ext]: Pillow's registry, the format saved for a file name
      extension (lower case, with its dot);
    - [save_handler format im]: the encoder of [format], see [Encoded];
    - [glob fs dir pattern]: the paths [dir.glob(pattern)] yields, or the
      exception it raises on a pattern it refuses. *)
Class Platform : Type := {
  resample : Resampling -> nat * nat -> Image -> list Pixel;
  EXTENSION : string -> option string;
  save_handler : string -> Image -> Encoded;
  glob : FS -> Path -> string -> outcome (list Path)
}.

Module Fs.

Fixpoint lookup (t : FS) (p : Path) : option Node :=
  match t with
  | [] => None
  | (q, n) :: t' => if PathLib.eqb q p then Some n else lookup t' p
  end.

(** Replace the node of [p], or add it at the end. *)
Fixpoint update (t : FS) (p : Path) (n : Node) : FS :=
  match t with
  | [] => [(p, n)]
  | (q, m) :: t' => if PathLib.eqb q p then (q, n) :: t' else (q, m) :: update t' p n
  end.

(** [p.exists()], [p.is_file()], [p.is_dir()]. *)
Definition exists_ (t : FS) (p : Path) : bool :=
  match lookup t p with Some _ => true | None => false end.
Definition is_file (t : FS) (p : Path) : bool :=
  match lookup t p with Some (Regular _) => true | _ => false end.
Definition is_dir (t : FS) (p : Path) : bool :=
  match lookup t p with Some Dir => true | _ => false end.

(** [os.mkdir(p)]. *)
Definition os_mkdir (t : FS) (p : Path) : outcome FS :=
  match lookup t p with
  | Some _ => Raise (OSError ("[Errno 17] File exists: '" ++ PathLib.str p ++ "'"))
  | None =>
      match lookup t (PathLib.parent p) with
      | Some Dir => Return (update t p Dir)
      | Some (Regular _) =>
          Raise (OSError ("[Errno 20] Not a directory: '" ++ PathLib.str p ++ "'"))
      | None =>
          Raise (OSError ("[Errno 2] No such file or directory: '" ++ PathLib.str p ++ "'"))
      end
  end.

(** [Path.mkdir(parents=True, exist_ok=True)], by recursion on the
    components from the last one: a missing parent is created first, and an
    existing directory is accepted. *)
Fixpoint mkdir_rev (t : FS) (r : string) (rev_parts : list string) : outcome FS :=
  let p := mkPath r (rev rev_parts) in
  match lookup t p with
  | Some Dir => Return t
  | Some (Regular _) =>
      Raise (OSError ("[Errno 17] File exists: '" ++ PathLib.str p ++ "'"))
  | None =>
      match rev_parts with
      | [] => Raise (OSError ("[Errno 2] No such file or directory: '" ++ PathLib.str p ++ "'"))
      | _ :: up =>
          match lookup t (mkPath r (rev up)) with
          | Some Dir => Return (update t p Dir)
          | Some (Regular _) =>
              Raise (OSError ("[Errno 20] Not a directory: '" ++ PathLib.str p ++ "'"))
          | None =>
              match mkdir_rev t r up with
              | Return t' => os_mkdir t' p
              | Raise e => Raise e
              end
          end
      end
  end.

Definition mkdir_parents (t : FS) (p : Path) : outcome FS :=
  mkdir_rev t (root p) (rev (parts p)).

(** [p.iterdir()]: the entries whose parent is [p]. *)
Definition iterdir (t : FS) (p : Path) : list Path :=
  map fst (filter (fun e => PathLib.eqb (PathLib.parent (fst e)) p
                            && negb (PathLib.eqb (fst e) p)) t).

End Fs.

(* ================================================================== *)
(** ** The state-and-exception monad *)
(* ================================================================== *)

(** A computation reads and changes the world, and returns or raises.
    What it did before raising stays done. *)
Definition M (A : Type) : Type := World -> outcome A * World.

Definition ret {A} (a : A) : M A := fun w => (Return a, w).

Definition raise {A} (e : exn) : M A := fun w => (Raise e, w).

Definition bind {A B} (c : M A) (k : A -> M B) : M B :=
  fun w =>
    match c w with
    | (Return a, w') => k a w'
    | (Raise e, w') => (Raise e, w')
    end.

(** [try: c except Exception as e: h e]. *)
Definition try_except {A} (c : M A) (h : exn -> M A) : M A :=
  fun w =>
    match c w with
    | (Return a, w') => (Return a, w')
    | (Raise e, w') => h e w'
    end.

Notation "x <- c ;; k" := (bind c (fun x => k))
  (at level 61, c at next level, right associativity).
Notation "c ;;; k" := (bind c (fun _ => k))
  (at level 61, right associativity).

(** A pure call that may raise. *)
Definition lift {A} (o : outcome A) : M A := fun w => (o, w).

(** A call on the file system that may raise and leaves it as it was. *)
Definition read_fs {A} (f : FS -> A) : M A := fun w => (Return (f (fs w)), w).

(** A call that changes the file system, or raises and leaves it. *)
Definition change_fs (f : FS -> outcome FS) : M unit :=
  fun w =>
    match f (fs w) with
    | Return t => (Return tt, mkWorld t (out w))
    | Raise e => (Raise e, w)
    end.

Definition emit (e : Event) : M unit :=
  fun w => (Return tt, mkWorld (fs w) (out w ++ [e])%list).

(** [logger.info(msg)], [logger.error(msg)] and
    [print(line, file=sys.stderr)]. *)
Definition logger_info (msg : string) : M unit := emit (Log INFO msg).
Definition logger_error (msg : string) : M unit := emit (Log ERROR msg).
Definition print_stderr (line : string) : M unit := emit (Stderr line).

(* ================================================================== *)
(** ** converter.py *)
(* ================================================================== *)

(** [FileConverter.supported_formats]. *)
Definition supported_formats : list string :=
  ["jpg"; "jpeg"; "png"; "gif"; "bmp"; "ico"; "webp"; "tiff"].

(** The conversion routines a table entry can refer to. *)
Inductive Method : Type := image_to_image.

(** The dictionary [methods] of [_get_conversion_method], entry by entry. *)
Definition methods : list ((string * string) * Method) :=
  [ (("jpg", "png"), image_to_image);
    (("jpeg", "png"), image_to_image);
    (("gif", "png"), image_to_image);
    (("bmp", "png"), image_to_image);
    (("ico", "png"), image_to_image);
    (("webp", "png"), image_to_image);
    (("tiff", "png"), image_to_image);

    (("png", "jpg"), image_to_image);
    (("png", "jpeg"), image_to_image);
    (("png", "gif"), image_to_image);
    (("png", "bmp"), image_to_image);
    (("png", "ico"), image_to_image);
    (("png", "webp"), image_to_image);
    (("png", "tiff"), image_to_image);

    (("jpg", "gif"), image_to_image);
    (("jpeg", "gif"), image_to_image);
    (("gif", "jpg"), image_to_image);
    (("gif", "jpeg"), image_to_image);
    (("gif", "bmp"), image_to_image);
    (("gif", "ico"), image_to_image);
    (("gif", "webp"), image_to_image);
    (("gif", "tiff"), image_to_image);

    (("bmp", "jpg"), image_to_image);
    (("bmp", "jpeg"), image_to_image);
    (("bmp", "gif"), image_to_image);
    (("bmp", "ico"), image_to_image);
    (("bmp", "webp"), image_to_image);
    (("bmp", "tiff"), image_to_image);

    (("ico", "jpg"), image_to_image);
    (("ico", "jpeg"), image_to_image);
    (("ico", "gif"), image_to_image);
    (("ico", "bmp"), image_to_image);
    (("ico", "webp"), image_to_image);
    (("ico", "tiff"), image_to_image);

    (("webp", "jpg"), image_to_image);
    (("webp", "jpeg"), image_to_image);
    (("webp", "gif"), image_to_image);
    (("webp", "bmp"), image_to_image);
    (("webp", "ico"), image_to_image);
    (("webp", "tiff"), image_to_image);

    (("tiff", "jpg"), image_to_image);
    (("tiff", "jpeg"), image_to_image);
    (("tiff", "gif"), image_to_image);
    (("tiff", "bmp"), image_to_image);
    (("tiff", "ico"), image_to_image);
    (("tiff", "webp"), image_to_image) ].

(** [d.get(key)] on a dictionary keyed by pairs of strings. *)
Fixpoint dict_get {V} (d : list ((string * string) * V)) (key : string * string)
  : option V :=
  match d with
  | [] => None
  | ((a, b), v) :: d' =>
      if String.eqb a (fst key) && String.eqb b (snd key) then Some v
      else dict_get d' key
  end.

(** [FileConverter._get_conversion_method]. *)
Definition _get_conversion_method (input_format output_format : string)
  : option Method :=
  dict_get methods (input_format, output_format).

(** [os.path.splitext(filename)[1]]: from the last dot of the base name,
    unless only dots come before it. *)
Fixpoint all_dots (s : string) : bool :=
  match s with
  | EmptyString => true
  | String a s' => Ascii.eqb a "." && all_dots s'
  end.

Definition splitext_ext (filename : string) : string :=
  let base :=
    match PyStr.rfind "/" filename with
    | Some i => PyStr.slice_from (S i) filename
    | None => filename
    end in
  match PyStr.rfind "." base with
  | Some j => if all_dots (PyStr.slice_to j base) then "" else PyStr.slice_from j base
  | None => ""
  end.

Section Converter.

Context {platform : Platform}.

(** [Image.open(p)] inside [with ... as img]. *)
Definition Image_open (p : Path) : M Image :=
  fun w =>
    match Fs.lookup (fs w) p with
    | Some (Regular f) =>
        match as_image f with
        | Some im => (Return im, w)
        | None =>
            (Raise (OSError ("cannot identify image file '" ++ PathLib.str p ++ "'")), w)
        end
    | Some Dir =>
        (Raise (OSError ("[Errno 21] Is a directory: '" ++ PathLib.str p ++ "'")), w)
    | None =>
        (Raise (OSError ("[Errno 2] No such file or directory: '" ++ PathLib.str p ++ "'")), w)
    end.

(** [im.resize(size, resample)]: an image of the mode of [im] and of the
    size asked for. *)
Definition Image_resize (im : Image) (sz : nat * nat) (f : Resampling) : Image :=
  mkImage (mode im) sz (resample f sz im).

(** [im.save(p, optimize=True, quality=95)].  No [format] is passed: Pillow
    takes it from the extension of the file name, opens the file for
    writing and runs the encoder; when the encoder raises, a file that this
    call created is removed and one that was there stays as the encoder left
    it. *)
Definition Image_save (im : Image) (p : Path) : M unit :=
  fun w =>
    let ext := PyStr.lower (splitext_ext (PathLib.str p)) in
    match EXTENSION ext with
    | None => (Raise (ValueError ("unknown file extension: " ++ ext)), w)
    | Some format =>
        match Fs.lookup (fs w) p with
        | Some Dir =>
            (Raise (OSError ("[Errno 21] Is a directory: '" ++ PathLib.str p ++ "'")), w)
        | Some (Regular _) =>
            match save_handler format im with
            | Written f => (Return tt, mkWorld (Fs.update (fs w) p (Regular f)) (out w))
            | Refused msg f =>
                (Raise (OSError msg), mkWorld (Fs.update (fs w) p (Regular f)) (out w))
            end
        | None =>
            match Fs.lookup (fs w) (PathLib.parent p) with
            | Some Dir =>
                match save_handler format im with
                | Written f => (Return tt, mkWorld (Fs.update (fs w) p (Regular f)) (out w))
                | Refused msg _ => (Raise (OSError msg), w)
                end
            | Some (Regular _) =>
                (Raise (OSError ("[Errno 20] Not a directory: '" ++ PathLib.str p ++ "'")), w)
            | None =>
                (Raise (OSError ("[Errno 2] No such file or directory: '" ++ PathLib.str p ++ "'")), w)
            end
        end
    end.

(** [FileConverter._image_to_image]. *)
Definition _image_to_image (input_path output_path : Path) : M unit :=
  try_except
    (img <- Image_open input_path ;;
     let img :=
       if PyStr.mem (PyStr.lower (PathLib.suffix output_path)) [".jpg"; ".jpeg"]
          && PyStr.mem (mode img) ["RGBA"; "LA"]
       then
         let background := PIL.new "RGB" (size img) [255; 255; 255]%N in
         if String.eqb (mode img) "RGBA"
         then PIL.paste background img (PIL.last_band img)
         else PIL.paste background img (PIL.last_band img)
       else if String.eqb (PyStr.lower (PathLib.suffix output_path)) ".ico"
       then Image_resize img (256, 256) LANCZOS
       else img in
     Image_save img output_path)
    (fun e => raise (ConversionError (Failed (str_exn e)))).

(** Calling the routine a table entry refers to. *)
Definition call (m : Method) : Path -> Path -> M unit :=
  match m with image_to_image => _image_to_image end.

(** [FileConverter.convert].  A [Path] object is always true, so
    [if output_dir:] tests that an output location was given. *)
Definition convert (input_path : Path) (output_format : string)
    (output_dir : option Path) : M Path :=
  if negb (PyStr.mem (PyStr.lower output_format) supported_formats)
  then raise (ConversionError (UnsupportedOutput output_format))
  else
    let input_ext := PyStr.lstrip "." (PyStr.lower (PathLib.suffix input_path)) in
    if String.eqb input_ext (PyStr.lower output_format)
    then raise (ConversionError (SameFormat input_ext))
    else
      output_path <-
        match output_dir with
        | Some d =>
            is_file <- read_fs (fun t => Fs.is_file t d) ;;
            if is_file then ret d
            else ret (PathLib.joinpath d (PathLib.stem input_path ++ "." ++ output_format))
        | None => lift (PathLib.with_suffix input_path ("." ++ output_format))
        end ;;
      change_fs (fun t => Fs.mkdir_parents t (PathLib.parent output_path)) ;;;
      match _get_conversion_method input_ext (PyStr.lower output_format) with
      | None => raise (ConversionError (UnsupportedPair input_ext output_format))
      | Some conversion_method =>
          logger_info ("Converting " ++ PathLib.str input_path ++ " (" ++ input_ext
                       ++ ") to " ++ PathLib.str output_path ++ " (" ++ output_format ++ ")") ;;;
          call conversion_method input_path output_path ;;;
          ret output_path
      end.

End Converter.

(* ================================================================== *)
(** ** main.py *)
(* ================================================================== *)

(** The [argparse.Namespace] that [parser.parse_args()] returns.  An
    option that was not given is [None]; [-i] takes one or more values. *)
Record Namespace : Type := mkNamespace {
  input_paths : option (list string);
  batch : option Path;
  output_format : option string;
  output : option Path;
  verbose : bool
}.

(** *** [create_parser] and [parse_args] *)

(** What [parser.parse_args()] comes to: the namespace, or the
    [SystemExit] that argparse raises once it has printed the help or the
    version (status 0), or the usage and an error (status 2).  What
    argparse prints is not modelled. *)
Inductive Parsed : Type :=
  | Parsed_args (args : Namespace)
  | SystemExit (status : nat).

(** The actions behind the option strings of [create_parser]; [-h] and
    [--help] are added by [ArgumentParser] itself. *)
Inductive Action : Type :=
  | help_action
  | store_input_paths
  | store_batch
  | store_output_format
  | store_output
  | store_true_verbose
  | version_action.

Definition option_string_actions : list (string * Action) :=
  [ ("-h", help_action); ("--help", help_action);
    ("-i", store_input_paths); ("--input", store_input_paths);
    ("--batch", store_batch);
    ("-f", store_output_format); ("--format", store_output_format);
    ("-o", store_output); ("--output", store_output);
    ("-v", store_true_verbose); ("--verbose", store_true_verbose);
    ("--version", version_action) ].

Fixpoint action_of (l : list (string * Action)) (arg : string) : option Action :=
  match l with
  | [] => None
  | (option_string, a) :: l' =>
      if String.eqb option_string arg then Some a else action_of l' arg
  end.

(** The command lines the model reads: every argument is an option string
    as [create_parser] spells it, or does not start with [-] and is a
    value.  argparse accepts other spellings besides (a unique prefix of a
    long option, [--format=png], [-fpng], [-vf], a lone [--]); the model
    says nothing about a command line that uses one. *)
Definition spelled_out (argv : list string) : bool :=
  forallb
    (fun arg =>
       negb (PyStr.startswith "-" arg)
       || match action_of option_string_actions arg with
          | Some _ => true
          | None => false
          end)
    argv.

(** An option that takes values stores them once they are complete:
    [nargs='+'] wants one value or more, the other options exactly one;
    [type=Path] makes a path of the value.  [None] stands for the error
    argparse reports ("expected one argument", "expected at least one
    argument"). *)
Definition store (ns : Namespace) (a : Action) (values : list string)
  : option Namespace :=
  match a, values with
  | store_input_paths, _ :: _ =>
      Some (mkNamespace (Some values) (batch ns) (output_format ns) (output ns)
              (verbose ns))
  | store_batch, [v] =>
      Some (mkNamespace (input_paths ns) (Some (PathLib.of_string v))
              (output_format ns) (output ns) (verbose ns))
  | store_output_format, [v] =>
      Some (mkNamespace (input_paths ns) (batch ns) (Some v) (output ns) (verbose ns))
  | store_output, [v] =>
      Some (mkNamespace (input_paths ns) (batch ns) (output_format ns)
              (Some (PathLib.of_string v)) (verbose ns))
  | _, _ => None
  end.

Definition complete (ns : Namespace) (pending : option (Action * list string))
  : option Namespace :=
  match pending with
  | None => Some ns
  | Some (a, values) => store ns a values
  end.

(** The arguments are read from left to right.  [pending] is the option
    whose values are being read, with the values read so far; [stray]
    records that a value came which no option takes.  Such a value makes
    an error at the end only ("unrecognized arguments"), so that [--help]
    and [--version] after it still end the process with status 0. *)
Fixpoint parse_known_args (argv : list string) (ns : Namespace)
    (pending : option (Action * list string)) (stray : bool) : Parsed :=
  match argv with
  | [] =>
      match complete ns pending with
      | None => SystemExit 2
      | Some ns' => if stray then SystemExit 2 else Parsed_args ns'
      end
  | arg :: rest =>
      match action_of option_string_actions arg with
      | Some a =>
          match complete ns pending with
          | None => SystemExit 2
          | Some ns' =>
              match a with
              | help_action | version_action => SystemExit 0
              | store_true_verbose =>
                  parse_known_args rest
                    (mkNamespace (input_paths ns') (batch ns') (output_format ns')
                       (output ns') true)
                    None stray
              | _ => parse_known_args rest ns' (Some (a, [])) stray
              end
          end
      | None =>
          match pending with
          | Some (store_input_paths, values) =>
              parse_known_args rest ns
                (Some (store_input_paths, values ++ [arg])%list) stray
          | Some (a, _) =>
              match store ns a [arg] with
              | Some ns' => parse_known_args rest ns' None stray
              | None => SystemExit 2
              end
          | None => parse_known_args rest ns None true
          end
      end
  end.

(** [parser.parse_args()] on [sys.argv[1:]]; every option is [None] or
    [False] to start with. *)
Definition parse_args (argv : list string) : option Parsed :=
  if spelled_out argv
  then Some (parse_known_args argv (mkNamespace None None None None false) None false)
  else None.

(** Truth values of the options: a list is true when it is not empty, a
    string when it is not empty, a [Path] always. *)
Definition given_list (o : option (list string)) : bool :=
  match o with Some (_ :: _) => true | _ => false end.
Definition given_string (o : option string) : bool :=
  match o with Some s => PyStr.truthy s | None => false end.
Definition given_path (o : option Path) : bool :=
  match o with Some _ => true | None => false end.

Definition paths_of (o : option (list string)) : list string :=
  match o with Some l => l | None => [] end.

(** The list [errors] that [validate_args] builds. *)
Definition validation_errors (args : Namespace) (t : FS) : list string :=
  ((if negb (given_list (input_paths args)) && negb (given_path (batch args))
    then ["Either --input or --batch must be specified"] else [])
   ++
   (if given_list (input_paths args)
       && (1 <? List.length (paths_of (input_paths args)))
       && negb (given_string (output_format args))
    then ["Output format must be specified when converting multiple files"] else [])
   ++
   (if given_list (input_paths args)
       && PyStr.contains "*" (PyStr.join " " (paths_of (input_paths args)))
       && negb (given_string (output_format args))
    then ["Output format must be specified when using glob patterns"] else [])
   ++
   (if given_list (input_paths args)
    then
      flat_map
        (fun path_str =>
           let path := PathLib.of_string path_str in
           if negb (Fs.exists_ t path)
           then [("Input file does not exist: " ++ PathLib.str path)%string] else [])
        (paths_of (input_paths args))
    else [])
   ++
   (match batch args with
    | Some b =>
        if negb (Fs.exists_ t b)
        then [("Batch file does not exist: " ++ PathLib.str b)%string] else []
    | None => []
    end))%list.

Fixpoint print_errors (errors : list string) : M unit :=
  match errors with
  | [] => ret tt
  | error :: rest => print_stderr ("Error: " ++ error) ;;; print_errors rest
  end.

(** [validate_args]. *)
Definition validate_args (args : Namespace) : M bool :=
  errors <- read_fs (validation_errors args) ;;
  match errors with
  | [] => ret true
  | _ :: _ => print_errors errors ;;; ret false
  end.

(** [open(p, 'r')] and reading the lines of the file. *)
Definition read_lines (p : Path) : M (list string) :=
  fun w =>
    match Fs.lookup (fs w) p with
    | Some (Regular f) =>
        match as_text f with
        | Some s => (Return (PyStr.readlines s), w)
        | None => (Raise (ValueError "'utf-8' codec can't decode the file"), w)
        end
    | Some Dir =>
        (Raise (OSError ("[Errno 21] Is a directory: '" ++ PathLib.str p ++ "'")), w)
    | None =>
        (Raise (OSError ("[Errno 2] No such file or directory: '" ++ PathLib.str p ++ "'")), w)
    end.

(** The loop over the lines of the batch file. *)
Fixpoint batch_entries (t : FS) (lines : list string) : list Path :=
  match lines with
  | [] => []
  | line :: rest =>
      let path := PathLib.of_string (PyStr.strip line) in
      if Fs.exists_ t path then path :: batch_entries t rest
      else batch_entries t rest
  end.

Section Main.

Context {platform : Platform}.

(** The loop over [args.input_paths]. *)
Fixpoint input_entries (t : FS) (l : list string) : outcome (list Path) :=
  match l with
  | [] => Return []
  | path_str :: rest =>
      let path := PathLib.of_string path_str in
      let found :=
        if Fs.is_file t path then Return [path]
        else if PyStr.contains "*" path_str then
          let parent_dir := PathLib.parent path in
          let pattern := PathLib.name path in
          glob t parent_dir pattern
        else if Fs.is_dir t path
        then Return (filter (Fs.is_file t) (Fs.iterdir t path))
        else Return [] in
      match found with
      | Raise e => Raise e
      | Return here =>
          match input_entries t rest with
          | Raise e => Raise e
          | Return there => Return (here ++ there)%list
          end
      end
  end.

(** [get_input_files]. *)
Definition get_input_files (args : Namespace) : M (list Path) :=
  match batch args with
  | Some b =>
      lines <- read_lines b ;;
      read_fs (fun t => batch_entries t lines)
  | None =>
      if given_list (input_paths args)
      then fun w => (input_entries (fs w) (paths_of (input_paths args)), w)
      else ret []
  end.

(** The [for input_file in input_files] loop of [main], with its counter. *)
Fixpoint convert_all (input_files : list Path) (fmt : string)
    (output_dir : option Path) (success_count : nat) : M nat :=
  match input_files with
  | [] => ret success_count
  | input_file :: rest =>
      success_count' <-
        try_except
          (output_path <- convert input_file fmt output_dir ;;
           logger_info ("Successfully converted " ++ PathLib.str input_file
                        ++ " -> " ++ PathLib.str output_path) ;;;
           ret (success_count + 1))
          (fun e =>
             logger_error ("Failed to convert " ++ PathLib.str input_file
                           ++ ": " ++ str_exn e) ;;;
             ret success_count) ;;
      convert_all rest fmt output_dir success_count'
  end.

(** [main], from the parsed arguments on; its value is the exit code that
    [sys.exit(main())] passes to the system. *)
Definition main (args : Namespace) : M nat :=
  valid <- validate_args args ;;
  if negb valid then ret 1
  else
    try_except
      (input_files <- get_input_files args ;;
       match input_files with
       | [] => print_stderr "No input files found to process" ;;; ret 1
       | _ :: _ =>
           let chosen :=
             if given_string (output_format args) then output_format args
             else if (List.length input_files =? 1) && given_path (output args)
             then
               match output args with
               | Some o => Some (PyStr.lower (PyStr.lstrip "." (PathLib.suffix o)))
               | None => None
               end
             else None in
           match chosen with
           | None => print_stderr "Output format must be specified" ;;; ret 1
           | Some fmt =>
               success_count <- convert_all input_files fmt (output args) 0 ;;
               logger_info ("Conversion completed: " ++ PyStr.of_nat success_count ++ "/"
                            ++ PyStr.of_nat (List.length input_files)
                            ++ " files processed successfully") ;;;
               ret (if 0 <? success_count then 0 else 1)
           end
       end)
      (fun e => logger_error ("Unexpected error: " ++ str_exn e) ;;; ret 1).

End Main.

(* ================================================================== *)
(** ** utils.py *)
(* ================================================================== *)

Module Utils.

(** [validate_file_exists]. *)
Definition validate_file_exists (t : FS) (file_path : Path) : bool :=
  Fs.exists_ t file_path && Fs.is_file t file_path.

(** [validate_output_format]: the format in lower case is looked up in the
    list of the formats in lower case. *)
Definition validate_output_format (fmt : string) (formats : list string) : bool :=
  PyStr.mem (PyStr.lower fmt) (map PyStr.lower formats).

(** [get_supported_formats]. *)
Definition get_supported_formats : list string :=
  ["txt"; "csv"; "json"; "xml"; "yaml"; "yml";
   "pdf"; "docx"; "md";
   "jpg"; "jpeg"; "png"; "gif"; "bmp";
   "xlsx"].

End Utils.

(* ================================================================== *)
(** ** Definitions for the statements *)
(* ================================================================== *)

(** Step 3 of [convert]: the output path, read off the file system. *)
Definition resolved (input_path : Path) (fmt : string) (output_dir : option Path)
    (t : FS) : outcome Path :=
  match output_dir with
  | Some d =>
      if Fs.is_file t d then Return d
      else Return (PathLib.joinpath d (PathLib.stem input_path ++ "." ++ fmt))
  | None => PathLib.with_suffix input_path ("." ++ fmt)
  end.

(** The extension of the input as [convert] compares it. *)
Definition input_ext_of (input_path : Path) : string :=
  PyStr.lstrip "." (PyStr.lower (PathLib.suffix input_path)).

(** The record [convert] logs before it calls the routine. *)
Definition converting (input_path : Path) (fmt : string) (output_path : Path) : Event :=
  Log INFO ("Converting " ++ PathLib.str input_path ++ " (" ++ input_ext_of input_path
            ++ ") to " ++ PathLib.str output_path ++ " (" ++ fmt ++ ")").

(** [except Exception as e: raise ConversionError(...)]. *)
Definition wrap {A} (e : exn) : M A := raise (ConversionError (Failed (str_exn e))).

(** The records the loop of [main] logs for a file. *)
Definition succeeded_record (input_file output_path : Path) : Event :=
  Log INFO ("Successfully converted " ++ PathLib.str input_file ++ " -> "
            ++ PathLib.str output_path).

Definition failed_record (input_file : Path) (e : exn) : Event :=
  Log ERROR ("Failed to convert " ++ PathLib.str input_file ++ ": " ++ str_exn e).

Definition record_of (input_file : Path) (o : outcome Path) : Event :=
  match o with
  | Return p => succeeded_record input_file p
  | Raise e => failed_record input_file e
  end.

Definition log_event (e : Event) (w : World) : World :=
  mkWorld (fs w) (out w ++ [e])%list.

(** The last record of a run that reaches the loop. *)
Definition summary_record (success_count total : nat) : Event :=
  Log INFO ("Conversion completed: " ++ PyStr.of_nat success_count ++ "/"
            ++ PyStr.of_nat total ++ " files processed successfully").

(** The output format [main] settles on: the one given, or the one read
    off the output path when there is one input file. *)
Definition chosen_format (args : Namespace) (input_files : list Path) : option string :=
  if given_string (output_format args) then output_format args
  else if (List.length input_files =? 1) && given_path (output args)
  then
    match output args with
    | Some o => Some (PyStr.lower (PyStr.lstrip "." (PathLib.suffix o)))
    | None => None
    end
  else None.

(** A file system grows into another when every node it has is still
    there, as it was. *)
Definition grows (t t' : FS) : Prop :=
  forall q n, Fs.lookup t q = Some n -> Fs.lookup t' q = Some n.

(** A file system keeps its nodes when every regular file is still a
    regular file, whatever it holds, and every directory still a directory. *)
Definition keeps (t t' : FS) : Prop :=
  forall q, (Fs.is_file t q = true -> Fs.is_file t' q = true)
            /\ (Fs.is_dir t q = true -> Fs.is_dir t' q = true).

(** Two file systems hold the same regular files, with the same content. *)
Definition same_files (t t' : FS) : Prop :=
  forall q f, Fs.lookup t q = Some (Regular f) <-> Fs.lookup t' q = Some (Regular f).

(** The directory [convert] makes sure of for an output location [d]: the
    parent of [d] when [d] is an existing regular file, [d] itself when it
    is not. *)
Definition output_directory (t : FS) (d : Path) : Path :=
  if Fs.is_file t d then PathLib.parent d else d.

(** [t'] is [t], or [t] with the directory of the output location made. *)
Definition ahead (output_dir : option Path) (t t' : FS) : Prop :=
  t' = t
  \/ exists d, output_dir = Some d
               /\ Fs.mkdir_parents t (output_directory t d) = Return t'.

(** [s.startswith(pre)]. *)
Fixpoint has_prefix (pre s : string) : bool :=
  match pre, s with
  | EmptyString, _ => true
  | String a pre', String b s' => Ascii.eqb a b && has_prefix pre' s'
  | String _ _, EmptyString => false
  end.

(** Reading the log: the records of a success and of a failure. *)
Definition is_success (e : Event) : bool :=
  match e with
  | Log INFO msg => has_prefix "Successfully converted " msg
  | _ => false
  end.

Definition is_failure (e : Event) : bool :=
  match e with
  | Log ERROR msg => has_prefix "Failed to convert " msg
  | _ => false
  end.

Section Readings.

Context {platform : Platform}.

(** The image [_image_to_image] hands to [save]. *)
Definition normalised (img : Image) (output_path : Path) : Image :=
  if PyStr.mem (PyStr.lower (PathLib.suffix output_path)) [".jpg"; ".jpeg"]
     && PyStr.mem (mode img) ["RGBA"; "LA"]
  then PIL.paste (PIL.new "RGB" (size img) [255; 255; 255]%N) img (PIL.last_band img)
  else if String.eqb (PyStr.lower (PathLib.suffix output_path)) ".ico"
  then Image_resize img (256, 256) LANCZOS
  else img.

(** The batch outcome of the specification (4.3): for each input file, in
    order, the outcome of the executor on the world the files before it have
    left. *)
Fixpoint run (input_files : list Path) (fmt : string) (output_dir : option Path)
    (w : World) : list (Path * outcome Path) :=
  match input_files with
  | [] => []
  | input_file :: rest =>
      let '(o, w1) := convert input_file fmt output_dir w in
      (input_file, o) :: run rest fmt output_dir (log_event (record_of input_file o) w1)
  end.

Definition attempted (b : list (Path * outcome Path)) : nat := List.length b.

Definition succeeded (b : list (Path * outcome Path)) : nat :=
  List.length (filter (fun r => returned (snd r)) b).

End Readings.

(* ================================================================== *)
(** ** The process *)
(* ================================================================== *)


Section Process.

Context {platform : Platform}.





End Process.

(* ================================================================== *)
(** ** A platform and a file system to run the model on *)
(* ================================================================== *)

Module Demo.

Definition ends_with (suf s : string) : bool :=
  (String.length suf <=? String.length s)
  && String.eqb (PyStr.slice_from (String.length s - String.length suf) s) suf.

(** Patterns of the form [*tail] and literal names are enough here. *)
Definition matches (pattern name : string) : bool :=
  match pattern with
  | String "*" tail => ends_with tail name
  | _ => String.eqb pattern name
  end.

Definition extension (ext : string) : option string :=
  if PyStr.mem ext [".jpg"; ".jpeg"] then Some "JPEG"
  else if String.eqb ext ".png" then Some "PNG"
  else if String.eqb ext ".gif" then Some "GIF"
  else if String.eqb ext ".bmp" then Some "BMP"
  else if String.eqb ext ".ico" then Some "ICO"
  else if String.eqb ext ".webp" then Some "WEBP"
  else if PyStr.mem ext [".tif"; ".tiff"] then Some "TIFF"
  else None.

(** An encoder without loss, except that JPEG refuses the modes it cannot
    write. *)
Definition encoder (format : string) (im : Image) : Encoded :=
  if String.eqb format "JPEG" && PyStr.mem (mode im) ["RGBA"; "LA"; "P"]
  then Refused ("cannot write mode " ++ mode im ++ " as JPEG") (mkFile None None)
  else Written (mkFile None (Some im)).

(** Resampling that repeats the first pixel. *)
Definition first_pixel (f : Resampling) (sz : nat * nat) (im : Image) : list Pixel :=
  repeat (hd [] (data im)) (fst sz * snd sz).

#[export] Instance platform : Platform := {|
  resample := first_pixel;
  EXTENSION := extension;
  save_handler := encoder;
  glob := fun t dir pattern =>
            Return (filter (fun q => matches pattern (PathLib.name q)) (Fs.iterdir t dir))
|}.

(** A 2x1 RGBA image: a transparent pixel and an opaque one. *)
Definition cat : Image :=
  mkImage "RGBA" (2, 1) [[10; 20; 30; 0]%N; [200; 100; 50; 255]%N].

(** A 1x2 RGB image. *)
Definition photo : Image :=
  mkImage "RGB" (1, 2) [[1; 2; 3]%N; [4; 5; 6]%N].

Definition image_file (im : Image) : Node := Regular (mkFile None (Some im)).
Definition text_file (s : string) : Node := Regular (mkFile (Some s) None).

Definition LF : string := String "010" EmptyString.

(** A batch list of four lines: the second is blank and the third names
    no file. *)
Definition batch_text : string :=
  "cat.png" ++ LF ++ LF ++ "missing.png" ++ LF ++ "photo.jpg" ++ LF.

(** The current directory holds two images, a text file, a file that is
    no image, a batch list with a blank line and a missing entry, and an
    older output; [out] does not exist yet. *)
Definition tree : FS :=
  [ (PathLib.of_string ".", Dir);
    (PathLib.of_string "cat.png", image_file cat);
    (PathLib.of_string "photo.jpg", image_file photo);
    (PathLib.of_string "notes.txt", text_file "hello");
    (PathLib.of_string "broken.png", text_file "not an image");
    (PathLib.of_string "list.txt", text_file batch_text);
    (PathLib.of_string "old.jpg", image_file photo) ].

Definition world : World := mkWorld tree [].

(** A 1x1 palette image, which the JPEG encoder refuses. *)
Definition palette : Image := mkImage "P" (1, 1) [[7]%N].

(** The same directory with the palette image [pal.gif] besides. *)
Definition gallery : World :=
  mkWorld (tree ++ [(PathLib.of_string "pal.gif", image_file palette)])%list [].

End Demo.

Import Demo.

(* ================================================================== *)
(** ** Definitions that follow the words of the specification *)
(* ================================================================== *)

(** The two spellings of the JPEG family. *)
Definition jpeg_family (f : string) : bool := PyStr.mem f ["jpg"; "jpeg"].

(** The dispatcher as the specification words it (4.1): a routine for every
    ordered pair of supported formats of different families, and for no
    other pair. *)
Definition spec_resolve (f1 f2 : string) : option Method :=
  if PyStr.mem f1 supported_formats && PyStr.mem f2 supported_formats
     && negb (String.eqb f1 f2)
     && negb (jpeg_family f1 && jpeg_family f2)
  then Some image_to_image else None.

(** The pairs the table of the source holds: those of [spec_resolve] but the
    ones from the JPEG family to bmp, ico, webp and tiff. *)
Definition registered (f1 f2 : string) : bool :=
  PyStr.mem f1 supported_formats && PyStr.mem f2 supported_formats
  && negb (String.eqb f1 f2)
  && negb (jpeg_family f1 && jpeg_family f2)
  && negb (jpeg_family f1 && PyStr.mem f2 ["bmp"; "ico"; "webp"; "tiff"]).

(** Which of the three checks of [convert] turned a request down, if any. *)
Inductive Rejection : Type :=
  | BadOutputFormat
  | IdenticalFormats
  | NoRoutine.

Definition rejection {A} (o : outcome A) : option Rejection :=
  match o with
  | Raise (ConversionError (UnsupportedOutput _)) => Some BadOutputFormat
  | Raise (ConversionError (SameFormat _)) => Some IdenticalFormats
  | Raise (ConversionError (UnsupportedPair _ _)) => Some NoRoutine
  | _ => None
  end.

(* ================================================================== *)
(** ** The dispatch table *)
(* ================================================================== *)

Lemma dict_get_In {V} (d : list ((string * string) * V)) k v :
  dict_get d k = Some v -> In (k, v) d.
Proof.
  induction d as [|[[a b] u] d IH]; simpl; [discriminate|].
  destruct (String.eqb a (fst k) && String.eqb b (snd k)) eqn:E.
  - intros [= <-]. apply andb_true_iff in E as [Ea Eb].
    apply String.eqb_eq in Ea, Eb. destruct k; simpl in *; subst. now left.
  - intros Hd. right. now apply IH.
Qed.

Lemma mem_supported_cases f :
  PyStr.mem f supported_formats = true ->
  f = "jpg" \/ f = "jpeg" \/ f = "png" \/ f = "gif" \/ f = "bmp"
  \/ f = "ico" \/ f = "webp" \/ f = "tiff".
Proof.
  unfold PyStr.mem, supported_formats. simpl.
  rewrite !orb_true_iff, !String.eqb_eq. intuition discriminate.
Qed.

Lemma methods_keys_supported k v :
  In (k, v) methods ->
  PyStr.mem (fst k) supported_formats = true
  /\ PyStr.mem (snd k) supported_formats = true
  /\ fst k <> snd k.
Proof.
  unfold methods. simpl.
  intros Hin.
  repeat (destruct Hin as [Hin|Hin];
          [inversion Hin; subst; simpl; repeat split; (reflexivity || discriminate)|]).
  contradiction.
Qed.

(** The table holds exactly the [registered] pairs. *)
Lemma methods_registered f1 f2 :
  _get_conversion_method f1 f2 = if registered f1 f2 then Some image_to_image else None.
Proof.
  destruct (_get_conversion_method f1 f2) as [m|] eqn:G.
  - pose proof (methods_keys_supported _ _ (dict_get_In _ _ _ G)) as (H1 & H2 & _).
    simpl in H1, H2.
    apply mem_supported_cases in H1. apply mem_supported_cases in H2.
    destruct m. revert G.
    repeat (destruct H1 as [H1|H1]); repeat (destruct H2 as [H2|H2]);
      subst; vm_compute; intros G; first [discriminate G | reflexivity].
  - destruct (registered f1 f2) eqn:R; [|reflexivity].
    pose proof R as R'.
    unfold registered in R'. rewrite !andb_true_iff in R'.
    destruct R' as ((((H1 & H2) & _) & _) & _).
    apply mem_supported_cases in H1. apply mem_supported_cases in H2.
    revert G R.
    repeat (destruct H1 as [H1|H1]); repeat (destruct H2 as [H2|H2]);
      subst; vm_compute; intros G R; first [discriminate G | discriminate R].
Qed.

Lemma get_conversion_method_identity f : _get_conversion_method f f = None.
Proof.
  rewrite methods_registered. unfold registered.
  rewrite String.eqb_refl. simpl. now rewrite !andb_false_r.
Qed.

Lemma get_conversion_method_unsupported f t :
  PyStr.mem t supported_formats = false -> _get_conversion_method f t = None.
Proof.
  intros Ht. rewrite methods_registered. unfold registered. rewrite Ht.
  now rewrite andb_false_r.
Qed.

(** Where the table and the specification disagree: the JPEG family has no
    entry towards bmp, ico, webp and tiff, and nothing else is missing. *)
Lemma methods_vs_spec f1 f2 :
  _get_conversion_method f1 f2 =
  if jpeg_family f1 && PyStr.mem f2 ["bmp"; "ico"; "webp"; "tiff"]
  then None else spec_resolve f1 f2.
Proof.
  rewrite methods_registered. unfold registered, spec_resolve.
  destruct (jpeg_family f1 && PyStr.mem f2 ["bmp"; "ico"; "webp"; "tiff"]); simpl.
  - now rewrite andb_false_r.
  - now rewrite andb_true_r.
Qed.

(** C1, evaluated on the code.  The table has the entry from bmp to jpg and
    none from jpg to bmp, although the two formats are supported and
    distinct; the dispatcher of the specification has both. *)
Theorem get_conversion_method_jpg_bmp_missing :
  _get_conversion_method "jpg" "bmp" = None
  /\ _get_conversion_method "bmp" "jpg" = Some image_to_image
  /\ spec_resolve "jpg" "bmp" = Some image_to_image
  /\ PyStr.mem "jpg" supported_formats = true
  /\ PyStr.mem "bmp" supported_formats = true.
Proof. repeat split; reflexivity. Qed.

(* ================================================================== *)
(** ** Strings *)
(* ================================================================== *)

Lemma lower_ascii_dot c :
  Ascii.eqb (PyStr.lower_ascii c) "." = Ascii.eqb c ".".
Proof.
  destruct c as [[] [] [] [] [] [] [] []]; reflexivity.
Qed.

Lemma lower_ascii_sep c :
  Ascii.eqb (PyStr.lower_ascii c) "/" = Ascii.eqb c "/".
Proof.
  destruct c as [[] [] [] [] [] [] [] []]; reflexivity.
Qed.

Lemma lower_ascii_idem c :
  PyStr.lower_ascii (PyStr.lower_ascii c) = PyStr.lower_ascii c.
Proof.
  destruct c as [[] [] [] [] [] [] [] []]; reflexivity.
Qed.

Lemma lower_idem s : PyStr.lower (PyStr.lower s) = PyStr.lower s.
Proof.
  induction s as [|c s IH]; simpl; [reflexivity|].
  now rewrite lower_ascii_idem, IH.
Qed.

Lemma lower_length s : String.length (PyStr.lower s) = String.length s.
Proof. induction s; simpl; congruence. Qed.

Lemma lower_app s t : PyStr.lower (s ++ t) = PyStr.lower s ++ PyStr.lower t.
Proof. induction s; simpl; congruence. Qed.

Lemma lower_substring s : forall i m,
  PyStr.lower (substring i m s) = substring i m (PyStr.lower s).
Proof.
  induction s as [|c s IH]; intros [|i] [|m]; simpl; try reflexivity.
  - now rewrite IH.
  - apply IH.
  - apply IH.
Qed.

Lemma lower_rfind_dot s : PyStr.rfind "." (PyStr.lower s) = PyStr.rfind "." s.
Proof.
  induction s as [|c s IH]; simpl; [reflexivity|].
  now rewrite IH, lower_ascii_dot.
Qed.

Lemma lower_contains_sep s : PyStr.contains "/" (PyStr.lower s) = PyStr.contains "/" s.
Proof.
  induction s as [|c s IH]; simpl; [reflexivity|].
  now rewrite IH, lower_ascii_sep.
Qed.

Lemma lower_rfind_sep s : PyStr.rfind "/" (PyStr.lower s) = PyStr.rfind "/" s.
Proof.
  induction s as [|c s IH]; simpl; [reflexivity|].
  now rewrite IH, lower_ascii_sep.
Qed.

Lemma lower_all_dots s : all_dots (PyStr.lower s) = all_dots s.
Proof.
  induction s as [|c s IH]; simpl; [reflexivity|].
  now rewrite IH, lower_ascii_dot.
Qed.

(** The extension that [splitext] cuts off commutes with [lower]. *)
Lemma lower_splitext s : PyStr.lower (splitext_ext s) = splitext_ext (PyStr.lower s).
Proof.
  assert (Base : forall b,
            PyStr.lower
              match PyStr.rfind "." b with
              | Some j => if all_dots (PyStr.slice_to j b) then ""
                          else PyStr.slice_from j b
              | None => ""
              end
            = match PyStr.rfind "." (PyStr.lower b) with
              | Some j => if all_dots (PyStr.slice_to j (PyStr.lower b)) then ""
                          else PyStr.slice_from j (PyStr.lower b)
              | None => ""
              end).
  { intros b. rewrite lower_rfind_dot.
    destruct (PyStr.rfind "." b) as [j|]; [|reflexivity].
    unfold PyStr.slice_to, PyStr.slice_from.
    rewrite lower_length, <- (lower_substring b 0 j), lower_all_dots.
    destruct (all_dots (substring 0 j b)); [reflexivity|].
    apply lower_substring. }
  unfold splitext_ext. rewrite lower_rfind_sep.
  destruct (PyStr.rfind "/" s) as [i|]; [|apply Base].
  rewrite (Base (PyStr.slice_from (S i) s)).
  assert (E : PyStr.lower (PyStr.slice_from (S i) s)
              = PyStr.slice_from (S i) (PyStr.lower s)).
  { unfold PyStr.slice_from. rewrite lower_length. apply lower_substring. }
  now rewrite E.
Qed.

Lemma lower_truthy s : PyStr.truthy (PyStr.lower s) = PyStr.truthy s.
Proof. now destruct s. Qed.

Lemma substring_length s : forall i m,
  i + m <= String.length s -> String.length (substring i m s) = m.
Proof.
  induction s as [|c s IH]; intros [|i] [|m]; simpl; intros Hle; try lia.
  - rewrite IH; [reflexivity|]. simpl in *. lia.
  - apply IH. lia.
  - apply IH. lia.
Qed.

Lemma append_length s t : String.length (s ++ t) = String.length s + String.length t.
Proof. induction s; simpl; congruence. Qed.

Lemma append_assoc (s t u : string) : (s ++ t) ++ u = s ++ (t ++ u).
Proof. induction s; simpl; congruence. Qed.

Lemma rfind_bound c s i : PyStr.rfind c s = Some i -> i < String.length s.
Proof.
  revert i. induction s as [|a s IH]; simpl; [discriminate|].
  intros i. destruct (PyStr.rfind c s) as [j|].
  - intros [= <-]. specialize (IH j eq_refl). lia.
  - destruct (Ascii.eqb a c); [intros [= <-]; lia | discriminate].
Qed.

Lemma truthy_length s : PyStr.truthy s = true <-> 0 < String.length s.
Proof. destruct s; simpl; split; (discriminate || lia || reflexivity). Qed.

(* ================================================================== *)
(** ** Paths and the file system *)
(* ================================================================== *)

Lemma path_eqb_eq p q : PathLib.eqb p q = true <-> p = q.
Proof.
  unfold PathLib.eqb. destruct p as [r l], q as [r' l']; simpl.
  destruct (list_eq_dec string_dec l l') as [->|Hne].
  - rewrite andb_true_r, String.eqb_eq. split; congruence.
  - rewrite andb_false_r. split; [discriminate | congruence].
Qed.

Lemma path_eqb_refl p : PathLib.eqb p p = true.
Proof. now apply path_eqb_eq. Qed.

Lemma lookup_update_same t p n : Fs.lookup (Fs.update t p n) p = Some n.
Proof.
  induction t as [|[q m] t IH]; simpl.
  - now rewrite path_eqb_refl.
  - destruct (PathLib.eqb q p) eqn:E; simpl; rewrite E; [reflexivity | exact IH].
Qed.

Lemma lookup_update_other t p n q :
  PathLib.eqb p q = false -> Fs.lookup (Fs.update t p n) q = Fs.lookup t q.
Proof.
  intros Hpq. induction t as [|[r m] t IH]; simpl.
  - now rewrite Hpq.
  - destruct (PathLib.eqb r p) eqn:E; simpl.
    + apply path_eqb_eq in E. subst r. now rewrite Hpq.
    + now rewrite IH.
Qed.

Lemma name_snoc r l n : PathLib.name (mkPath r (l ++ [n])) = n.
Proof. unfold PathLib.name; simpl. apply last_last. Qed.

Lemma parent_snoc r l n : PathLib.parent (mkPath r (l ++ [n])) = mkPath r l.
Proof. unfold PathLib.parent; simpl. now rewrite removelast_last. Qed.

(** The suffix and the stem of a path split its name. *)
Lemma stem_suffix p : PathLib.name p = PathLib.stem p ++ PathLib.suffix p.
Proof.
  unfold PathLib.stem, PathLib.suffix.
  set (n := PathLib.name p).
  assert (Hsplit : forall i, i <= String.length n ->
            n = PyStr.slice_to i n ++ PyStr.slice_from i n).
  { unfold PyStr.slice_to, PyStr.slice_from. clearbody n. clear p.
    induction n as [|c n IH]; intros [|i] Hi; simpl in *; try lia.
    - reflexivity.
    - destruct n; simpl; [reflexivity|].
      f_equal. specialize (IH 0 ltac:(lia)). simpl in IH. exact IH.
    - f_equal. apply IH. lia. }
  destruct (PyStr.rfind "." n) as [i|] eqn:R.
  - destruct ((0 <? i) && (i <? String.length n - 1)).
    + apply Hsplit. apply rfind_bound in R. lia.
    + clear. induction n; simpl; congruence.
  - clear. induction n; simpl; congruence.
Qed.

(** What [with_suffix] returns: the same root and parent, and the stem with
    the new suffix as its name. *)
Lemma with_suffix_name p s q :
  PathLib.with_suffix p s = Return q ->
  root q = root p
  /\ PathLib.parent q = PathLib.parent p
  /\ PathLib.name q = PathLib.stem p ++ s.
Proof.
  unfold PathLib.with_suffix.
  destruct (PyStr.contains "/" s); [discriminate|].
  destruct ((PyStr.truthy s && negb (PyStr.startswith "." s)) || String.eqb s ".");
    [discriminate|].
  destruct (negb (PyStr.truthy (PathLib.name p))); [discriminate|].
  intros [= <-]. split; [reflexivity|]. split.
  - rewrite parent_snoc. reflexivity.
  - rewrite name_snoc.
    unfold PathLib.suffix, PathLib.stem.
    set (n := PathLib.name p).
    destruct (PyStr.rfind "." n) as [i|] eqn:R; [|reflexivity].
    destruct ((0 <? i) && (i <? String.length n - 1)) eqn:C; [|reflexivity].
    apply andb_true_iff in C as [_ C]. apply Nat.ltb_lt in C.
    assert (L : String.length (PyStr.slice_from i n) = String.length n - i).
    { unfold PyStr.slice_from. apply substring_length. lia. }
    pose proof (rfind_bound _ _ _ R) as B.
    assert (T : PyStr.truthy (PyStr.slice_from i n) = true)
      by (apply truthy_length; lia).
    rewrite T, L. simpl.
    now replace (String.length n - (String.length n - i)) with i by lia.
Qed.

(* ================================================================== *)
(** ** The executor, step by step *)
(* ================================================================== *)

Section Executor.

Context {platform : Platform}.

Lemma image_to_image_unfold input_path output_path w :
  _image_to_image input_path output_path w =
  match Image_open input_path w with
  | (Return img, w1) =>
      try_except (Image_save (normalised img output_path) output_path) wrap w1
  | (Raise e, w1) => (Raise (ConversionError (Failed (str_exn e))), w1)
  end.
Proof.
  unfold _image_to_image, try_except, bind, normalised, wrap, raise.
  destruct (Image_open input_path w) as [[img|e] w1]; [|reflexivity].
  destruct (String.eqb (mode img) "RGBA"); reflexivity.
Qed.

Lemma Image_open_world p w o w' : Image_open p w = (o, w') -> w' = w.
Proof.
  unfold Image_open.
  destruct (Fs.lookup (fs w) p) as [[|f]|]; [| destruct (as_image f) |];
    now intros [= _ <-].
Qed.

Lemma Image_open_fs p w1 w2 :
  fs w1 = fs w2 -> fst (Image_open p w1) = fst (Image_open p w2).
Proof.
  unfold Image_open. intros ->.
  destruct (Fs.lookup (fs w2) p) as [[|f]|]; [| destruct (as_image f) |]; reflexivity.
Qed.

Lemma Image_save_out im p w : out (snd (Image_save im p w)) = out w.
Proof.
  unfold Image_save.
  destruct (EXTENSION _); [|reflexivity].
  destruct (Fs.lookup (fs w) p) as [[|f]|]; [reflexivity| |].
  - destruct (save_handler _ im); reflexivity.
  - destruct (Fs.lookup (fs w) (PathLib.parent p)) as [[|f]|]; try reflexivity.
    destruct (save_handler _ im); reflexivity.
Qed.

Lemma Image_save_fs im p w1 w2 :
  fs w1 = fs w2 ->
  fst (Image_save im p w1) = fst (Image_save im p w2)
  /\ fs (snd (Image_save im p w1)) = fs (snd (Image_save im p w2)).
Proof.
  unfold Image_save. intros E. rewrite E.
  destruct (EXTENSION _); [|now split].
  destruct (Fs.lookup (fs w2) p) as [[|f]|]; [now split| |].
  - destruct (save_handler _ im); now split.
  - destruct (Fs.lookup (fs w2) (PathLib.parent p)) as [[|f]|]; try (now split).
    destruct (save_handler _ im); now split.
Qed.

(** The routine neither reads nor writes the log. *)
Lemma image_to_image_out input_path output_path w :
  out (snd (_image_to_image input_path output_path w)) = out w.
Proof.
  rewrite image_to_image_unfold.
  destruct (Image_open input_path w) as [[img|e] w1] eqn:O;
    apply Image_open_world in O; subst w1; [|reflexivity].
  unfold try_except.
  pose proof (Image_save_out (normalised img output_path) output_path w) as S.
  destruct (Image_save (normalised img output_path) output_path w) as [[[]|e] w2];
    exact S.
Qed.

Lemma image_to_image_fs input_path output_path w1 w2 :
  fs w1 = fs w2 ->
  fst (_image_to_image input_path output_path w1)
  = fst (_image_to_image input_path output_path w2)
  /\ fs (snd (_image_to_image input_path output_path w1))
     = fs (snd (_image_to_image input_path output_path w2)).
Proof.
  intros E. rewrite !image_to_image_unfold.
  pose proof (Image_open_fs input_path w1 w2 E) as O.
  destruct (Image_open input_path w1) as [[img1|e1] v1] eqn:O1;
    destruct (Image_open input_path w2) as [[img2|e2] v2] eqn:O2;
    simpl in O; try discriminate;
    apply Image_open_world in O1; apply Image_open_world in O2; subst v1 v2.
  - injection O as ->. unfold try_except.
    pose proof (Image_save_fs (normalised img2 output_path) output_path w1 w2 E)
      as [S1 S2].
    destruct (Image_save (normalised img2 output_path) output_path w1) as [[[]|e1] u1];
      destruct (Image_save (normalised img2 output_path) output_path w2) as [[[]|e2] u2];
      simpl in *; try discriminate; split; congruence.
  - injection O as ->. now split.
Qed.

(** [convert] as a decision tree over the file system. *)
Lemma convert_unfold input_path fmt output_dir w :
  convert input_path fmt output_dir w =
  if negb (PyStr.mem (PyStr.lower fmt) supported_formats)
  then (Raise (ConversionError (UnsupportedOutput fmt)), w)
  else if String.eqb (input_ext_of input_path) (PyStr.lower fmt)
  then (Raise (ConversionError (SameFormat (input_ext_of input_path))), w)
  else
    match resolved input_path fmt output_dir (fs w) with
    | Raise e => (Raise e, w)
    | Return p =>
        match Fs.mkdir_parents (fs w) (PathLib.parent p) with
        | Raise e => (Raise e, w)
        | Return t =>
            match _get_conversion_method (input_ext_of input_path) (PyStr.lower fmt) with
            | None =>
                (Raise (ConversionError (UnsupportedPair (input_ext_of input_path) fmt)),
                 mkWorld t (out w))
            | Some m =>
                match call m input_path p
                        (mkWorld t (out w ++ [converting input_path fmt p])%list) with
                | (Return _, w') => (Return p, w')
                | (Raise e, w') => (Raise e, w')
                end
            end
        end
    end.
Proof.
  unfold convert, input_ext_of, converting.
  destruct (negb (PyStr.mem (PyStr.lower fmt) supported_formats)); [reflexivity|].
  destruct (String.eqb _ (PyStr.lower fmt)); [reflexivity|].
  unfold bind, resolved, read_fs, lift, ret, change_fs, raise, logger_info, emit.
  destruct output_dir as [d|].
  - destruct (Fs.is_file (fs w) d); simpl;
      destruct (Fs.mkdir_parents (fs w) _); try reflexivity;
      destruct (_get_conversion_method _ _); try reflexivity; simpl;
      destruct (call _ _ _ _) as [[[]|e] w']; reflexivity.
  - destruct (PathLib.with_suffix input_path ("." ++ fmt)); [|reflexivity]; simpl.
    destruct (Fs.mkdir_parents (fs w) _); try reflexivity;
      destruct (_get_conversion_method _ _); try reflexivity; simpl;
      destruct (call _ _ _ _) as [[[]|e] w']; reflexivity.
Qed.

(** A request for an unsupported output format is turned down at once. *)
Lemma convert_bad_output input_path fmt output_dir w :
  PyStr.mem (PyStr.lower fmt) supported_formats = false ->
  convert input_path fmt output_dir w
  = (Raise (ConversionError (UnsupportedOutput fmt)), w).
Proof. intros E. rewrite convert_unfold, E. reflexivity. Qed.

(** So is a request whose input already has the output format. *)
Lemma convert_same_format input_path fmt output_dir w :
  PyStr.mem (PyStr.lower fmt) supported_formats = true ->
  input_ext_of input_path = PyStr.lower fmt ->
  convert input_path fmt output_dir w
  = (Raise (ConversionError (SameFormat (input_ext_of input_path))), w).
Proof.
  intros E S. rewrite convert_unfold, E. simpl.
  rewrite S at 1. now rewrite String.eqb_refl.
Qed.

End Executor.

(* ================================================================== *)
(** ** Rejection and the output path *)
(* ================================================================== *)


(** C2, evaluated on the code.  [notes.txt] to png is a pair without a
    routine; [convert] raises for it, but only after it has created the
    output directory [out], which did not exist before the call. *)
Theorem convert_makes_directory_before_rejecting :
  let input_path := PathLib.of_string "notes.txt" in
  let output_dir := PathLib.of_string "out" in
  let result := convert input_path "png" (Some output_dir) Demo.world in
  _get_conversion_method "txt" "png" = None
  /\ Fs.exists_ (fs Demo.world) output_dir = false
  /\ fst result = Raise (ConversionError (UnsupportedPair "txt" "png"))
  /\ Fs.is_dir (fs (snd result)) output_dir = true.
Proof. repeat split; reflexivity. Qed.

Section OutputPath.

Context {platform : Platform}.

(** The third check comes after the directory is made: a request for a
    pair without routine raises in the world that [mkdir] has left. *)
Lemma convert_no_routine input_path fmt output_dir w p t :
  PyStr.mem (PyStr.lower fmt) supported_formats = true ->
  input_ext_of input_path <> PyStr.lower fmt ->
  resolved input_path fmt output_dir (fs w) = Return p ->
  Fs.mkdir_parents (fs w) (PathLib.parent p) = Return t ->
  _get_conversion_method (input_ext_of input_path) (PyStr.lower fmt) = None ->
  convert input_path fmt output_dir w
  = (Raise (ConversionError (UnsupportedPair (input_ext_of input_path) fmt)),
     mkWorld t (out w)).
Proof.
  intros S N R K G. rewrite convert_unfold, S, R, K, G.
  apply String.eqb_neq in N. now rewrite N.
Qed.

(** Whenever [convert] returns, it returns the path of step 3. *)
Lemma convert_returns_resolved input_path fmt output_dir w p w' :
  convert input_path fmt output_dir w = (Return p, w') ->
  resolved input_path fmt output_dir (fs w) = Return p.
Proof.
  rewrite convert_unfold.
  destruct (negb _); [discriminate|].
  destruct (String.eqb _ _); [discriminate|].
  destruct (resolved input_path fmt output_dir (fs w)) as [q|e]; [|discriminate].
  destruct (Fs.mkdir_parents _ _); [|discriminate].
  destruct (_get_conversion_method _ _); [|discriminate].
  destruct (call _ _ _ _) as [[[]|e] w'']; [|discriminate].
  now intros [= -> _].
Qed.

(** C3.  The path [convert] returns is [output_dir] itself when that is an
    existing regular file; [output_dir] joined with the stem of the input,
    a dot and the output format when it is given and is no such file; and
    without [output_dir] the input path with its suffix replaced by a dot and
    the output format: same parent, and the stem followed by the new
    suffix as name. *)
Theorem convert_output_path input_path fmt output_dir w p w' :
  convert input_path fmt output_dir w = (Return p, w') ->
  match output_dir with
  | Some d =>
      if Fs.is_file (fs w) d then p = d
      else p = PathLib.joinpath d (PathLib.stem input_path ++ "." ++ fmt)
  | None =>
      PathLib.with_suffix input_path ("." ++ fmt) = Return p
      /\ PathLib.parent p = PathLib.parent input_path
      /\ PathLib.name p = PathLib.stem input_path ++ "." ++ fmt
  end.
Proof.
  intros C. apply convert_returns_resolved in C. unfold resolved in C.
  destruct output_dir as [d|].
  - destruct (Fs.is_file (fs w) d); now injection C.
  - split; [exact C|]. now apply with_suffix_name in C.
Qed.

End OutputPath.

Lemma convert_output_path_witness :
  let input_path := PathLib.of_string "cat.png" in
  let d := PathLib.of_string "out" in
  let p := PathLib.of_string "out/cat.jpg" in
  let w' := snd (convert input_path "jpg" (Some d) Demo.world) in
  convert input_path "jpg" (Some d) Demo.world = (Return p, w')
  /\ (if Fs.is_file (fs Demo.world) d then p = d
      else p = PathLib.joinpath d (PathLib.stem input_path ++ "." ++ "jpg")).
Proof.
  split; [reflexivity|].
  exact (convert_output_path (PathLib.of_string "cat.png") "jpg"
           (Some (PathLib.of_string "out")) Demo.world
           (PathLib.of_string "out/cat.jpg")
           (snd (convert (PathLib.of_string "cat.png") "jpg"
                   (Some (PathLib.of_string "out")) Demo.world))
           eq_refl).
Defined.

(** The three cases of the output path on the demo tree. *)
Example output_path_cases :
  fst (convert (PathLib.of_string "cat.png") "gif"
         (Some (PathLib.of_string "old.jpg")) Demo.world)
  = Return (PathLib.of_string "old.jpg")
  /\ fst (convert (PathLib.of_string "cat.png") "gif"
            (Some (PathLib.of_string "out")) Demo.world)
     = Return (PathLib.of_string "out/cat.gif")
  /\ fst (convert (PathLib.of_string "cat.png") "gif" None Demo.world)
     = Return (PathLib.of_string "cat.gif").
Proof. repeat split; reflexivity. Qed.

(* ================================================================== *)
(** ** Normalisation before encoding *)
(* ================================================================== *)

Lemma div255_times_255 v : (v <= 255)%N -> PIL.div255 (v * 255) = v.
Proof.
  intros Hv.
  assert (A : forallb (fun n => N.eqb (PIL.div255 (N.of_nat n * 255)) (N.of_nat n))
                (seq 0 256) = true) by (vm_compute; reflexivity).
  rewrite forallb_forall in A.
  specialize (A (N.to_nat v)).
  rewrite N2Nat.id in A. apply N.eqb_eq, A, in_seq. lia.
Qed.

(** Mask 0 keeps the destination and mask 255 copies the source. *)
Lemma blend_0 o i : (o <= 255)%N -> PIL.blend 0 o i = o.
Proof.
  intros Ho. unfold PIL.blend.
  rewrite N.mul_0_r, N.add_0_r. now apply div255_times_255.
Qed.

Lemma blend_255 o i : (i <= 255)%N -> PIL.blend 255 o i = i.
Proof.
  intros Hi. unfold PIL.blend.
  replace (255 - 255)%N with 0%N by reflexivity.
  rewrite N.mul_0_r, N.add_0_l. now apply div255_times_255.
Qed.

Lemma blend_pixel_0 out inp :
  Forall (fun v => (v <= 255)%N) out -> PIL.blend_pixel 0 out inp = out.
Proof.
  intros Hout. revert inp.
  induction Hout as [|o out Ho _ IH]; intros [|i inp]; simpl; try reflexivity.
  now rewrite blend_0, IH.
Qed.

Lemma blend_pixel_255 out inp :
  List.length out = List.length inp ->
  Forall (fun v => (v <= 255)%N) inp -> PIL.blend_pixel 255 out inp = inp.
Proof.
  intros L Hinp. revert out L.
  induction Hinp as [|i inp Hi _ IH]; intros [|o out] L; simpl in *;
    try reflexivity; try discriminate.
  rewrite blend_255 by assumption. f_equal. apply IH. now injection L.
Qed.

Lemma blend_pixel_length m out inp :
  List.length (PIL.blend_pixel m out inp) = List.length out.
Proof.
  revert inp. induction out as [|o out IH]; intros [|i inp]; simpl; try reflexivity.
  now rewrite IH.
Qed.

Lemma paste_data_length out inp mask :
  List.length (PIL.paste_data out inp mask) = List.length out.
Proof.
  revert inp mask.
  induction out as [|o out IH]; intros [|i inp] [|m mask]; simpl; try reflexivity.
  now rewrite IH.
Qed.

Lemma paste_data_nth out : forall inp mask k o i m,
  nth_error out k = Some o ->
  nth_error inp k = Some i ->
  nth_error mask k = Some m ->
  nth_error (PIL.paste_data out inp mask) k = Some (PIL.blend_pixel (PIL.level m) o i).
Proof.
  induction out as [|o' out IH]; intros [|i' inp] [|m' mask] [|k] o i m;
    simpl; try discriminate.
  - now intros [= ->] [= ->] [= ->].
  - apply IH.
Qed.

Lemma paste_data_pixels n out : forall inp mask,
  Forall (fun px => List.length px = n) out ->
  Forall (fun px => List.length px = n) (PIL.paste_data out inp mask).
Proof.
  induction out as [|o out IH]; intros inp mask Hout; [constructor|].
  destruct inp as [|i inp]; [exact Hout|].
  destruct mask as [|m mask]; [exact Hout|].
  simpl. inversion Hout as [|? ? Ho Hrest]; subst.
  constructor; [now rewrite blend_pixel_length | now apply IH].
Qed.

Lemma to_RGB_opaque m px :
  PyStr.mem m ["RGBA"; "LA"] = true ->
  List.length px = PIL.bands m ->
  Forall (fun v => (v <= 255)%N) px ->
  List.length (PIL.to_RGB m px) = 3
  /\ Forall (fun v => (v <= 255)%N) (PIL.to_RGB m px).
Proof.
  unfold PIL.to_RGB, PIL.bands, PyStr.mem. simpl.
  destruct (String.eqb m "RGBA") eqn:E1.
  - intros _ L F.
    destruct px as [|a [|b [|c [|d [|]]]]]; try discriminate. simpl.
    split; [reflexivity|].
    inversion F as [|? ? Fa F1]; inversion F1 as [|? ? Fb F2];
      inversion F2 as [|? ? Fc F3]; subst. repeat constructor; assumption.
  - destruct (String.eqb m "LA") eqn:E2; [|discriminate].
    intros _ L F. destruct px as [|a [|b [|]]]; try discriminate. simpl.
    split; [reflexivity|].
    inversion F; subst. repeat constructor; assumption.
Qed.

Section Normalisation.

Context {platform : Platform}.

(** What a call of the routine that returns has done: it has decoded the
    input and written, at the output path, the file the encoder of the
    output path's extension makes of the normalised image. *)
Lemma image_to_image_returns input_path output_path w w' :
  _image_to_image input_path output_path w = (Return tt, w') ->
  exists img format f,
    Image_open input_path w = (Return img, w)
    /\ EXTENSION (PyStr.lower (splitext_ext (PathLib.str output_path))) = Some format
    /\ save_handler format (normalised img output_path) = Written f
    /\ Fs.lookup (fs w') output_path = Some (Regular f).
Proof.
  rewrite image_to_image_unfold.
  destruct (Image_open input_path w) as [[img|e] w1] eqn:O; [|discriminate].
  pose proof (Image_open_world _ _ _ _ O) as ->.
  unfold try_except, Image_save, wrap, raise.
  destruct (EXTENSION _) as [format|] eqn:X; [|discriminate].
  intros S. exists img, format.
  destruct (Fs.lookup (fs w) output_path) as [[|g]|]; [discriminate| |].
  - destruct (save_handler format _) as [f|msg f] eqn:V; [|discriminate].
    injection S as <-. exists f. simpl. now rewrite lookup_update_same.
  - destruct (Fs.lookup (fs w) (PathLib.parent output_path)) as [[|g]|];
      try discriminate.
    destruct (save_handler format _) as [f|msg f] eqn:V; [|discriminate].
    injection S as <-. exists f. simpl. now rewrite lookup_update_same.
Qed.

(** C4.  For a decoded RGBA or LA image and an output path with suffix
    .jpg or .jpeg (in any case), the image handed to the encoder is the
    paste of the image, masked by its own last band, onto a white RGB image
    of the same size.  It is an RGB image with three bands per pixel; where
    the alpha of the source is 0 it is pure white, and where the alpha is
    255 it has the colour of the source. *)
Theorem alpha_composited_onto_white input_path output_path w img :
  Image_open input_path w = (Return img, w) ->
  PyStr.mem (PyStr.lower (PathLib.suffix output_path)) [".jpg"; ".jpeg"] = true ->
  PyStr.mem (mode img) ["RGBA"; "LA"] = true ->
  PIL.well_formed img ->
  let white := [255; 255; 255]%N in
  let flat := PIL.paste (PIL.new "RGB" (size img) white) img (PIL.last_band img) in
  _image_to_image input_path output_path w
  = try_except (Image_save flat output_path) wrap w
  /\ mode flat = "RGB"
  /\ size flat = size img
  /\ List.length (data flat) = fst (size img) * snd (size img)
  /\ Forall (fun px => List.length px = 3) (data flat)
  /\ (forall k px, nth_error (data img) k = Some px -> last px 0%N = 0%N ->
        nth_error (data flat) k = Some white)
  /\ (forall k px, nth_error (data img) k = Some px -> last px 0%N = 255%N ->
        nth_error (data flat) k = Some (PIL.to_RGB (mode img) px)).
Proof.
  intros O J A [Hlen Hpx] white flat.
  assert (Hwhite : Forall (fun v => (v <= 255)%N) white)
    by (repeat constructor; discriminate).
  assert (Hnth : forall k px, nth_error (data img) k = Some px ->
            nth_error (data flat) k
            = Some (PIL.blend_pixel (last px 0%N) white (PIL.to_RGB (mode img) px))).
  { intros k px Hk. unfold flat, PIL.paste, PIL.new, PIL.last_band. simpl.
    apply (paste_data_nth _ _ _ k white (PIL.to_RGB (mode img) px) [last px 0%N]).
    - apply nth_error_repeat. rewrite <- Hlen.
      apply nth_error_Some. now rewrite Hk.
    - now apply map_nth_error.
    - now apply (map_nth_error (fun px => [last px 0%N])). }
  repeat split.
  - rewrite image_to_image_unfold, O. unfold normalised. now rewrite J, A.
  - unfold flat, PIL.paste, PIL.new. simpl.
    now rewrite paste_data_length, repeat_length.
  - unfold flat, PIL.paste, PIL.new. simpl.
    apply paste_data_pixels, Forall_forall.
    now intros px ->%repeat_spec.
  - intros k px Hk Ha. rewrite (Hnth k px Hk), Ha.
    now rewrite blend_pixel_0.
  - intros k px Hk Ha. rewrite (Hnth k px Hk), Ha.
    rewrite Forall_forall in Hpx.
    destruct (Hpx px (nth_error_In _ _ Hk)) as [Lpx Bpx].
    destruct (to_RGB_opaque (mode img) px A Lpx Bpx) as [L3 B3].
    now rewrite blend_pixel_255.
Qed.

(** C5.  For a decoded image of any size and mode and an output path with
    suffix .ico (in any case), the image handed to the encoder is the image
    resized to 256 by 256 with the Lanczos filter; when the routine returns,
    the file at the output path is what the encoder made of that image. *)
Theorem icon_resized_to_256 input_path output_path w img :
  Image_open input_path w = (Return img, w) ->
  PyStr.lower (PathLib.suffix output_path) = ".ico" ->
  let icon := Image_resize img (256, 256) LANCZOS in
  _image_to_image input_path output_path w
  = try_except (Image_save icon output_path) wrap w
  /\ size icon = (256, 256)
  /\ data icon = resample LANCZOS (256, 256) img
  /\ (forall w', _image_to_image input_path output_path w = (Return tt, w') ->
        exists format f,
          EXTENSION (PyStr.lower (splitext_ext (PathLib.str output_path))) = Some format
          /\ save_handler format icon = Written f
          /\ Fs.lookup (fs w') output_path = Some (Regular f)).
Proof.
  intros O I icon.
  assert (N : normalised img output_path = icon).
  { unfold normalised. rewrite I. reflexivity. }
  repeat split.
  - rewrite image_to_image_unfold, O, N. reflexivity.
  - intros w' R. apply image_to_image_returns in R as (img' & format & f & O' & X & V & L).
    rewrite O in O'. injection O' as <-. rewrite N in V. now exists format, f.
Qed.

End Normalisation.

Lemma alpha_composited_onto_white_witness :
  let input_path := PathLib.of_string "cat.png" in
  let output_path := PathLib.of_string "out/cat.JPG" in
  Image_open input_path Demo.world = (Return Demo.cat, Demo.world)
  /\ PIL.well_formed Demo.cat
  /\ data (PIL.paste (PIL.new "RGB" (2, 1) [255; 255; 255]%N) Demo.cat
             (PIL.last_band Demo.cat))
     = [[255; 255; 255]%N; [200; 100; 50]%N]
  /\ nth_error [[255; 255; 255]%N; [200; 100; 50]%N] 0 = Some [255; 255; 255]%N.
Proof.
  assert (W : PIL.well_formed Demo.cat).
  { split; [reflexivity|]. repeat constructor; discriminate. }
  split; [reflexivity|]. split; [exact W|]. split; [reflexivity|].
  exact (proj1 (proj2 (proj2 (proj2 (proj2 (proj2
           (alpha_composited_onto_white (PathLib.of_string "cat.png")
              (PathLib.of_string "out/cat.JPG") Demo.world Demo.cat
              eq_refl eq_refl eq_refl W))))))
           0 [10; 20; 30; 0]%N eq_refl eq_refl).
Defined.

Lemma icon_resized_to_256_witness :
  let input_path := PathLib.of_string "photo.jpg" in
  let output_path := PathLib.of_string "photo.ICO" in
  Image_open input_path Demo.world = (Return Demo.photo, Demo.world)
  /\ PyStr.lower (PathLib.suffix output_path) = ".ico"
  /\ size Demo.photo = (1, 2)
  /\ size (Image_resize Demo.photo (256, 256) LANCZOS) = (256, 256).
Proof.
  split; [reflexivity|]. split; [reflexivity|]. split; [reflexivity|].
  exact (proj1 (proj2
           (icon_resized_to_256 (PathLib.of_string "photo.jpg")
              (PathLib.of_string "photo.ICO") Demo.world Demo.photo
              eq_refl eq_refl))).
Defined.

(* ================================================================== *)
(** ** Format tokens in the output path *)
(* ================================================================== *)

Lemma split_no_sep s : PyStr.contains "/" s = false -> PyStr.split "/" s = [s].
Proof.
  induction s as [|c s IH]; simpl; [reflexivity|].
  destruct (Ascii.eqb c "/"); simpl; [discriminate|].
  intros C. now rewrite (IH C).
Qed.

Lemma contains_app c s t :
  PyStr.contains c (s ++ t) = PyStr.contains c s || PyStr.contains c t.
Proof.
  induction s as [|a s IH]; simpl; [reflexivity|].
  now rewrite IH, orb_assoc.
Qed.

(** A string without separator that is neither empty nor a single dot
    parses as the relative path of one component. *)
Lemma of_string_component s :
  PyStr.contains "/" s = false -> PathLib.is_component s = true ->
  PathLib.of_string s = mkPath "" [s].
Proof.
  intros C K. unfold PathLib.of_string, PathLib.splitroot.
  assert (L : PathLib.leading_seps s = 0).
  { destruct s as [|a s]; [reflexivity|]. simpl in *.
    now destruct (Ascii.eqb a "/"). }
  rewrite L, (split_no_sep s C). simpl. now rewrite K.
Qed.

Lemma is_component_dotted s f :
  PyStr.truthy f = true -> PathLib.is_component (s ++ "." ++ f) = true.
Proof.
  intros T. unfold PathLib.is_component.
  destruct f as [|c f]; [discriminate|].
  destruct s as [|a [|b s]]; simpl; try reflexivity.
  - destruct (Ascii.eqb a "."); reflexivity.
  - destruct (Ascii.eqb a "."); reflexivity.
Qed.

Lemma supported_token f :
  PyStr.mem (PyStr.lower f) supported_formats = true ->
  PyStr.contains "/" f = false /\ PyStr.truthy f = true.
Proof.
  intros S. rewrite <- lower_contains_sep, <- lower_truthy.
  apply mem_supported_cases in S.
  repeat (destruct S as [S|S]); rewrite S; now split.
Qed.

(** The directory case of step 3: the output lies in [d]. *)
Lemma joinpath_dotted d s f :
  PyStr.contains "/" s = false ->
  PyStr.contains "/" f = false -> PyStr.truthy f = true ->
  PathLib.joinpath d (s ++ "." ++ f) = mkPath (root d) (parts d ++ [s ++ "." ++ f]).
Proof.
  intros Cs Cf T. unfold PathLib.joinpath.
  rewrite of_string_component.
  - reflexivity.
  - rewrite !contains_app, Cs, Cf. reflexivity.
  - now apply is_component_dotted.
Qed.

(** The suffix in lower case depends on the name in lower case only. *)
Lemma lower_suffix_name p q :
  PyStr.lower (PathLib.name p) = PyStr.lower (PathLib.name q) ->
  PyStr.lower (PathLib.suffix p) = PyStr.lower (PathLib.suffix q).
Proof.
  intros E. unfold PathLib.suffix.
  set (n := PathLib.name p) in *. set (m := PathLib.name q) in *.
  assert (R : PyStr.rfind "." n = PyStr.rfind "." m)
    by (rewrite <- (lower_rfind_dot n), <- (lower_rfind_dot m); now rewrite E).
  assert (L : String.length n = String.length m)
    by (rewrite <- (lower_length n), <- (lower_length m); now rewrite E).
  rewrite R, L.
  destruct (PyStr.rfind "." m) as [i|]; [|reflexivity].
  destruct ((0 <? i) && (i <? String.length m - 1)); [|reflexivity].
  unfold PyStr.slice_from. now rewrite !lower_substring, L, E.
Qed.

Lemma with_suffix_case p f1 f2 :
  PyStr.lower f1 = PyStr.lower f2 ->
  match PathLib.with_suffix p ("." ++ f1), PathLib.with_suffix p ("." ++ f2) with
  | Return q1, Return q2 =>
      PathLib.parent q1 = PathLib.parent q2
      /\ PyStr.lower (PathLib.name q1) = PyStr.lower (PathLib.name q2)
  | Raise e1, Raise e2 =>
      rejection (@Raise Path e1) = None /\ rejection (@Raise Path e2) = None
  | _, _ => False
  end.
Proof.
  intros E.
  pose proof (with_suffix_name p ("." ++ f1)) as N1.
  pose proof (with_suffix_name p ("." ++ f2)) as N2.
  unfold PathLib.with_suffix in *.
  assert (C : PyStr.contains "/" ("." ++ f1) = PyStr.contains "/" ("." ++ f2)).
  { simpl. rewrite <- (lower_contains_sep f1), <- (lower_contains_sep f2).
    now rewrite E. }
  assert (D : String.eqb ("." ++ f1) "." = String.eqb ("." ++ f2) ".").
  { destruct f1, f2; try reflexivity; discriminate. }
  rewrite C, D in *. clear C D.
  destruct (PyStr.contains "/" ("." ++ f2)); [now split|].
  simpl PyStr.truthy in *. simpl PyStr.startswith in *. simpl negb in *.
  simpl andb in *. simpl orb in *.
  destruct (String.eqb f2 ""); [now split|].
  destruct (negb (PyStr.truthy (PathLib.name p))); [now split|].
  destruct (N1 _ eq_refl) as (_ & P1 & M1).
  destruct (N2 _ eq_refl) as (_ & P2 & M2).
  split; [congruence|].
  rewrite M1, M2, !lower_app. simpl. now rewrite E.
Qed.

(** The input format is read off the name in lower case. *)
Lemma input_ext_case p q :
  PyStr.lower (PathLib.name p) = PyStr.lower (PathLib.name q) ->
  input_ext_of p = input_ext_of q.
Proof.
  intros E. unfold input_ext_of. now rewrite (lower_suffix_name p q E).
Qed.

Lemma resolved_case input_path f1 f2 output_dir t :
  PyStr.lower f1 = PyStr.lower f2 ->
  PyStr.mem (PyStr.lower f2) supported_formats = true ->
  PyStr.contains "/" (PathLib.stem input_path) = false ->
  match resolved input_path f1 output_dir t, resolved input_path f2 output_dir t with
  | Return q1, Return q2 =>
      PathLib.parent q1 = PathLib.parent q2
      /\ PyStr.lower (PathLib.name q1) = PyStr.lower (PathLib.name q2)
      /\ (forall d, output_dir = Some d -> Fs.is_file t d = true -> q1 = q2)
  | Raise e1, Raise e2 =>
      rejection (@Raise Path e1) = None /\ rejection (@Raise Path e2) = None
  | _, _ => False
  end.
Proof.
  intros E S C. unfold resolved.
  destruct output_dir as [d|].
  - destruct (Fs.is_file t d) eqn:F; [repeat split; reflexivity|].
    destruct (supported_token f2 S) as [C2 T2].
    assert (S1 : PyStr.mem (PyStr.lower f1) supported_formats = true) by now rewrite E.
    destruct (supported_token f1 S1) as [C1 T1].
    rewrite !joinpath_dotted by assumption.
    rewrite !parent_snoc, !name_snoc, !lower_app. simpl. rewrite E.
    repeat split. intros d' [= <-] F'. congruence.
  - pose proof (with_suffix_case input_path f1 f2 E) as W.
    destruct (PathLib.with_suffix input_path ("." ++ f1));
      destruct (PathLib.with_suffix input_path ("." ++ f2)); try exact W.
    destruct W as [W1 W2]. repeat split; try assumption. discriminate.
Qed.

Section LetterCase.

Context {platform : Platform}.

Lemma call_not_rejected m input_path output_path w :
  rejection (fst (call m input_path output_path w)) = None.
Proof.
  destruct m. simpl. rewrite image_to_image_unfold.
  destruct (Image_open input_path w) as [[img|e] w1]; [|reflexivity].
  unfold try_except, wrap, raise.
  destruct (Image_save _ _ w1) as [[[]|e] w2]; reflexivity.
Qed.

Lemma convert_accepts input_path fmt output_dir w p w' :
  convert input_path fmt output_dir w = (Return p, w') ->
  PyStr.mem (PyStr.lower fmt) supported_formats = true.
Proof.
  rewrite convert_unfold.
  destruct (PyStr.mem (PyStr.lower fmt) supported_formats); [reflexivity|discriminate].
Qed.

End LetterCase.

(** The two spellings of an input name give one input format. *)
Example input_name_case :
  input_ext_of (PathLib.of_string "image.JPG") = "jpg"
  /\ input_ext_of (PathLib.of_string "image.jpg") = "jpg".
Proof. split; reflexivity. Qed.

(* ================================================================== *)
(** ** The batch loop and the exit code *)
(* ================================================================== *)

Section Batch.

Context {platform : Platform}.

(** One turn of the loop. *)
Lemma convert_all_cons input_file rest fmt output_dir n w :
  convert_all (input_file :: rest) fmt output_dir n w =
  match convert input_file fmt output_dir w with
  | (Return p, w1) =>
      convert_all rest fmt output_dir (n + 1)
        (log_event (succeeded_record input_file p) w1)
  | (Raise e, w1) =>
      convert_all rest fmt output_dir n (log_event (failed_record input_file e) w1)
  end.
Proof.
  simpl. unfold bind at 1. unfold try_except, bind, logger_info, logger_error, emit, ret.
  destruct (convert input_file fmt output_dir w) as [[p|e] w1]; reflexivity.
Qed.

(** What [convert] adds to the log: nothing, or its one record. *)
Lemma convert_out input_path fmt output_dir w :
  exists evs,
    out (snd (convert input_path fmt output_dir w)) = (out w ++ evs)%list
    /\ filter is_success evs = [] /\ filter is_failure evs = [].
Proof.
  rewrite convert_unfold.
  destruct (negb _); [exists []; simpl; now rewrite app_nil_r|].
  destruct (String.eqb _ _); [exists []; simpl; now rewrite app_nil_r|].
  destruct (resolved _ _ _ _) as [p|e]; [|exists []; simpl; now rewrite app_nil_r].
  destruct (Fs.mkdir_parents _ _) as [t|e]; [|exists []; simpl; now rewrite app_nil_r].
  destruct (_get_conversion_method _ _) as [[]|];
    [|exists []; simpl; now rewrite app_nil_r].
  simpl call.
  match goal with
  | |- context [_image_to_image ?i ?o ?v] =>
      pose proof (image_to_image_out i o v) as O;
      destruct (_image_to_image i o v) as [[[]|e] w']
  end; simpl in O |- *; exists [converting input_path fmt p]; now split.
Qed.

Lemma record_counts input_file o :
  is_success (record_of input_file o) = returned o
  /\ is_failure (record_of input_file o) = negb (returned o).
Proof. destruct o; split; reflexivity. Qed.

Lemma filter_step (f : Event -> bool) evs0 r evs :
  filter f evs0 = [] ->
  List.length (filter f (evs0 ++ [r] ++ evs)%list)
  = (if f r then 1 else 0) + List.length (filter f evs).
Proof.
  intros E. rewrite !filter_app, E. simpl. now destruct (f r).
Qed.

(** The loop always comes to its end, and its counter counts the outcomes
    that returned. *)
Lemma convert_all_counts input_files fmt output_dir : forall n w,
  exists w' evs,
    convert_all input_files fmt output_dir n w
    = (Return (n + succeeded (run input_files fmt output_dir w)), w')
    /\ out w' = (out w ++ evs)%list
    /\ List.length (filter is_success evs) = succeeded (run input_files fmt output_dir w)
    /\ List.length (filter is_success evs) + List.length (filter is_failure evs)
       = List.length input_files.
Proof.
  induction input_files as [|input_file rest IH]; intros n w.
  - exists w, []. simpl. unfold ret, succeeded. simpl.
    now rewrite Nat.add_0_r, app_nil_r.
  - rewrite convert_all_cons. simpl run.
    destruct (convert_out input_file fmt output_dir w) as (evs0 & O0 & S0 & F0).
    destruct (convert input_file fmt output_dir w) as [o w1]. simpl in O0.
    destruct (record_counts input_file o) as [RS RF].
    destruct o as [p|e]; simpl record_of in *.
    + destruct (IH (n + 1) (log_event (succeeded_record input_file p) w1))
        as (w' & evs & C & O & S & T).
      exists w', (evs0 ++ [succeeded_record input_file p] ++ evs)%list.
      split; [|split; [|split]].
      * rewrite C. unfold succeeded. simpl. f_equal. f_equal. lia.
      * rewrite O. simpl. rewrite O0. now rewrite <- !app_assoc.
      * rewrite (filter_step is_success _ _ _ S0), RS, S.
        unfold succeeded. simpl. reflexivity.
      * rewrite (filter_step is_success _ _ _ S0), (filter_step is_failure _ _ _ F0).
        rewrite RS, RF. simpl. lia.
    + destruct (IH n (log_event (failed_record input_file e) w1))
        as (w' & evs & C & O & S & T).
      exists w', (evs0 ++ [failed_record input_file e] ++ evs)%list.
      split; [|split; [|split]].
      * rewrite C. unfold succeeded. simpl. reflexivity.
      * rewrite O. simpl. rewrite O0. now rewrite <- !app_assoc.
      * rewrite (filter_step is_success _ _ _ S0), RS, S.
        unfold succeeded. simpl. reflexivity.
      * rewrite (filter_step is_success _ _ _ S0), (filter_step is_failure _ _ _ F0).
        rewrite RS, RF. simpl. lia.
Qed.

Lemma run_files input_files fmt output_dir : forall w,
  map fst (run input_files fmt output_dir w) = input_files.
Proof.
  induction input_files as [|input_file rest IH]; intros w; simpl; [reflexivity|].
  destruct (convert input_file fmt output_dir w) as [o w1]. simpl. now rewrite IH.
Qed.

End Batch.

(** Three files, the second of which is no image: three attempts, two
    successes, and the third file is converted. *)
Example batch_partial_failure :
  let files := [PathLib.of_string "cat.png"; PathLib.of_string "broken.png";
                PathLib.of_string "photo.jpg"] in
  let result := convert_all files "gif" None 0 Demo.world in
  fst result = Return 2
  /\ map (fun r => returned (snd r)) (run files "gif" None Demo.world)
     = [true; false; true]
  /\ Fs.is_file (fs (snd result)) (PathLib.of_string "photo.gif") = true.
Proof. repeat split; reflexivity. Qed.


Lemma print_errors_spec errors : forall w,
  print_errors errors w
  = (Return tt,
     mkWorld (fs w) (out w ++ map (fun e => Stderr ("Error: " ++ e)) errors)%list).
Proof.
  induction errors as [|error rest IH]; intros w; simpl.
  - unfold ret. rewrite app_nil_r. now destruct w.
  - unfold bind, print_stderr, emit. rewrite IH. simpl.
    now rewrite <- app_assoc.
Qed.

Lemma validate_args_spec args w :
  validate_args args w =
  match validation_errors args (fs w) with
  | [] => (Return true, w)
  | errors =>
      (Return false,
       mkWorld (fs w) (out w ++ map (fun e => Stderr ("Error: " ++ e)) errors)%list)
  end.
Proof.
  unfold validate_args, bind, read_fs.
  destruct (validation_errors args (fs w)) as [|error rest]; [reflexivity|].
  now rewrite print_errors_spec.
Qed.


Section ExitCode.

Context {platform : Platform}.

Lemma get_input_files_world args w o w' :
  get_input_files args w = (o, w') -> w' = w.
Proof.
  unfold get_input_files, bind, read_lines, read_fs, ret.
  destruct (batch args) as [b|].
  - destruct (Fs.lookup (fs w) b) as [[|f]|]; [| destruct (as_text f) |];
      now intros [= _ <-].
  - destruct (given_list (input_paths args)); now intros [= _ <-].
Qed.

(** A run that passes the validation, finds input files and settles on
    a format goes through the loop and reports its counter. *)
Lemma main_loop args w input_files fmt :
  validation_errors args (fs w) = [] ->
  fst (get_input_files args w) = Return input_files ->
  input_files <> [] ->
  chosen_format args input_files = Some fmt ->
  main args w =
  match convert_all input_files fmt (output args) 0 w with
  | (Return n, w1) =>
      (Return (if 0 <? n then 0 else 1),
       log_event (summary_record n (List.length input_files)) w1)
  | (Raise e, w1) =>
      (Return 1, log_event (Log ERROR ("Unexpected error: " ++ str_exn e)) w1)
  end.
Proof.
  intros V G N F.
  unfold main. unfold bind at 1. rewrite validate_args_spec, V.
  cbv beta iota. simpl (negb _). cbv beta iota.
  unfold try_except. unfold bind at 1. cbv beta.
  destruct (get_input_files args w) as [o w1] eqn:G'.
  pose proof (get_input_files_world _ _ _ _ G') as ->.
  simpl in G. subst o.
  destruct input_files as [|input_file rest]; [congruence|].
  fold (chosen_format args (input_file :: rest)). rewrite F.
  unfold bind at 1. cbv beta.
  destruct (convert_all (input_file :: rest) fmt (output args) 0 w) as [[n|e] w'];
    reflexivity.
Qed.


End ExitCode.

(** The exit codes of four runs on the demo tree: a batch with one
    success, a batch without success, a pattern that is no existing file,
    and no input at all. *)
Example demo_exit_codes :
  fst (main (mkNamespace None (Some (PathLib.of_string "list.txt")) (Some "png")
               None false) Demo.world) = Return 0
  /\ fst (main (mkNamespace (Some ["notes.txt"; "broken.png"]) None (Some "gif")
                  None false) Demo.world) = Return 1
  /\ fst (main (mkNamespace (Some ["*.png"]) None (Some "gif") None false)
            Demo.world) = Return 1
  /\ fst (main (mkNamespace None None (Some "gif") None false) Demo.world) = Return 1.
Proof. repeat split; reflexivity. Qed.

(* ================================================================== *)
(** ** The exit status of the process *)
(* ================================================================== *)



Section ExitStatus.

Context {platform : Platform}.





End ExitStatus.



(** What [parse_args] makes of some command lines. *)
Example parse_args_cases :
  parse_args ["-i"; "a.png"; "b.png"; "-f"; "jpg"; "-o"; "out"; "-v"]
  = Some (Parsed_args
            (mkNamespace (Some ["a.png"; "b.png"]) None (Some "jpg")
               (Some (PathLib.of_string "out")) true))
  /\ parse_args [] = Some (Parsed_args (mkNamespace None None None None false))
  /\ parse_args ["stray"; "--help"] = Some (SystemExit 0)
  /\ parse_args ["stray"] = Some (SystemExit 2)
  /\ parse_args ["-i"] = Some (SystemExit 2)
  /\ parse_args ["-f"; "--help"] = Some (SystemExit 2)
  /\ parse_args ["-i"; "a.png"; "-i"; "b.png"]
     = Some (Parsed_args (mkNamespace (Some ["b.png"]) None None None false))
  /\ parse_args ["--format=png"] = None.
Proof. repeat split; reflexivity. Qed.

(* ================================================================== *)
(** ** The batch list *)
(* ================================================================== *)

(** The entries of a batch list are the stripped lines that name an
    existing path, in the order of the lines. *)
Lemma batch_entries_In t lines p :
  In p (batch_entries t lines) <->
  exists line, In line lines /\ p = PathLib.of_string (PyStr.strip line)
               /\ Fs.exists_ t p = true.
Proof.
  induction lines as [|l lines IH]; simpl.
  - split; [contradiction | now intros (? & [] & _)].
  - destruct (Fs.exists_ t (PathLib.of_string (PyStr.strip l))) eqn:E; simpl;
      rewrite IH; split.
    + intros [<-|(line & I & -> & X)]; [now exists l; auto | exists line; auto].
    + intros (line & [<-|I] & -> & X); [now left | right; now exists line].
    + intros (line & I & -> & X). exists line; auto.
    + intros (line & [<-|I] & -> & X); [congruence | now exists line].
Qed.

(** A line that names no existing path adds no entry. *)
Lemma missing_path_skipped t line :
  Fs.exists_ t (PathLib.of_string (PyStr.strip line)) = false ->
  batch_entries t [line] = [].
Proof. intros E. simpl. now rewrite E. Qed.

(** A blank line strips to the empty string, which is the path of the
    current directory: it adds that directory whenever it exists. *)
Lemma blank_line_entry t line :
  PyStr.strip line = "" ->
  batch_entries t [line]
  = if Fs.exists_ t (mkPath "" []) then [mkPath "" []] else [].
Proof. intros E. simpl. rewrite E. reflexivity. Qed.

(** C9, evaluated on the code.  The batch list has a blank second line and
    a third line that names no file.  The missing file is skipped, but the
    blank line is not: it contributes the current directory to the input
    files. *)
Theorem blank_line_adds_current_directory :
  let args := mkNamespace None (Some (PathLib.of_string "list.txt")) (Some "png")
                None false in
  PyStr.readlines Demo.batch_text = ["cat.png"; ""; "missing.png"; "photo.jpg"]
  /\ fst (get_input_files args Demo.world)
     = Return [PathLib.of_string "cat.png"; PathLib.of_string ".";
               PathLib.of_string "photo.jpg"]
  /\ PathLib.of_string (PyStr.strip "") = PathLib.of_string "."
  /\ Fs.is_dir (fs Demo.world) (PathLib.of_string ".") = true.
Proof. repeat split; reflexivity. Qed.

(* ================================================================== *)
(** ** What a conversion leaves in place *)
(* ================================================================== *)

Lemma grows_refl t : grows t t.
Proof. now intros q n. Qed.

Lemma grows_trans t1 t2 t3 : grows t1 t2 -> grows t2 t3 -> grows t1 t3.
Proof. intros A B q n L. now apply B, A. Qed.

Lemma keeps_refl t : keeps t t.
Proof. now intros q. Qed.

Lemma keeps_trans t1 t2 t3 : keeps t1 t2 -> keeps t2 t3 -> keeps t1 t3.
Proof.
  intros A B q. destruct (A q) as [A1 A2], (B q) as [B1 B2]. split; auto.
Qed.

Lemma grows_keeps t t' : grows t t' -> keeps t t'.
Proof.
  intros G q. unfold Fs.is_file, Fs.is_dir. split.
  - destruct (Fs.lookup t q) as [[|f]|] eqn:L; try discriminate.
    now rewrite (G _ _ L).
  - destruct (Fs.lookup t q) as [[|f]|] eqn:L; try discriminate.
    now rewrite (G _ _ L).
Qed.

Lemma path_eqb_neq p q : PathLib.eqb p q = false <-> p <> q.
Proof.
  split.
  - intros E ->. now rewrite path_eqb_refl in E.
  - intros N. destruct (PathLib.eqb p q) eqn:E; [|reflexivity].
    now apply path_eqb_eq in E.
Qed.

(** A new node leaves the nodes that are there as they were. *)
Lemma update_new_grows t p m : Fs.lookup t p = None -> grows t (Fs.update t p m).
Proof.
  intros N q n L. rewrite lookup_update_other; [exact L|].
  apply path_eqb_neq. intros ->. congruence.
Qed.

(** Writing a regular file over a regular file, or at a free path, keeps
    the kind of every node. *)
Lemma update_regular_keeps t p f :
  Fs.is_dir t p = false -> keeps t (Fs.update t p (Regular f)).
Proof.
  intros D q. unfold Fs.is_file, Fs.is_dir in *.
  destruct (PathLib.eqb p q) eqn:E.
  - apply path_eqb_eq in E. subst q. rewrite lookup_update_same.
    split; [reflexivity|]. intros X. congruence.
  - rewrite (lookup_update_other _ _ _ _ E). now split.
Qed.

Lemma os_mkdir_grows t p t' :
  Fs.os_mkdir t p = Return t' -> grows t t' /\ Fs.is_dir t' p = true.
Proof.
  unfold Fs.os_mkdir.
  destruct (Fs.lookup t p) eqn:L; [discriminate|].
  destruct (Fs.lookup t (PathLib.parent p)) as [[|f]|]; try discriminate.
  intros [= <-]. split; [now apply update_new_grows|].
  unfold Fs.is_dir. now rewrite lookup_update_same.
Qed.

Lemma mkdir_rev_grows r rev_parts : forall t t',
  Fs.mkdir_rev t r rev_parts = Return t' ->
  grows t t' /\ Fs.is_dir t' (mkPath r (rev rev_parts)) = true.
Proof.
  induction rev_parts as [|x up IH]; intros t t'; simpl.
  - destruct (Fs.lookup t (mkPath r [])) as [[|f]|] eqn:L; try discriminate.
    intros [= <-]. split; [apply grows_refl|].
    unfold Fs.is_dir. now rewrite L.
  - destruct (Fs.lookup t (mkPath r (rev up ++ [x]))) as [[|f]|] eqn:L;
      try discriminate.
    + intros [= <-]. split; [apply grows_refl|].
      unfold Fs.is_dir. now rewrite L.
    + destruct (Fs.lookup t (mkPath r (rev up))) as [[|f]|] eqn:U; try discriminate.
      * intros [= <-]. split; [now apply update_new_grows|].
        unfold Fs.is_dir. now rewrite lookup_update_same.
      * destruct (Fs.mkdir_rev t r up) as [t1|e] eqn:M; [|discriminate].
        intros O. destruct (IH _ _ M) as [G1 _].
        destruct (os_mkdir_grows _ _ _ O) as [G2 D].
        split; [now apply (grows_trans _ t1)|exact D].
Qed.

(** [mkdir(parents=True, exist_ok=True)] that returns has made the
    directory and has left every other node as it was. *)
Lemma mkdir_parents_grows t p t' :
  Fs.mkdir_parents t p = Return t' -> grows t t' /\ Fs.is_dir t' p = true.
Proof.
  unfold Fs.mkdir_parents. intros M.
  destruct (mkdir_rev_grows _ _ _ _ M) as [G D].
  rewrite rev_involutive in D. destruct p as [r l]. now split.
Qed.

Section Effects.

Context {platform : Platform}.

(** What [save] does to the world: nothing, or one regular file written at
    its path, which was no directory. *)
Lemma Image_save_effect im p w :
  out (snd (Image_save im p w)) = out w
  /\ (fs (snd (Image_save im p w)) = fs w
      \/ exists f, Fs.is_dir (fs w) p = false
                   /\ fs (snd (Image_save im p w)) = Fs.update (fs w) p (Regular f)).
Proof.
  split; [apply Image_save_out|].
  unfold Image_save, Fs.is_dir.
  destruct (EXTENSION _); [|now left].
  destruct (Fs.lookup (fs w) p) as [[|g]|] eqn:L; [now left| |].
  - destruct (save_handler _ im) as [f|msg f]; right; exists f; now split.
  - destruct (Fs.lookup (fs w) (PathLib.parent p)) as [[|g]|]; try (now left).
    destruct (save_handler _ im) as [f|msg f]; [|now left].
    right. exists f. now split.
Qed.

Lemma image_to_image_effect input_path output_path w :
  out (snd (_image_to_image input_path output_path w)) = out w
  /\ (fs (snd (_image_to_image input_path output_path w)) = fs w
      \/ exists f, Fs.is_dir (fs w) output_path = false
                   /\ fs (snd (_image_to_image input_path output_path w))
                      = Fs.update (fs w) output_path (Regular f)).
Proof.
  split; [apply image_to_image_out|].
  rewrite image_to_image_unfold.
  destruct (Image_open input_path w) as [[img|e] w1] eqn:O;
    apply Image_open_world in O; subst w1; [|now left].
  unfold try_except, wrap, raise.
  destruct (Image_save_effect (normalised img output_path) output_path w) as [_ E].
  destruct (Image_save (normalised img output_path) output_path w) as [[[]|e] w2];
    exact E.
Qed.

(** The steps of a call of [convert] that gets as far as the routine. *)
Lemma convert_effect input_path fmt output_dir w :
  snd (convert input_path fmt output_dir w) = w
  \/ exists p t,
       resolved input_path fmt output_dir (fs w) = Return p
       /\ Fs.mkdir_parents (fs w) (PathLib.parent p) = Return t
       /\ (fs (snd (convert input_path fmt output_dir w)) = t
           \/ exists f, Fs.is_dir t p = false
                        /\ fs (snd (convert input_path fmt output_dir w))
                           = Fs.update t p (Regular f)).
Proof.
  rewrite convert_unfold.
  destruct (negb _); [now left|].
  destruct (String.eqb _ _); [now left|].
  destruct (resolved input_path fmt output_dir (fs w)) as [p|e]; [|now left].
  destruct (Fs.mkdir_parents (fs w) (PathLib.parent p)) as [t|e] eqn:M; [|now left].
  right. exists p, t. split; [reflexivity|]. split; [exact M|].
  destruct (_get_conversion_method _ _) as [[]|]; [|now left].
  simpl call.
  set (v := mkWorld t (out w ++ [converting input_path fmt p])%list).
  destruct (image_to_image_effect input_path p v) as [_ E].
  destruct (_image_to_image input_path p v) as [[[]|e] w']; exact E.
Qed.

Lemma convert_returns_steps input_path fmt output_dir w p w' :
  convert input_path fmt output_dir w = (Return p, w') ->
  exists t,
    resolved input_path fmt output_dir (fs w) = Return p
    /\ Fs.mkdir_parents (fs w) (PathLib.parent p) = Return t
    /\ _image_to_image input_path p
         (mkWorld t (out w ++ [converting input_path fmt p])%list) = (Return tt, w').
Proof.
  rewrite convert_unfold.
  destruct (negb _); [discriminate|].
  destruct (String.eqb _ _); [discriminate|].
  destruct (resolved input_path fmt output_dir (fs w)) as [q|e]; [|discriminate].
  destruct (Fs.mkdir_parents (fs w) (PathLib.parent q)) as [t|e] eqn:M; [|discriminate].
  destruct (_get_conversion_method _ _) as [[]|]; [|discriminate].
  simpl call.
  destruct (_image_to_image input_path q _) as [[[]|e] w''] eqn:C; [|discriminate].
  intros [= -> ->]. exists t. split; [reflexivity|]. now split.
Qed.

Lemma convert_keeps input_path fmt output_dir w :
  keeps (fs w) (fs (snd (convert input_path fmt output_dir w))).
Proof.
  destruct (convert_effect input_path fmt output_dir w)
    as [->|(p & t & _ & M & [->|(f & D & ->)])].
  - apply keeps_refl.
  - apply grows_keeps. now apply mkdir_parents_grows in M.
  - apply (keeps_trans _ t).
    + apply grows_keeps. now apply mkdir_parents_grows in M.
    + now apply update_regular_keeps.
Qed.

End Effects.

(* ================================================================== *)
(** ** The encoding follows the output path *)
(* ================================================================== *)

(** A pair that has a routine passes the two checks at the head of
    [convert]. *)
Lemma routine_passes_checks a b m :
  _get_conversion_method a b = Some m ->
  PyStr.mem b supported_formats = true /\ String.eqb a b = false.
Proof.
  intros G.
  pose proof (methods_keys_supported _ _ (dict_get_In _ _ _ G)) as (_ & S & N).
  simpl in S, N. split; [exact S|]. now apply String.eqb_neq.
Qed.

Section Encoding.

Context {platform : Platform}.

(** With an existing regular file [d] as [output_dir], a request for a pair
    of the table is carried out on [d]: its parent is made if need be, the
    input is decoded, and the encoder that Pillow registers for the
    extension of [d] is run on the image normalised for the suffix of [d].
    The file it leaves is written at [d]. *)
Lemma convert_into_file input_path d fmt m w t img format :
  Fs.is_file (fs w) d = true ->
  _get_conversion_method (input_ext_of input_path) (PyStr.lower fmt) = Some m ->
  Fs.mkdir_parents (fs w) (PathLib.parent d) = Return t ->
  fst (Image_open input_path (mkWorld t (out w))) = Return img ->
  EXTENSION (PyStr.lower (splitext_ext (PathLib.str d))) = Some format ->
  convert input_path fmt (Some d) w
  = match save_handler format (normalised img d) with
    | Written f =>
        (Return d,
         mkWorld (Fs.update t d (Regular f))
           (out w ++ [converting input_path fmt d])%list)
    | Refused msg partial =>
        (Raise (ConversionError (Failed msg)),
         mkWorld (Fs.update t d (Regular partial))
           (out w ++ [converting input_path fmt d])%list)
    end.
Proof.
  intros F G M O X.
  destruct (routine_passes_checks _ _ _ G) as [S N].
  rewrite convert_unfold, S, N. unfold resolved. rewrite F, M, G.
  simpl (negb _). cbv iota. destruct m. simpl call.
  rewrite image_to_image_unfold.
  set (v := mkWorld t (out w ++ [converting input_path fmt d])%list).
  assert (O' : Image_open input_path v = (Return img, v)).
  { pose proof (Image_open_fs input_path v (mkWorld t (out w)) eq_refl) as E.
    rewrite O in E.
    destruct (Image_open input_path v) as [o v'] eqn:Ov.
    apply Image_open_world in Ov. simpl in E. now subst. }
  rewrite O'. unfold try_except, Image_save. simpl fs. rewrite X.
  assert (L : exists g, Fs.lookup t d = Some (Regular g)).
  { unfold Fs.is_file in F.
    destruct (Fs.lookup (fs w) d) as [[|g]|] eqn:L; try discriminate.
    exists g. now apply (proj1 (mkdir_parents_grows _ _ _ M)). }
  destruct L as [g ->].
  destruct (save_handler format (normalised img d)) as [f|msg partial]; reflexivity.
Qed.

(** C10.  When [output_dir] is an existing regular file [d], the format
    that is asked for decides only whether the request passes the checks
    and what the log says.  The image is decoded from the input, normalised
    for the suffix of [d] (flattened for .jpg and .jpeg, resized for .ico),
    and handed to the encoder that the extension of [d] selects; the file
    that encoder writes, or leaves when it refuses the image, is the file
    at [d], and [d] is the path returned.  Another format that passes the
    checks gives the same outcome and the same file system. *)
Theorem encoding_follows_output_path input_path d fmt m w t img format :
  Fs.is_file (fs w) d = true ->
  _get_conversion_method (input_ext_of input_path) (PyStr.lower fmt) = Some m ->
  Fs.mkdir_parents (fs w) (PathLib.parent d) = Return t ->
  fst (Image_open input_path (mkWorld t (out w))) = Return img ->
  EXTENSION (PyStr.lower (splitext_ext (PathLib.str d))) = Some format ->
  convert input_path fmt (Some d) w
  = match save_handler format (normalised img d) with
    | Written f =>
        (Return d,
         mkWorld (Fs.update t d (Regular f))
           (out w ++ [converting input_path fmt d])%list)
    | Refused msg partial =>
        (Raise (ConversionError (Failed msg)),
         mkWorld (Fs.update t d (Regular partial))
           (out w ++ [converting input_path fmt d])%list)
    end
  /\ (forall fmt2 m2,
        _get_conversion_method (input_ext_of input_path) (PyStr.lower fmt2) = Some m2 ->
        fst (convert input_path fmt2 (Some d) w) = fst (convert input_path fmt (Some d) w)
        /\ fs (snd (convert input_path fmt2 (Some d) w))
           = fs (snd (convert input_path fmt (Some d) w))).
Proof.
  intros F G M O X. split.
  - exact (convert_into_file _ _ _ _ _ _ _ _ F G M O X).
  - intros fmt2 m2 G2.
    rewrite (convert_into_file _ _ _ _ _ _ _ _ F G M O X).
    rewrite (convert_into_file _ _ _ _ _ _ _ _ F G2 M O X).
    destruct (save_handler format (normalised img d)); now split.
Qed.

End Encoding.

(** A gif is asked for and the output location is the existing file
    [old.jpg]: the RGBA input is flattened onto white and written there by
    the JPEG encoder, and [old.jpg] is the path returned. *)
Lemma encoding_follows_output_path_witness :
  let input_path := PathLib.of_string "cat.png" in
  let d := PathLib.of_string "old.jpg" in
  let flat := mkImage "RGB" (2, 1) [[255; 255; 255]%N; [200; 100; 50]%N] in
  Fs.is_file (fs Demo.world) d = true
  /\ _get_conversion_method (input_ext_of input_path) (PyStr.lower "gif")
     = Some image_to_image
  /\ Fs.mkdir_parents (fs Demo.world) (PathLib.parent d) = Return Demo.tree
  /\ fst (Image_open input_path (mkWorld Demo.tree (out Demo.world))) = Return Demo.cat
  /\ EXTENSION (PyStr.lower (splitext_ext (PathLib.str d))) = Some "JPEG"
  /\ normalised Demo.cat d = flat
  /\ save_handler "JPEG" flat = Written (mkFile None (Some flat))
  /\ convert input_path "gif" (Some d) Demo.world
     = (Return d,
        mkWorld (Fs.update Demo.tree d (Demo.image_file flat))
          [converting input_path "gif" d]).
Proof.
  repeat (split; [reflexivity|]).
  exact (proj1 (encoding_follows_output_path (PathLib.of_string "cat.png")
                  (PathLib.of_string "old.jpg") "gif" image_to_image Demo.world
                  Demo.tree Demo.cat "JPEG" eq_refl eq_refl eq_refl eq_refl eq_refl)).
Defined.

(** On the demo tree: a gif is asked for, the output is the existing file
    [old.jpg], and what is written there is the RGBA input flattened onto
    white, as for a JPEG. *)
Example requested_format_ignored :
  let w' := snd (convert (PathLib.of_string "cat.png") "gif"
                   (Some (PathLib.of_string "old.jpg")) Demo.world) in
  Fs.lookup (fs w') (PathLib.of_string "old.jpg")
  = Some (Demo.image_file
            (mkImage "RGB" (2, 1) [[255; 255; 255]%N; [200; 100; 50]%N])).
Proof. reflexivity. Qed.

Section Postconditions.

Context {platform : Platform}.

Lemma convert_not_identical input_path fmt output_dir w p w' :
  convert input_path fmt output_dir w = (Return p, w') ->
  PyStr.mem (PyStr.lower fmt) supported_formats = true
  /\ input_ext_of input_path <> PyStr.lower fmt
  /\ _get_conversion_method (input_ext_of input_path) (PyStr.lower fmt)
     = Some image_to_image.
Proof.
  rewrite convert_unfold.
  destruct (PyStr.mem (PyStr.lower fmt) supported_formats); [|discriminate].
  simpl (negb _). cbv iota.
  destruct (String.eqb _ _) eqn:E; [discriminate|].
  destruct (resolved _ _ _ _); [|discriminate].
  destruct (Fs.mkdir_parents _ _); [|discriminate].
  destruct (_get_conversion_method _ _) as [[]|]; [|discriminate].
  intros _. split; [reflexivity|]. split; [now apply String.eqb_neq|reflexivity].
Qed.

(** The name of the path that step 3 builds, when it builds one. *)
Lemma resolved_name input_path fmt output_dir t p :
  PyStr.mem (PyStr.lower fmt) supported_formats = true ->
  PyStr.contains "/" (PathLib.stem input_path) = false ->
  resolved input_path fmt output_dir t = Return p ->
  (exists d, output_dir = Some d /\ Fs.is_file t d = true /\ p = d)
  \/ (PathLib.name p = PathLib.stem input_path ++ "." ++ fmt
      /\ forall d, output_dir = Some d -> PathLib.parent p = d /\ p <> d).
Proof.
  intros S C. unfold resolved.
  destruct output_dir as [d|].
  - destruct (Fs.is_file t d) eqn:F.
    + intros [= <-]. left. now exists d.
    + destruct (supported_token fmt S) as [Cf Tf].
      rewrite joinpath_dotted by assumption.
      intros [= <-]. right.
      rewrite name_snoc. split; [reflexivity|].
      intros d' [= <-]. rewrite parent_snoc. destruct d as [r l]. simpl.
      split; [reflexivity|].
      intros [= E]. apply (f_equal (@List.length string)) in E.
      rewrite length_app in E. simpl in E. lia.
  - intros W. right. split; [|discriminate].
    now apply with_suffix_name in W.
Qed.

(** An output location that is no existing regular file is taken for a
    directory: a call that returns has made it a directory and has written
    a regular file directly inside it, never at the location itself. *)
Theorem output_location_becomes_directory input_path fmt d w p w' :
  convert input_path fmt (Some d) w = (Return p, w') ->
  Fs.is_file (fs w) d = false ->
  PyStr.contains "/" (PathLib.stem input_path) = false ->
  PathLib.parent p = d
  /\ PathLib.name p = PathLib.stem input_path ++ "." ++ fmt
  /\ Fs.is_dir (fs w') d = true
  /\ Fs.is_file (fs w') p = true.
Proof.
  intros C F K.
  destruct (convert_not_identical _ _ _ _ _ _ C) as (S & _ & _).
  destruct (convert_returns_steps _ _ _ _ _ _ C) as (t & R & M & I).
  destruct (resolved_name _ _ _ _ _ S K R) as [(d' & [= <-] & F' & _)|[Nm Pd]];
    [congruence|].
  destruct (Pd d eq_refl) as [Pp Pn].
  rewrite Pp in M. destruct (mkdir_parents_grows _ _ _ M) as [_ D].
  destruct (image_to_image_returns _ _ _ _ I) as (img & format & f & _ & _ & _ & L).
  destruct (image_to_image_effect input_path p
              (mkWorld t (out w ++ [converting input_path fmt p])%list)) as [_ E].
  rewrite I in E. simpl in E.
  repeat split; try assumption.
  - unfold Fs.is_dir in *.
    destruct E as [->|(g & _ & ->)]; [exact D|].
    rewrite lookup_update_other; [exact D|]. now apply path_eqb_neq.
  - unfold Fs.is_file. now rewrite L.
Qed.

End Postconditions.

Lemma output_location_becomes_directory_witness :
  let input_path := PathLib.of_string "cat.png" in
  let d := PathLib.of_string "result.jpg" in
  let r := convert input_path "jpg" (Some d) Demo.world in
  r = (Return (PathLib.of_string "result.jpg/cat.jpg"), snd r)
  /\ Fs.is_file (fs Demo.world) d = false
  /\ PyStr.contains "/" (PathLib.stem input_path) = false
  /\ Fs.is_dir (fs (snd r)) d = true.
Proof.
  split; [reflexivity|]. split; [reflexivity|]. split; [reflexivity|].
  exact (proj1 (proj2 (proj2
           (output_location_becomes_directory (PathLib.of_string "cat.png") "jpg"
              (PathLib.of_string "result.jpg") Demo.world
              (PathLib.of_string "result.jpg/cat.jpg") _ eq_refl eq_refl eq_refl)))).
Defined.

(* ================================================================== *)
(** ** Letter case of the output format *)
(* ================================================================== *)

Lemma join_cons_snoc x l n :
  PyStr.join "/" (x :: l ++ [n]) = x ++ "/" ++ PyStr.join "/" (l ++ [n]).
Proof.
  unfold PyStr.join. simpl.
  destruct (l ++ [n])%list eqn:A; [now destruct l | reflexivity].
Qed.

Lemma join_snoc_case l n1 n2 :
  PyStr.lower n1 = PyStr.lower n2 ->
  PyStr.lower (PyStr.join "/" (l ++ [n1]))
  = PyStr.lower (PyStr.join "/" (l ++ [n2])).
Proof.
  intros E. induction l as [|x l IH]; [exact E|].
  cbn [app]. rewrite !join_cons_snoc, !lower_app. now rewrite IH.
Qed.

(** Two paths that differ in the letter case of their last component
    only are written alike up to letter case. *)
Lemma str_snoc_case r l n1 n2 :
  PyStr.lower n1 = PyStr.lower n2 ->
  PyStr.lower (PathLib.str (mkPath r (l ++ [n1])))
  = PyStr.lower (PathLib.str (mkPath r (l ++ [n2]))).
Proof.
  intros E. pose proof (join_snoc_case l n1 n2 E) as J.
  unfold PathLib.str. cbn [root parts].
  destruct r as [|c r].
  - destruct (l ++ [n1])%list eqn:A1; [now destruct l|].
    destruct (l ++ [n2])%list eqn:A2; [now destruct l|].
    exact J.
  - rewrite !lower_app. now rewrite J.
Qed.

Lemma path_snoc p :
  PyStr.truthy (PathLib.name p) = true ->
  p = mkPath (root p) (removelast (parts p) ++ [PathLib.name p]).
Proof.
  destruct p as [r l]. unfold PathLib.name. cbn [root parts].
  destruct l as [|x l]; [discriminate|]. intros _.
  f_equal. apply app_removelast_last. discriminate.
Qed.

Lemma str_case q1 q2 :
  PathLib.parent q1 = PathLib.parent q2 ->
  PyStr.lower (PathLib.name q1) = PyStr.lower (PathLib.name q2) ->
  PyStr.truthy (PathLib.name q1) = true ->
  PyStr.lower (PathLib.str q1) = PyStr.lower (PathLib.str q2).
Proof.
  intros P N T1.
  assert (T2 : PyStr.truthy (PathLib.name q2) = true)
    by (rewrite <- lower_truthy, <- N, lower_truthy; exact T1).
  rewrite (path_snoc q1 T1), (path_snoc q2 T2).
  unfold PathLib.parent in P. injection P as -> ->.
  now apply str_snoc_case.
Qed.

Lemma truthy_dotted s f : PyStr.truthy (s ++ "." ++ f) = true.
Proof. now destruct s. Qed.

Section FormatCase.

Context {platform : Platform}.

(** Two output format tokens that are equal up to letter case are turned
    down by the same check or by none, and two input names that are equal
    up to letter case give the same input format.  When both calls return,
    the two output paths have the same parent and the same name up to
    letter case (they are one path when [output_dir] is an existing file),
    the image is normalised in the same way, the same encoder is selected
    and the same file content is written at the two paths. *)
Theorem convert_format_case input_path f1 f2 output_dir w :
  PyStr.lower f1 = PyStr.lower f2 ->
  PyStr.contains "/" (PathLib.stem input_path) = false ->
  rejection (fst (convert input_path f1 output_dir w))
  = rejection (fst (convert input_path f2 output_dir w))
  /\ (forall q, PyStr.lower (PathLib.name q) = PyStr.lower (PathLib.name input_path) ->
        input_ext_of q = input_ext_of input_path)
  /\ (forall p1 w1 p2 w2,
        convert input_path f1 output_dir w = (Return p1, w1) ->
        convert input_path f2 output_dir w = (Return p2, w2) ->
        PathLib.parent p1 = PathLib.parent p2
        /\ PyStr.lower (PathLib.name p1) = PyStr.lower (PathLib.name p2)
        /\ PyStr.lower (PathLib.suffix p1) = PyStr.lower (PathLib.suffix p2)
        /\ (forall img, normalised img p1 = normalised img p2)
        /\ (exists format f,
              EXTENSION (PyStr.lower (splitext_ext (PathLib.str p1))) = Some format
              /\ EXTENSION (PyStr.lower (splitext_ext (PathLib.str p2))) = Some format
              /\ Fs.lookup (fs w1) p1 = Some (Regular f)
              /\ Fs.lookup (fs w2) p2 = Some (Regular f))
        /\ (forall d, output_dir = Some d -> Fs.is_file (fs w) d = true -> p1 = p2)).
Proof.
  intros E C. split; [|split].
  - rewrite !convert_unfold, E.
    destruct (PyStr.mem (PyStr.lower f2) supported_formats) eqn:S; [|reflexivity].
    simpl (negb _). cbv iota.
    destruct (String.eqb (input_ext_of input_path) (PyStr.lower f2)); [reflexivity|].
    pose proof (resolved_case input_path f1 f2 output_dir (fs w) E S C) as R.
    destruct (resolved input_path f1 output_dir (fs w)) as [q1|e1];
      destruct (resolved input_path f2 output_dir (fs w)) as [q2|e2];
      try contradiction;
      [|cbn [fst]; rewrite (proj1 R), (proj2 R); reflexivity].
    destruct R as (-> & _ & _).
    destruct (Fs.mkdir_parents (fs w) (PathLib.parent q2)) as [t|e]; [|reflexivity].
    destruct (_get_conversion_method _ _) as [m|]; [|reflexivity].
    match goal with
    | |- rejection (fst (match ?a with _ => _ end))
         = rejection (fst (match ?b with _ => _ end)) =>
        let A := fresh in let B := fresh in
        pose proof (call_not_rejected m input_path q1 _ : rejection (fst a) = None) as A;
        pose proof (call_not_rejected m input_path q2 _ : rejection (fst b) = None) as B;
        destruct a as [[[]|] ?]; destruct b as [[[]|] ?]; simpl in *; congruence
    end.
  - intros q Q. now apply input_ext_case.
  - intros p1 w1 p2 w2 C1 C2.
    pose proof (convert_accepts _ _ _ _ _ _ C2) as S.
    assert (S1 : PyStr.mem (PyStr.lower f1) supported_formats = true) by now rewrite E.
    destruct (convert_returns_steps _ _ _ _ _ _ C1) as (t1 & R1 & M1 & I1).
    destruct (convert_returns_steps _ _ _ _ _ _ C2) as (t2 & R2 & M2 & I2).
    pose proof (resolved_case input_path f1 f2 output_dir (fs w) E S C) as R.
    rewrite R1, R2 in R. destruct R as (P & N & D).
    pose proof (lower_suffix_name p1 p2 N) as X.
    assert (Nm : forall img, normalised img p1 = normalised img p2).
    { intros img. unfold normalised. now rewrite X. }
    assert (Ext : PyStr.lower (splitext_ext (PathLib.str p1))
                  = PyStr.lower (splitext_ext (PathLib.str p2))).
    { destruct (resolved_name _ _ _ _ _ S1 C R1) as [(d & Od & F & _)|[Nm1 _]].
      - now rewrite (D d Od F).
      - rewrite !lower_splitext. f_equal. apply str_case; try assumption.
        rewrite Nm1. apply truthy_dotted. }
    repeat split; try assumption.
    rewrite P in M1. rewrite M1 in M2. injection M2 as <-.
    destruct (image_to_image_returns _ _ _ _ I1) as (img1 & fm1 & g1 & O1 & X1 & V1 & L1).
    destruct (image_to_image_returns _ _ _ _ I2) as (img2 & fm2 & g2 & O2 & X2 & V2 & L2).
    pose proof (Image_open_fs input_path
                  (mkWorld t1 (out w ++ [converting input_path f1 p1])%list)
                  (mkWorld t1 (out w ++ [converting input_path f2 p2])%list) eq_refl) as O.
    rewrite O1, O2 in O. injection O as <-.
    rewrite Ext, X2 in X1. injection X1 as <-.
    rewrite Nm, V2 in V1. injection V1 as <-.
    exists fm2, g2. rewrite Ext. now repeat split.
Qed.

End FormatCase.

Lemma convert_format_case_witness :
  let input_path := PathLib.of_string "photo.jpg" in
  PyStr.lower "PNG" = PyStr.lower "png"
  /\ PyStr.contains "/" (PathLib.stem input_path) = false
  /\ rejection (fst (convert input_path "PNG" None Demo.world))
     = rejection (fst (convert input_path "png" None Demo.world)).
Proof.
  split; [reflexivity|]. split; [reflexivity|].
  exact (proj1 (convert_format_case (PathLib.of_string "photo.jpg") "PNG" "png"
                  None Demo.world eq_refl eq_refl)).
Defined.

(** C8, evaluated on the code.  [convert] is called on [photo.jpg] with
    the token [PNG] and with the token [png].  Both requests are accepted
    and both write the same image with the same encoder, but the output path
    is spelled with the token as it was given: [photo.PNG] for one and
    [photo.png] for the other, two different paths, and after the first
    call there is no [photo.png].  [main] lower-cases the format that it
    reads off the output path (main.py:172); [convert] lower-cases the token
    where it compares it and not where it names the file. *)
Theorem format_case_changes_output_path :
  let input_path := PathLib.of_string "photo.jpg" in
  let upper := convert input_path "PNG" None Demo.world in
  let lower := convert input_path "png" None Demo.world in
  fst upper = Return (PathLib.of_string "photo.PNG")
  /\ fst lower = Return (PathLib.of_string "photo.png")
  /\ PathLib.of_string "photo.PNG" <> PathLib.of_string "photo.png"
  /\ Fs.lookup (fs (snd upper)) (PathLib.of_string "photo.PNG")
     = Some (Demo.image_file Demo.photo)
  /\ Fs.lookup (fs (snd lower)) (PathLib.of_string "photo.png")
     = Some (Demo.image_file Demo.photo)
  /\ Fs.exists_ (fs (snd upper)) (PathLib.of_string "photo.png") = false
  /\ chosen_format
       (mkNamespace (Some ["photo.jpg"]) None None
          (Some (PathLib.of_string "photo.PNG")) false) [input_path]
     = Some "png".
Proof. repeat split; try reflexivity. discriminate. Qed.

(* ================================================================== *)
(** ** What a conversion returns and what it raises *)
(* ================================================================== *)

Lemma mkdir_rev_raises r rev_parts : forall t e,
  Fs.mkdir_rev t r rev_parts = Raise e -> exists msg, e = OSError msg.
Proof.
  induction rev_parts as [|x up IH]; intros t e; simpl.
  - destruct (Fs.lookup t (mkPath r [])) as [[|f]|]; try discriminate;
      intros [= <-]; eexists; reflexivity.
  - destruct (Fs.lookup t (mkPath r (rev up ++ [x]))) as [[|f]|];
      try discriminate; try (intros [= <-]; eexists; reflexivity).
    destruct (Fs.lookup t (mkPath r (rev up))) as [[|f]|];
      try discriminate; try (intros [= <-]; eexists; reflexivity).
    destruct (Fs.mkdir_rev t r up) as [t1|e1] eqn:M.
    + unfold Fs.os_mkdir.
      destruct (Fs.lookup t1 _); [intros [= <-]; eexists; reflexivity|].
      destruct (Fs.lookup t1 _) as [[|f]|];
        try discriminate; intros [= <-]; eexists; reflexivity.
    + intros [= <-]. now apply (IH t).
Qed.

(** With a supported format, step 3 raises only for an input path without
    a name and without output location. *)
Lemma resolved_raises input_path fmt output_dir t e :
  PyStr.mem (PyStr.lower fmt) supported_formats = true ->
  resolved input_path fmt output_dir t = Raise e ->
  output_dir = None /\ PathLib.name input_path = ""
  /\ e = ValueError (PathLib.repr input_path ++ " has an empty name").
Proof.
  intros S. destruct (supported_token fmt S) as [Cf Tf].
  unfold resolved. destruct output_dir as [d|].
  - destruct (Fs.is_file t d); discriminate.
  - unfold PathLib.with_suffix. simpl PyStr.contains. rewrite Cf.
    simpl. destruct fmt as [|c fmt]; [discriminate|]. simpl.
    destruct (PathLib.name input_path) eqn:N; simpl; [|discriminate].
    now intros [= <-].
Qed.

Section Outcomes.

Context {platform : Platform}.

(** A call of [convert] that returns has dealt with a pair of the table; it
    has logged its one record, and the path it returns is a regular file in
    a directory. *)
Theorem convert_returns_written_file input_path fmt output_dir w p w' :
  convert input_path fmt output_dir w = (Return p, w') ->
  registered (input_ext_of input_path) (PyStr.lower fmt) = true
  /\ Fs.is_file (fs w') p = true
  /\ Fs.is_dir (fs w') (PathLib.parent p) = true
  /\ out w' = (out w ++ [converting input_path fmt p])%list.
Proof.
  intros C.
  destruct (convert_not_identical _ _ _ _ _ _ C) as (_ & _ & G).
  destruct (convert_returns_steps _ _ _ _ _ _ C) as (t & R & M & I).
  destruct (mkdir_parents_grows _ _ _ M) as [_ D].
  set (v := mkWorld t (out w ++ [converting input_path fmt p])%list) in *.
  destruct (image_to_image_returns _ _ _ _ I) as (img & format & f & _ & _ & _ & L).
  destruct (image_to_image_effect input_path p v) as [O E].
  rewrite I in O, E. simpl in O, E.
  repeat split.
  - rewrite methods_registered in G. now destruct (registered _ _).
  - unfold Fs.is_file. now rewrite L.
  - destruct E as [->|(g & Dp & ->)]; [exact D|].
    unfold Fs.is_dir in *. rewrite lookup_update_other; [exact D|].
    apply path_eqb_neq. intros Q. rewrite <- Q in D.
    destruct (Fs.lookup t p) as [[|h]|]; discriminate.
  - exact O.
Qed.

(** The two checks at the head of [convert] come before everything else:
    an unsupported output format is reported whatever the input is, equal
    formats are reported next, and in both cases neither the file system
    nor the log has changed. *)
Theorem early_rejection_touches_nothing input_path fmt output_dir w :
  let r := convert input_path fmt output_dir w in
  (rejection (fst r) = Some BadOutputFormat
   <-> PyStr.mem (PyStr.lower fmt) supported_formats = false)
  /\ (rejection (fst r) = Some IdenticalFormats
      <-> PyStr.mem (PyStr.lower fmt) supported_formats = true
          /\ input_ext_of input_path = PyStr.lower fmt)
  /\ (rejection (fst r) = Some BadOutputFormat
      \/ rejection (fst r) = Some IdenticalFormats -> snd r = w).
Proof.
  cbv zeta. rewrite convert_unfold.
  destruct (PyStr.mem (PyStr.lower fmt) supported_formats) eqn:S; simpl (negb _);
    cbv iota.
  2:{ simpl. repeat split; try discriminate; try reflexivity. now intros []. }
  destruct (String.eqb _ _) eqn:E.
  { apply String.eqb_eq in E. simpl. repeat split; try discriminate; auto. }
  apply String.eqb_neq in E.
  assert (Late : forall (o : outcome Path) (v : World),
            rejection o <> Some BadOutputFormat ->
            rejection o <> Some IdenticalFormats ->
            (rejection (fst (o, v)) = Some BadOutputFormat
             <-> true = false)
            /\ (rejection (fst (o, v)) = Some IdenticalFormats
                <-> true = true /\ input_ext_of input_path = PyStr.lower fmt)
            /\ (rejection (fst (o, v)) = Some BadOutputFormat
                \/ rejection (fst (o, v)) = Some IdenticalFormats -> snd (o, v) = w)).
  { intros o v A B. simpl. intuition (try discriminate; try congruence). }
  destruct (resolved _ _ _ _) as [p|e] eqn:R.
  2:{ destruct (resolved_raises _ _ _ _ _ S R) as (_ & _ & ->).
      apply Late; discriminate. }
  destruct (Fs.mkdir_parents _ _) as [t|e] eqn:M.
  2:{ destruct (mkdir_rev_raises _ _ _ _ M) as [msg ->]. apply Late; discriminate. }
  destruct (_get_conversion_method _ _) as [m|]; [|apply Late; discriminate].
  pose proof (call_not_rejected m input_path p
                (mkWorld t (out w ++ [converting input_path fmt p])%list)) as N.
  destruct (call m input_path p _) as [[[]|e] w']; simpl in N;
    apply Late; simpl; congruence.
Qed.

(** The routine raises nothing but [ConversionError] with the cause in its
    message; it writes no log record, and when the input does not open as an
    image it leaves the world as it was. *)
Theorem image_to_image_wraps_errors input_path output_path w :
  let r := _image_to_image input_path output_path w in
  out (snd r) = out w
  /\ (fst r = Return tt
      \/ exists e, fst r = Raise (ConversionError (Failed (str_exn e))))
  /\ (forall e, fst (Image_open input_path w) = Raise e ->
        r = (Raise (ConversionError (Failed (str_exn e))), w)).
Proof.
  cbv zeta. split; [apply image_to_image_out|].
  rewrite image_to_image_unfold.
  destruct (Image_open input_path w) as [[img|e] w1] eqn:O;
    apply Image_open_world in O; subst w1; simpl.
  - split; [|discriminate]. unfold try_except, wrap, raise.
    destruct (Image_save _ _ _) as [[[]|e] w2]; simpl; [now left|].
    right. now exists e.
  - split; [right; now exists e|]. now intros e' [= <-].
Qed.

(** Outside the two special cases, the image is saved as it was decoded:
    no flattening for a JPEG output unless the mode is RGBA or LA, and no
    resizing unless the output is an icon. *)
Theorem image_saved_as_decoded input_path output_path w img :
  Image_open input_path w = (Return img, w) ->
  PyStr.mem (PyStr.lower (PathLib.suffix output_path)) [".jpg"; ".jpeg"]
  && PyStr.mem (mode img) ["RGBA"; "LA"] = false ->
  PyStr.lower (PathLib.suffix output_path) <> ".ico" ->
  _image_to_image input_path output_path w
  = try_except (Image_save img output_path) wrap w.
Proof.
  intros O J I. rewrite image_to_image_unfold, O. unfold normalised.
  rewrite J. apply String.eqb_neq in I. now rewrite I.
Qed.

End Outcomes.

Lemma convert_returns_written_file_witness :
  let r := convert (PathLib.of_string "cat.png") "jpg"
             (Some (PathLib.of_string "out")) Demo.world in
  r = (Return (PathLib.of_string "out/cat.jpg"), snd r)
  /\ registered "png" "jpg" = true
  /\ Fs.is_file (fs (snd r)) (PathLib.of_string "out/cat.jpg") = true.
Proof.
  split; [reflexivity|]. split; [reflexivity|].
  exact (proj1 (proj2
           (convert_returns_written_file (PathLib.of_string "cat.png") "jpg"
              (Some (PathLib.of_string "out")) Demo.world
              (PathLib.of_string "out/cat.jpg") _ eq_refl))).
Defined.

Lemma image_saved_as_decoded_witness :
  let input_path := PathLib.of_string "cat.png" in
  let output_path := PathLib.of_string "cat.webp" in
  Image_open input_path Demo.world = (Return Demo.cat, Demo.world)
  /\ PyStr.lower (PathLib.suffix output_path) <> ".ico"
  /\ _image_to_image input_path output_path Demo.world
     = try_except (Image_save Demo.cat output_path) wrap Demo.world.
Proof.
  assert (I : PyStr.lower (PathLib.suffix (PathLib.of_string "cat.webp")) <> ".ico")
    by discriminate.
  split; [reflexivity|]. split; [exact I|].
  exact (image_saved_as_decoded (PathLib.of_string "cat.png")
           (PathLib.of_string "cat.webp") Demo.world Demo.cat eq_refl eq_refl I).
Defined.

(* ================================================================== *)
(** ** A failure and the files after it *)
(* ================================================================== *)

Lemma mkdir_rev_dir t r rev_parts :
  Fs.lookup t (mkPath r (rev rev_parts)) = Some Dir ->
  Fs.mkdir_rev t r rev_parts = Return t.
Proof. intros L. destruct rev_parts; simpl in *; now rewrite L. Qed.

(** Making a directory that is there changes nothing. *)
Lemma mkdir_parents_dir t p :
  Fs.is_dir t p = true -> Fs.mkdir_parents t p = Return t.
Proof.
  unfold Fs.is_dir, Fs.mkdir_parents. intros D. apply mkdir_rev_dir.
  rewrite rev_involutive. destruct p as [r l]. simpl.
  now destruct (Fs.lookup t (mkPath r l)) as [[|f]|].
Qed.

Lemma mkdir_parents_again t p t' :
  Fs.mkdir_parents t p = Return t' -> Fs.mkdir_parents t' p = Return t'.
Proof. intros M. apply mkdir_parents_dir. now apply mkdir_parents_grows in M. Qed.

Lemma os_mkdir_adds t p t' :
  Fs.os_mkdir t p = Return t' ->
  forall q, Fs.lookup t' q = Fs.lookup t q
            \/ (Fs.lookup t q = None /\ Fs.lookup t' q = Some Dir).
Proof.
  unfold Fs.os_mkdir.
  destruct (Fs.lookup t p) eqn:L; [discriminate|].
  destruct (Fs.lookup t (PathLib.parent p)) as [[|f]|]; try discriminate.
  intros [= <-] q. destruct (PathLib.eqb p q) eqn:E.
  - apply path_eqb_eq in E. subst q. right. now rewrite lookup_update_same.
  - left. now apply lookup_update_other.
Qed.

(** [mkdir] adds directories and nothing else. *)
Lemma mkdir_rev_adds r rev_parts : forall t t',
  Fs.mkdir_rev t r rev_parts = Return t' ->
  forall q, Fs.lookup t' q = Fs.lookup t q
            \/ (Fs.lookup t q = None /\ Fs.lookup t' q = Some Dir).
Proof.
  assert (New : forall t p q, Fs.lookup t p = None ->
            Fs.lookup (Fs.update t p Dir) q = Fs.lookup t q
            \/ (Fs.lookup t q = None /\ Fs.lookup (Fs.update t p Dir) q = Some Dir)).
  { intros t p q L. destruct (PathLib.eqb p q) eqn:E.
    - apply path_eqb_eq in E. subst q. right. now rewrite lookup_update_same.
    - left. now apply lookup_update_other. }
  induction rev_parts as [|x up IH]; intros t t'; simpl.
  - destruct (Fs.lookup t (mkPath r [])) as [[|f]|]; try discriminate.
    intros [= <-] q. now left.
  - destruct (Fs.lookup t (mkPath r (rev up ++ [x]))) as [[|f]|] eqn:L;
      try discriminate; [intros [= <-] q; now left|].
    destruct (Fs.lookup t (mkPath r (rev up))) as [[|f]|]; try discriminate.
    + intros [= <-] q. now apply New.
    + destruct (Fs.mkdir_rev t r up) as [t1|e1] eqn:M; [|discriminate].
      intros O q.
      destruct (IH _ _ M q) as [A|[A1 A2]];
        destruct (os_mkdir_adds _ _ _ O q) as [B|[B1 B2]].
      * left. congruence.
      * right. split; congruence.
      * right. split; congruence.
      * congruence.
Qed.

Lemma mkdir_parents_adds t p t' :
  Fs.mkdir_parents t p = Return t' ->
  forall q, Fs.lookup t' q = Fs.lookup t q
            \/ (Fs.lookup t q = None /\ Fs.lookup t' q = Some Dir).
Proof. apply mkdir_rev_adds. Qed.

Lemma mkdir_parents_is_file t p t' q :
  Fs.mkdir_parents t p = Return t' -> Fs.is_file t' q = Fs.is_file t q.
Proof.
  intros M. unfold Fs.is_file.
  destruct (mkdir_parents_adds _ _ _ M q) as [->|[-> ->]]; reflexivity.
Qed.

Lemma mkdir_parents_same_files t p t' :
  Fs.mkdir_parents t p = Return t' -> same_files t t'.
Proof.
  intros M q f.
  destruct (mkdir_parents_adds _ _ _ M q) as [->|[-> ->]]; [reflexivity|].
  split; discriminate.
Qed.

Lemma ahead_same_files output_dir t t' : ahead output_dir t t' -> same_files t t'.
Proof.
  intros [->|(d & _ & M)]; [now intros q f|].
  now apply mkdir_parents_same_files in M.
Qed.

(** Writing the node that is there changes nothing. *)
Lemma update_same t p n : Fs.lookup t p = Some n -> Fs.update t p n = t.
Proof.
  induction t as [|[q m] t IH]; simpl; [discriminate|].
  destruct (PathLib.eqb q p) eqn:E.
  - now intros [= ->].
  - intros L. now rewrite IH.
Qed.

Section Failures.

Context {platform : Platform}.

(** [convert] reads the file system and not the log. *)
Lemma convert_fs input_path fmt output_dir w1 w2 :
  fs w1 = fs w2 ->
  fst (convert input_path fmt output_dir w1) = fst (convert input_path fmt output_dir w2)
  /\ fs (snd (convert input_path fmt output_dir w1))
     = fs (snd (convert input_path fmt output_dir w2)).
Proof.
  intros E. rewrite !convert_unfold, E.
  destruct (negb _); [now split|].
  destruct (String.eqb _ _); [now split|].
  destruct (resolved input_path fmt output_dir (fs w2)) as [p|e]; [|now split].
  destruct (Fs.mkdir_parents (fs w2) (PathLib.parent p)) as [t|e]; [|now split].
  destruct (_get_conversion_method _ _) as [[]|]; [|now split].
  simpl call.
  destruct (image_to_image_fs input_path p
              (mkWorld t (out w1 ++ [converting input_path fmt p])%list)
              (mkWorld t (out w2 ++ [converting input_path fmt p])%list) eq_refl)
    as [E1 E2].
  destruct (_image_to_image input_path p (mkWorld t (out w1 ++ _)%list)) as [[[]|e1] u1];
    destruct (_image_to_image input_path p (mkWorld t (out w2 ++ _)%list)) as [[[]|e2] u2];
    simpl in *; split; congruence.
Qed.

(** The parent of the output path is the directory of the output
    location. *)
Lemma resolved_parent input_path fmt d t p :
  PyStr.mem (PyStr.lower fmt) supported_formats = true ->
  PyStr.contains "/" (PathLib.stem input_path) = false ->
  resolved input_path fmt (Some d) t = Return p ->
  PathLib.parent p = output_directory t d.
Proof.
  intros S C R. unfold output_directory.
  destruct (resolved_name _ _ _ _ _ S C R) as [(d' & [= <-] & F & ->)|[_ P]].
  - now rewrite F.
  - destruct (P d eq_refl) as [Pd _]. unfold resolved in R.
    destruct (Fs.is_file t d); [|exact Pd].
    injection R as <-. now destruct (P d eq_refl).
Qed.

(** A conversion that starts with the directory of the output location
    already made has the outcome it has without it. *)
Lemma convert_ahead input_path fmt output_dir w v :
  PyStr.contains "/" (PathLib.stem input_path) = false ->
  ahead output_dir (fs w) (fs v) ->
  fst (convert input_path fmt output_dir v) = fst (convert input_path fmt output_dir w)
  /\ ahead output_dir (fs (snd (convert input_path fmt output_dir w)))
       (fs (snd (convert input_path fmt output_dir v))).
Proof.
  intros C [E|(d & -> & M)].
  - destruct (convert_fs input_path fmt output_dir v w E) as [E1 E2].
    split; [exact E1|]. now left.
  - assert (Keep : ahead (Some d) (fs w) (fs v)) by (right; now exists d).
    rewrite !convert_unfold.
    destruct (PyStr.mem (PyStr.lower fmt) supported_formats) eqn:S; simpl (negb _);
      cbv iota; [|now split].
    destruct (String.eqb _ _); [now split|].
    assert (F : Fs.is_file (fs v) d = Fs.is_file (fs w) d)
      by exact (mkdir_parents_is_file _ _ _ d M).
    assert (R : resolved input_path fmt (Some d) (fs v)
                = resolved input_path fmt (Some d) (fs w))
      by (unfold resolved; now rewrite F).
    rewrite R.
    destruct (resolved input_path fmt (Some d) (fs w)) as [p|e] eqn:Rw; [|now split].
    rewrite (resolved_parent _ _ _ _ _ S C Rw), M.
    rewrite (mkdir_parents_again _ _ _ M).
    destruct (_get_conversion_method _ _) as [[]|]; [|split; [reflexivity|now left]].
    simpl call.
    destruct (image_to_image_fs input_path p
                (mkWorld (fs v) (out v ++ [converting input_path fmt p])%list)
                (mkWorld (fs v) (out w ++ [converting input_path fmt p])%list) eq_refl)
      as [E1 E2].
    destruct (_image_to_image input_path p (mkWorld (fs v) (out v ++ _)%list))
      as [[[]|e1] u1];
      destruct (_image_to_image input_path p (mkWorld (fs v) (out w ++ _)%list))
        as [[[]|e2] u2];
      simpl in *; try discriminate; (split; [congruence | now left]).
Qed.

(** So have all the files of a batch. *)
Lemma run_ahead input_files fmt output_dir : forall w v n m,
  Forall (fun f => PyStr.contains "/" (PathLib.stem f) = false) input_files ->
  ahead output_dir (fs w) (fs v) ->
  map snd (run input_files fmt output_dir v) = map snd (run input_files fmt output_dir w)
  /\ ahead output_dir (fs (snd (convert_all input_files fmt output_dir n w)))
       (fs (snd (convert_all input_files fmt output_dir m v))).
Proof.
  induction input_files as [|input_file rest IH]; intros w v n m St A.
  - simpl. split; [reflexivity | exact A].
  - inversion St as [|? ? C Sr]; subst.
    rewrite !convert_all_cons. simpl run.
    destruct (convert_ahead input_file fmt output_dir w v C A) as [E A1].
    destruct (convert input_file fmt output_dir v) as [ov v1].
    destruct (convert input_file fmt output_dir w) as [ow w1].
    simpl in E, A1. subst ov. simpl map.
    destruct ow as [p|e]; simpl record_of.
    + destruct (IH (log_event (succeeded_record input_file p) w1)
                   (log_event (succeeded_record input_file p) v1)
                   (n + 1) (m + 1) Sr A1) as [R Af].
      split; [now rewrite R | exact Af].
    + destruct (IH (log_event (failed_record input_file e) w1)
                   (log_event (failed_record input_file e) v1)
                   n m Sr A1) as [R Af].
      split; [now rewrite R | exact Af].
Qed.

(** How a call of [convert] that raises can have changed the file system:
    not at all, by the directories [mkdir] has made, or, when the encoder
    refused the image and the output file was there before, by what the
    encoder left of that file. *)
Lemma convert_failure input_path fmt output_dir w e w1 :
  convert input_path fmt output_dir w = (Raise e, w1) ->
  fs w1 = fs w
  \/ exists p t,
       resolved input_path fmt output_dir (fs w) = Return p
       /\ Fs.mkdir_parents (fs w) (PathLib.parent p) = Return t
       /\ (fs w1 = t
           \/ exists img format msg partial,
                Fs.is_file (fs w) p = true
                /\ fst (Image_open input_path (mkWorld t (out w))) = Return img
                /\ EXTENSION (PyStr.lower (splitext_ext (PathLib.str p))) = Some format
                /\ save_handler format (normalised img p) = Refused msg partial
                /\ e = ConversionError (Failed msg)
                /\ fs w1 = Fs.update t p (Regular partial)).
Proof.
  rewrite convert_unfold.
  destruct (negb _); [intros [= _ <-]; now left|].
  destruct (String.eqb _ _); [intros [= _ <-]; now left|].
  destruct (resolved input_path fmt output_dir (fs w)) as [p|e0]; [|intros [= _ <-]; now left].
  destruct (Fs.mkdir_parents (fs w) (PathLib.parent p)) as [t|e0] eqn:M;
    [|intros [= _ <-]; now left].
  intros H. right. exists p, t. split; [reflexivity|]. split; [exact M|].
  revert H.
  destruct (_get_conversion_method _ _) as [[]|]; [|intros [= _ <-]; now left].
  simpl call. rewrite image_to_image_unfold.
  set (v := mkWorld t (out w ++ [converting input_path fmt p])%list).
  pose proof (Image_open_fs input_path v (mkWorld t (out w)) eq_refl) as Ofs.
  destruct (Image_open input_path v) as [[img|e1] v1] eqn:O;
    apply Image_open_world in O; subst v1; [|intros [= _ <-]; now left].
  simpl in Ofs.
  unfold try_except, Image_save, wrap, raise. simpl fs.
  destruct (EXTENSION _) as [format|] eqn:X; [|intros [= _ <-]; now left].
  destruct (Fs.lookup t p) as [[|g]|] eqn:L; [intros [= _ <-]; now left| |].
  - destruct (save_handler format (normalised img p)) as [f|msg partial] eqn:V;
      [discriminate|].
    intros [= <- <-]. right. exists img, format, msg, partial.
    repeat split; auto.
    rewrite <- (mkdir_parents_is_file _ _ _ p M). unfold Fs.is_file. now rewrite L.
  - destruct (Fs.lookup t (PathLib.parent p)) as [[|g]|];
      try (intros [= _ <-]; now left).
    destruct (save_handler format (normalised img p)) as [f|msg partial];
      [discriminate|]. intros [= _ <-]. now left.
Qed.

(** A failure that has changed no node that was there has at most made
    the directory of the output location. *)
Lemma failure_ahead input_path fmt output_dir w e w1 :
  convert input_path fmt output_dir w = (Raise e, w1) ->
  grows (fs w) (fs w1) ->
  PyStr.contains "/" (PathLib.stem input_path) = false ->
  (output_dir = None -> Fs.is_dir (fs w) (PathLib.parent input_path) = true) ->
  ahead output_dir (fs w) (fs w1).
Proof.
  intros H G C D.
  assert (S : fs w1 = fs w \/ PyStr.mem (PyStr.lower fmt) supported_formats = true).
  { revert H. rewrite convert_unfold.
    destruct (PyStr.mem (PyStr.lower fmt) supported_formats); [now right|].
    intros [= _ <-]. now left. }
  destruct S as [S|S]; [now left|].
  destruct (convert_failure _ _ _ _ _ _ H) as [E|(p & t & R & M & E)]; [now left|].
  assert (T : fs w1 = t).
  { destruct E as [E|(img & format & msg & partial & F & _ & _ & _ & _ & E)];
      [exact E|].
    unfold Fs.is_file in F.
    destruct (Fs.lookup (fs w) p) as [[|g]|] eqn:L; try discriminate.
    pose proof (G _ _ L) as L1. rewrite E, lookup_update_same in L1.
    injection L1 as ->. rewrite E. apply update_same.
    now apply (proj1 (mkdir_parents_grows _ _ _ M)). }
  rewrite T. destruct output_dir as [d|].
  - right. exists d. split; [reflexivity|].
    now rewrite <- (resolved_parent _ _ _ _ _ S C R).
  - left. unfold resolved in R. apply with_suffix_name in R as (_ & P & _).
    rewrite P, (mkdir_parents_dir _ _ (D eq_refl)) in M. now injection M.
Qed.

End Failures.

Section BatchLoop.

Context {platform : Platform}.

(** The loop over a list is the loop over its first part, and then the
    loop over the rest in the world the first part has left. *)
Lemma convert_all_split before rest fmt output_dir : forall n w,
  exists m,
    convert_all (before ++ rest) fmt output_dir n w
    = convert_all rest fmt output_dir m (snd (convert_all before fmt output_dir n w)).
Proof.
  induction before as [|input_file before IH]; intros n w.
  - now exists n.
  - cbn [app]. rewrite !convert_all_cons.
    destruct (convert input_file fmt output_dir w) as [[p|e] w1]; apply IH.
Qed.

Lemma run_split before rest fmt output_dir : forall n w,
  run (before ++ rest) fmt output_dir w
  = (run before fmt output_dir w
     ++ run rest fmt output_dir (snd (convert_all before fmt output_dir n w)))%list.
Proof.
  induction before as [|input_file before IH]; intros n w.
  - reflexivity.
  - cbn [app]. rewrite convert_all_cons. simpl run.
    destruct (convert input_file fmt output_dir w) as [[p|e] w1]; simpl;
      f_equal; apply IH.
Qed.

(** C6, amended.  The loop over the input files always runs to its end: a
    file whose conversion raises is logged as a failure and the next file
    is converted.  The counter it returns is the number of files whose
    conversion returned, the number of attempts is the length of the input
    list, and the log has gained one success record per success and one
    failure record per failure; a run of [main] that reaches the loop ends
    its log with these two counts.

    A failure, wherever it stands in the list, removes no file and no
    directory.  Either it has left every node as it was, adding directories
    at most, or the encoder has refused the image after the output file,
    which was there before, had been opened: that file is then left as the
    encoder left it.  In the first case the files after the failure have
    the outcomes they have without it, and the loop ends with the same
    regular files, when the output location is given or the directory of
    the failed input exists; the stems of the input paths hold no
    separator, as those of parsed paths do. *)
Theorem batch_loop_counts input_files fmt output_dir w :
  let outcome_list := run input_files fmt output_dir w in
  exists w' evs,
    convert_all input_files fmt output_dir 0 w = (Return (succeeded outcome_list), w')
    /\ map fst outcome_list = input_files
    /\ attempted outcome_list = List.length input_files
    /\ succeeded outcome_list <= attempted outcome_list
    /\ out w' = (out w ++ evs)%list
    /\ List.length (filter is_success evs) = succeeded outcome_list
    /\ List.length (filter is_failure evs)
       = attempted outcome_list - succeeded outcome_list
    /\ (forall args,
          validation_errors args (fs w) = [] ->
          fst (get_input_files args w) = Return input_files ->
          input_files <> [] ->
          chosen_format args input_files = Some fmt ->
          output args = output_dir ->
          snd (main args w)
          = log_event (summary_record (succeeded outcome_list)
                         (attempted outcome_list)) w')
    /\ (forall before bad rest e w1,
          input_files = (before ++ bad :: rest)%list ->
          let w0 := snd (convert_all before fmt output_dir 0 w) in
          convert bad fmt output_dir w0 = (Raise e, w1) ->
          let w2 := log_event (failed_record bad e) w1 in
          outcome_list
          = (run before fmt output_dir w
             ++ (bad, Raise e) :: run rest fmt output_dir w2)%list
          /\ keeps (fs w0) (fs w1)
          /\ (grows (fs w0) (fs w1)
              \/ exists p t img format msg partial,
                   resolved bad fmt output_dir (fs w0) = Return p
                   /\ Fs.is_file (fs w0) p = true
                   /\ Fs.mkdir_parents (fs w0) (PathLib.parent p) = Return t
                   /\ fst (Image_open bad (mkWorld t (out w0))) = Return img
                   /\ EXTENSION (PyStr.lower (splitext_ext (PathLib.str p)))
                      = Some format
                   /\ save_handler format (normalised img p) = Refused msg partial
                   /\ e = ConversionError (Failed msg)
                   /\ fs w1 = Fs.update t p (Regular partial))
          /\ (grows (fs w0) (fs w1) ->
              Forall (fun f => PyStr.contains "/" (PathLib.stem f) = false)
                (bad :: rest) ->
              (output_dir = None ->
               Fs.is_dir (fs w0) (PathLib.parent bad) = true) ->
              map snd (run rest fmt output_dir w2)
              = map snd (run rest fmt output_dir w0)
              /\ same_files (fs (snd (convert_all rest fmt output_dir 0 w0)))
                   (fs w'))).
Proof.
  intros outcome_list.
  destruct (convert_all_counts input_files fmt output_dir 0 w) as (w' & evs & C & O & S & T).
  assert (A : attempted outcome_list = List.length input_files).
  { unfold attempted, outcome_list. rewrite <- (length_map fst).
    now rewrite run_files. }
  exists w', evs. fold outcome_list in C, S. rewrite A.
  split; [exact C|]. split; [apply run_files|]. split; [reflexivity|].
  split; [lia|]. split; [exact O|]. split; [exact S|]. split; [lia|].
  split.
  - intros args V G N F <-.
    rewrite (main_loop args w input_files fmt V G N F), C. reflexivity.
  - intros before bad rest e w1 -> w0 H w2.
    split; [|split; [|split]].
    + unfold outcome_list. rewrite (run_split before (bad :: rest) fmt output_dir 0 w).
      fold w0. simpl run. now rewrite H.
    + pose proof (convert_keeps bad fmt output_dir w0) as K. now rewrite H in K.
    + destruct (convert_failure _ _ _ _ _ _ H)
        as [E|(p & t & R & M & [E|(img & format & msg & partial & F & Op & X & V & Ee & E)])].
      * left. rewrite E. apply grows_refl.
      * left. rewrite E. now apply mkdir_parents_grows in M.
      * right. exists p, t, img, format, msg, partial. now repeat split.
    + intros G St D. inversion St as [|? ? Cb Sr]; subst.
      pose proof (failure_ahead _ _ _ _ _ _ H G Cb D) as Ah.
      destruct (convert_all_split before (bad :: rest) fmt output_dir 0 w) as [m Cs].
      fold w0 in Cs. rewrite convert_all_cons, H in Cs. fold w2 in Cs.
      destruct (run_ahead rest fmt output_dir w0 w2 0 m Sr Ah) as [Rn Af].
      split; [exact Rn|].
      apply ahead_same_files in Af. rewrite <- Cs, C in Af. exact Af.
Qed.

End BatchLoop.

(** A batch of two files, the first of which is no image: its failure
    changes no node, and the second file has the outcome it has on its
    own. *)
Lemma batch_loop_counts_witness :
  let broken := PathLib.of_string "broken.png" in
  let photo := PathLib.of_string "photo.jpg" in
  let e := ConversionError (Failed "cannot identify image file 'broken.png'") in
  let w1 := snd (convert broken "gif" None Demo.world) in
  convert broken "gif" None Demo.world = (Raise e, w1)
  /\ grows (fs Demo.world) (fs w1)
  /\ Forall (fun f => PyStr.contains "/" (PathLib.stem f) = false) [broken; photo]
  /\ Fs.is_dir (fs Demo.world) (PathLib.parent broken) = true
  /\ map snd (run [photo] "gif" None (log_event (failed_record broken e) w1))
     = map snd (run [photo] "gif" None Demo.world)
  /\ map snd (run [photo] "gif" None Demo.world)
     = [Return (PathLib.of_string "photo.gif")].
Proof.
  assert (G : grows (fs Demo.world)
                (fs (snd (convert (PathLib.of_string "broken.png") "gif" None
                            Demo.world)))) by (intros q n L; exact L).
  assert (S : Forall (fun f => PyStr.contains "/" (PathLib.stem f) = false)
                [PathLib.of_string "broken.png"; PathLib.of_string "photo.jpg"])
    by (repeat constructor).
  split; [reflexivity|]. split; [exact G|]. split; [exact S|].
  split; [reflexivity|]. split; [|reflexivity].
  destruct (batch_loop_counts
              [PathLib.of_string "broken.png"; PathLib.of_string "photo.jpg"]
              "gif" None Demo.world)
    as (w' & evs & _ & _ & _ & _ & _ & _ & _ & _ & I).
  exact (proj1 (proj2 (proj2 (proj2
           (I [] (PathLib.of_string "broken.png") [PathLib.of_string "photo.jpg"]
              (ConversionError (Failed "cannot identify image file 'broken.png'"))
              (snd (convert (PathLib.of_string "broken.png") "gif" None Demo.world))
              eq_refl eq_refl))) G S (fun _ => eq_refl))).
Defined.

(** C6 as stated fails.  The output location is the existing file
    [old.jpg], and a png is asked for.  On its own [old.jpg] is converted;
    after [pal.gif], whose palette image the JPEG encoder refuses once
    [old.jpg] has been opened for writing, [old.jpg] is no image any more
    and its conversion fails too: the run of [main] ends with no success
    and the exit code 1, and with [old.jpg] alone it ends with 0. *)
Lemma failed_save_spoils_later_input :
  let old := PathLib.of_string "old.jpg" in
  let pal := PathLib.of_string "pal.gif" in
  let args l := mkNamespace (Some l) None (Some "png") (Some old) false in
  map (fun r => returned (snd r)) (run [old] "png" (Some old) Demo.gallery) = [true]
  /\ map (fun r => returned (snd r)) (run [pal; old] "png" (Some old) Demo.gallery)
     = [false; false]
  /\ Fs.lookup (fs (snd (convert pal "png" (Some old) Demo.gallery))) old
     = Some (Regular (mkFile None None))
  /\ fst (main (args ["old.jpg"]) Demo.gallery) = Return 0
  /\ fst (main (args ["pal.gif"; "old.jpg"]) Demo.gallery) = Return 1.
Proof. repeat split; reflexivity. Qed.

(* ================================================================== *)
(** ** More on the batch loop *)
(* ================================================================== *)

Section Loop.

Context {platform : Platform}.

(** Converting a list of files in one loop is converting a first part of
    it and then the rest, on the world the first part has left and with the
    counter carried over. *)
Theorem convert_all_app before after fmt output_dir : forall n w,
  convert_all (before ++ after) fmt output_dir n w
  = (m <- convert_all before fmt output_dir n ;; convert_all after fmt output_dir m) w.
Proof.
  induction before as [|input_file rest IH]; intros n w.
  - reflexivity.
  - simpl app. rewrite convert_all_cons. unfold bind at 1.
    rewrite convert_all_cons.
    destruct (convert input_file fmt output_dir w) as [[p|e] w1]; apply IH.
Qed.

(** With an output format the converter does not support, every file of
    the batch fails with the same message, the counter stays, and the file
    system is not touched. *)
Theorem unsupported_format_fails_every_file input_files fmt output_dir :
  PyStr.mem (PyStr.lower fmt) supported_formats = false ->
  forall n w,
    convert_all input_files fmt output_dir n w
    = (Return n,
       mkWorld (fs w)
         (out w ++ map (fun f => failed_record f (ConversionError (UnsupportedOutput fmt)))
                     input_files)%list).
Proof.
  intros S. induction input_files as [|input_file rest IH]; intros n w.
  - simpl. unfold ret. rewrite app_nil_r. now destruct w.
  - rewrite convert_all_cons, (convert_bad_output _ _ _ _ S), IH.
    unfold log_event. simpl. now rewrite <- app_assoc.
Qed.

Lemma convert_all_keeps input_files fmt output_dir : forall n w,
  keeps (fs w) (fs (snd (convert_all input_files fmt output_dir n w))).
Proof.
  induction input_files as [|input_file rest IH]; intros n w.
  - apply keeps_refl.
  - rewrite convert_all_cons.
    pose proof (convert_keeps input_file fmt output_dir w) as K.
    destruct (convert input_file fmt output_dir w) as [[p|e] w1]; simpl in K.
    + apply (keeps_trans _ (fs w1)); [exact K|].
      apply (IH (n + 1) (log_event (succeeded_record input_file p) w1)).
    + apply (keeps_trans _ (fs w1)); [exact K|].
      apply (IH n (log_event (failed_record input_file e) w1)).
Qed.

(** With an existing regular file as output location, every conversion of
    the batch that returns has written that one file: each success
    overwrites the one before. *)
Theorem batch_into_one_file input_files fmt d : forall w,
  Fs.is_file (fs w) d = true ->
  forall input_file p,
    In (input_file, Return p) (run input_files fmt (Some d) w) -> p = d.
Proof.
  induction input_files as [|f rest IH]; intros w F input_file p; simpl.
  - contradiction.
  - pose proof (convert_keeps f fmt (Some d) w) as K.
    destruct (convert f fmt (Some d) w) as [o w1] eqn:C. simpl in K.
    intros [[= <- ->]|I].
    + apply convert_returns_resolved in C. unfold resolved in C.
      rewrite F in C. now injection C.
    + refine (IH (log_event (record_of f o) w1) _ input_file p I).
      simpl. now apply (proj1 (K d)).
Qed.

End Loop.

Lemma unsupported_format_fails_every_file_witness :
  PyStr.mem (PyStr.lower "SVG") supported_formats = false
  /\ fst (convert_all [PathLib.of_string "cat.png"; PathLib.of_string "photo.jpg"]
            "SVG" None 0 Demo.world) = Return 0.
Proof.
  split; [reflexivity|].
  exact (f_equal fst
           (unsupported_format_fails_every_file
              [PathLib.of_string "cat.png"; PathLib.of_string "photo.jpg"]
              "SVG" None eq_refl 0 Demo.world)).
Defined.

Lemma batch_into_one_file_witness :
  let files := [PathLib.of_string "cat.png"; PathLib.of_string "photo.jpg"] in
  let d := PathLib.of_string "old.jpg" in
  Fs.is_file (fs Demo.world) d = true
  /\ In (PathLib.of_string "photo.jpg", Return d) (run files "gif" (Some d) Demo.world)
  /\ d = d.
Proof.
  assert (I : In (PathLib.of_string "photo.jpg", Return (PathLib.of_string "old.jpg"))
                (run [PathLib.of_string "cat.png"; PathLib.of_string "photo.jpg"]
                   "gif" (Some (PathLib.of_string "old.jpg")) Demo.world))
    by (right; left; reflexivity).
  split; [reflexivity|]. split; [exact I|].
  exact (batch_into_one_file
           [PathLib.of_string "cat.png"; PathLib.of_string "photo.jpg"] "gif"
           (PathLib.of_string "old.jpg") Demo.world eq_refl _ _ I).
Defined.

(* ================================================================== *)
(** ** Arguments and input files *)
(* ================================================================== *)

Lemma flat_map_nil {A B} (f : A -> list B) l :
  flat_map f l = [] <-> forall a, In a l -> f a = [].
Proof.
  induction l as [|a l IH]; simpl.
  - split; [contradiction | reflexivity].
  - split.
    + intros E%app_eq_nil b [<-|I]; [tauto | now apply IH].
    + intros F. rewrite (F a (or_introl eq_refl)). apply IH. auto.
Qed.

Lemma app_nil_iff {A} (l l' : list A) : (l ++ l')%list = [] <-> l = [] /\ l' = [].
Proof.
  split; [apply app_eq_nil | now intros [-> ->]].
Qed.

Lemma if_nil (c : bool) (x : string) : (if c then [x] else []) = [] <-> c = false.
Proof. destruct c; split; (discriminate || reflexivity). Qed.

(** [validate_args] returns [True] exactly when an input or a batch list is
    given, a format comes with more than one input and with a [*] among the
    inputs, every input names an existing path, and the batch list exists. *)
Theorem validate_args_accepts args w :
  fst (validate_args args w) = Return true <->
  (given_list (input_paths args) = true \/ given_path (batch args) = true)
  /\ (given_list (input_paths args) = true ->
      1 < List.length (paths_of (input_paths args)) ->
      given_string (output_format args) = true)
  /\ (given_list (input_paths args) = true ->
      PyStr.contains "*" (PyStr.join " " (paths_of (input_paths args))) = true ->
      given_string (output_format args) = true)
  /\ (forall path_str, In path_str (paths_of (input_paths args)) ->
        Fs.exists_ (fs w) (PathLib.of_string path_str) = true)
  /\ (forall b, batch args = Some b -> Fs.exists_ (fs w) b = true).
Proof.
  rewrite validate_args_spec.
  assert (V : validation_errors args (fs w) = [] <->
              (given_list (input_paths args) = true \/ given_path (batch args) = true)
              /\ (given_list (input_paths args) = true ->
                  1 < List.length (paths_of (input_paths args)) ->
                  given_string (output_format args) = true)
              /\ (given_list (input_paths args) = true ->
                  PyStr.contains "*" (PyStr.join " " (paths_of (input_paths args))) = true ->
                  given_string (output_format args) = true)
              /\ (forall path_str, In path_str (paths_of (input_paths args)) ->
                    Fs.exists_ (fs w) (PathLib.of_string path_str) = true)
              /\ (forall b, batch args = Some b -> Fs.exists_ (fs w) b = true)).
  { unfold validation_errors. rewrite !app_nil_iff, !if_nil.
    assert (P : (if given_list (input_paths args)
                 then flat_map
                        (fun path_str =>
                           if negb (Fs.exists_ (fs w) (PathLib.of_string path_str))
                           then [("Input file does not exist: "
                                  ++ PathLib.str (PathLib.of_string path_str))%string]
                           else [])
                        (paths_of (input_paths args))
                 else []) = [] <->
                forall path_str, In path_str (paths_of (input_paths args)) ->
                  Fs.exists_ (fs w) (PathLib.of_string path_str) = true).
    { destruct (input_paths args) as [[|x l]|]; simpl given_list; cbv iota.
      - split; [now intros _ ? [] | reflexivity].
      - rewrite flat_map_nil. split; intros F s I.
        + apply F, if_nil, negb_false_iff in I. exact I.
        + apply if_nil, negb_false_iff. now apply F.
      - split; [now intros _ ? [] | reflexivity]. }
    assert (B : match batch args with
                | Some b =>
                    if negb (Fs.exists_ (fs w) b)
                    then [("Batch file does not exist: " ++ PathLib.str b)%string]
                    else []
                | None => []
                end = [] <-> forall b, batch args = Some b -> Fs.exists_ (fs w) b = true).
    { destruct (batch args) as [b|].
      - rewrite if_nil, negb_false_iff. split; [now intros E ? [= <-] | auto].
      - split; [discriminate | reflexivity]. }
    rewrite P, B.
    destruct (given_list (input_paths args)), (given_path (batch args)),
      (given_string (output_format args)),
      (1 <? List.length (paths_of (input_paths args))) eqn:L,
      (PyStr.contains "*" (PyStr.join " " (paths_of (input_paths args))));
      first [apply Nat.ltb_lt in L | apply Nat.ltb_ge in L]; simpl;
      intuition (try discriminate; try lia). }
  rewrite <- V.
  destruct (validation_errors args (fs w)); simpl; split;
    (discriminate || reflexivity || auto).
Qed.

Section Inputs.

Context {platform : Platform}.

(** The batch list comes first: when [--batch] is given the inputs of
    [--input] are not looked at, and the input files are the stripped lines
    of the list that name an existing path, in the order of the lines and
    as often as they occur. *)
Theorem batch_list_entries args w b f text :
  batch args = Some b ->
  Fs.lookup (fs w) b = Some (Regular f) ->
  as_text f = Some text ->
  get_input_files args w
  = (Return (filter (Fs.exists_ (fs w))
               (map (fun line => PathLib.of_string (PyStr.strip line))
                  (PyStr.readlines text))), w).
Proof.
  intros B L T. unfold get_input_files, bind, read_lines, read_fs.
  rewrite B, L, T. f_equal. f_equal.
  induction (PyStr.readlines text) as [|line rest IH]; simpl; [reflexivity|].
  destruct (Fs.exists_ (fs w) _); now rewrite IH.
Qed.

Lemma input_entries_cons t path_str rest :
  input_entries t (path_str :: rest) =
  match
    (if Fs.is_file t (PathLib.of_string path_str)
     then Return [PathLib.of_string path_str]
     else if PyStr.contains "*" path_str
     then glob t (PathLib.parent (PathLib.of_string path_str))
            (PathLib.name (PathLib.of_string path_str))
     else if Fs.is_dir t (PathLib.of_string path_str)
     then Return (filter (Fs.is_file t) (Fs.iterdir t (PathLib.of_string path_str)))
     else Return [])
  with
  | Raise e => Raise e
  | Return here =>
      match input_entries t rest with
      | Raise e => Raise e
      | Return there => Return (here ++ there)%list
      end
  end.
Proof. reflexivity. Qed.

(** Inputs that all name regular files are the input files, in the order
    given and as often as given. *)
Theorem literal_files_in_order args w l :
  batch args = None ->
  input_paths args = Some l ->
  (forall path_str, In path_str l ->
     Fs.is_file (fs w) (PathLib.of_string path_str) = true) ->
  get_input_files args w = (Return (map PathLib.of_string l), w).
Proof.
  intros B I F. unfold get_input_files. rewrite B, I.
  assert (E : input_entries (fs w) l = Return (map PathLib.of_string l)).
  { clear I. induction l as [|s l IH]; [reflexivity|].
    rewrite input_entries_cons, (F s (or_introl eq_refl)), IH; [reflexivity|].
    intros x X. apply F. now right. }
  destruct l as [|s l]; [reflexivity|].
  cbn [given_list paths_of]. cbv beta. now rewrite E.
Qed.

Lemma iterdir_parent t d p : In p (Fs.iterdir t d) -> PathLib.parent p = d /\ p <> d.
Proof.
  unfold Fs.iterdir. rewrite in_map_iff.
  intros ([q n] & <- & I%filter_In). simpl in *. destruct I as [_ C].
  apply andb_true_iff in C as [C1 C2].
  apply path_eqb_eq in C1. apply negb_true_iff, path_eqb_neq in C2. now split.
Qed.

(** Without a [*] in any input, listing the input files never raises, and
    every input file is a regular file: an input itself, or an entry
    directly inside an input that is a directory.  Inputs that are neither
    are dropped. *)
Theorem inputs_without_pattern_are_files args w l :
  batch args = None ->
  input_paths args = Some l ->
  (forall path_str, In path_str l -> PyStr.contains "*" path_str = false) ->
  exists input_files,
    get_input_files args w = (Return input_files, w)
    /\ forall p, In p input_files ->
         Fs.is_file (fs w) p = true
         /\ exists path_str,
              In path_str l
              /\ (p = PathLib.of_string path_str
                  \/ (Fs.is_dir (fs w) (PathLib.of_string path_str) = true
                      /\ PathLib.parent p = PathLib.of_string path_str)).
Proof.
  intros B I S. unfold get_input_files. rewrite B, I.
  assert (E : exists input_files,
            input_entries (fs w) l = Return input_files
            /\ forall p, In p input_files ->
                 Fs.is_file (fs w) p = true
                 /\ exists path_str,
                      In path_str l
                      /\ (p = PathLib.of_string path_str
                          \/ (Fs.is_dir (fs w) (PathLib.of_string path_str) = true
                              /\ PathLib.parent p = PathLib.of_string path_str))).
  { clear I. induction l as [|s l IH].
    - exists []. split; [reflexivity | contradiction].
    - destruct IH as (there & E & P); [intros x X; apply S; now right|].
      rewrite input_entries_cons, E, (S s (or_introl eq_refl)).
      destruct (Fs.is_file (fs w) (PathLib.of_string s)) eqn:F.
      + eexists. split; [reflexivity|]. intros p [<-|X].
        * split; [exact F|]. exists s. split; [now left | now left].
        * destruct (P p X) as (Fp & x & Ix & Hx). split; [exact Fp|].
          exists x. split; [now right | exact Hx].
      + destruct (Fs.is_dir (fs w) (PathLib.of_string s)) eqn:D.
        * eexists. split; [reflexivity|]. intros p X.
          apply in_app_or in X as [X|X].
          -- apply filter_In in X as [X Fp]. split; [exact Fp|].
             exists s. split; [now left|]. right. split; [exact D|].
             now apply iterdir_parent in X.
          -- destruct (P p X) as (Fp & x & Ix & Hx). split; [exact Fp|].
             exists x. split; [now right | exact Hx].
        * eexists. split; [reflexivity|]. intros p X. simpl in X.
          destruct (P p X) as (Fp & x & Ix & Hx). split; [exact Fp|].
          exists x. split; [now right | exact Hx]. }
  destruct E as (input_files & E & P).
  destruct l as [|s l].
  - exists []. split; [reflexivity | contradiction].
  - exists input_files. cbn [given_list paths_of]. cbv beta. rewrite E. now split.
Qed.

End Inputs.

Lemma batch_list_entries_witness :
  let args := mkNamespace (Some ["notes.txt"]) (Some (PathLib.of_string "list.txt"))
                (Some "png") None false in
  batch args = Some (PathLib.of_string "list.txt")
  /\ Fs.lookup (fs Demo.world) (PathLib.of_string "list.txt")
     = Some (Demo.text_file Demo.batch_text)
  /\ fst (get_input_files args Demo.world)
     = Return [PathLib.of_string "cat.png"; PathLib.of_string ".";
               PathLib.of_string "photo.jpg"].
Proof.
  split; [reflexivity|]. split; [reflexivity|].
  exact (f_equal fst
           (batch_list_entries
              (mkNamespace (Some ["notes.txt"]) (Some (PathLib.of_string "list.txt"))
                 (Some "png") None false)
              Demo.world (PathLib.of_string "list.txt")
              (mkFile (Some Demo.batch_text) None) Demo.batch_text
              eq_refl eq_refl eq_refl)).
Defined.

Lemma literal_files_in_order_witness :
  let args := mkNamespace (Some ["photo.jpg"; "cat.png"; "photo.jpg"]) None
                (Some "gif") None false in
  (forall path_str, In path_str ["photo.jpg"; "cat.png"; "photo.jpg"] ->
     Fs.is_file (fs Demo.world) (PathLib.of_string path_str) = true)
  /\ get_input_files args Demo.world
     = (Return (map PathLib.of_string ["photo.jpg"; "cat.png"; "photo.jpg"]), Demo.world).
Proof.
  assert (F : forall path_str, In path_str ["photo.jpg"; "cat.png"; "photo.jpg"] ->
                Fs.is_file (fs Demo.world) (PathLib.of_string path_str) = true).
  { intros s [<-|[<-|[<-|[]]]]; reflexivity. }
  split; [exact F|].
  exact (literal_files_in_order
           (mkNamespace (Some ["photo.jpg"; "cat.png"; "photo.jpg"]) None
              (Some "gif") None false)
           Demo.world ["photo.jpg"; "cat.png"; "photo.jpg"] eq_refl eq_refl F).
Defined.

Lemma inputs_without_pattern_are_files_witness :
  let args := mkNamespace (Some ["."; "missing.png"]) None (Some "gif") None false in
  (forall path_str, In path_str ["."; "missing.png"] ->
     PyStr.contains "*" path_str = false)
  /\ exists input_files,
       get_input_files args Demo.world = (Return input_files, Demo.world)
       /\ forall p, In p input_files ->
            Fs.is_file (fs Demo.world) p = true
            /\ exists path_str,
                 In path_str ["."; "missing.png"]
                 /\ (p = PathLib.of_string path_str
                     \/ (Fs.is_dir (fs Demo.world) (PathLib.of_string path_str) = true
                         /\ PathLib.parent p = PathLib.of_string path_str)).
Proof.
  assert (S : forall path_str, In path_str ["."; "missing.png"] ->
                PyStr.contains "*" path_str = false).
  { intros s [<-|[<-|[]]]; reflexivity. }
  split; [exact S|].
  exact (inputs_without_pattern_are_files
           (mkNamespace (Some ["."; "missing.png"]) None (Some "gif") None false)
           Demo.world ["."; "missing.png"] eq_refl eq_refl S).
Defined.

(* ================================================================== *)
(** ** Runs of [main] that convert nothing, and what a run keeps *)
(* ================================================================== *)

Section Runs.

Context {platform : Platform}.

(** When the arguments are turned down, when no input file is found, or
    when no output format can be settled on, [main] exits with 1 without
    converting anything: the file system is as it was and all that is
    written are lines on standard error. *)
Theorem main_stops_before_converting args w :
  validation_errors args (fs w) <> []
  \/ fst (get_input_files args w) = Return []
  \/ (exists input_files,
        fst (get_input_files args w) = Return input_files
        /\ chosen_format args input_files = None) ->
  exists lines,
    main args w = (Return 1, mkWorld (fs w) (out w ++ map Stderr lines)%list)
    /\ lines <> [].
Proof.
  intros H.
  unfold main. unfold bind at 1. rewrite validate_args_spec.
  destruct (validation_errors args (fs w)) as [|error rest] eqn:V.
  2:{ cbv beta iota. simpl (negb _). cbv beta iota. unfold ret.
      exists (map (fun e => "Error: " ++ e) (error :: rest)).
      rewrite map_map. split; [reflexivity|discriminate]. }
  cbv beta iota. simpl (negb _). cbv beta iota.
  unfold try_except. unfold bind at 1. cbv beta.
  destruct (get_input_files args w) as [[input_files|e] w1] eqn:G;
    pose proof (get_input_files_world _ _ _ _ G) as ->; simpl in H.
  2:{ destruct H as [H|[H|(l & H & _)]]; [now elim H | discriminate | discriminate]. }
  destruct input_files as [|input_file rest].
  { unfold bind, print_stderr, emit, ret.
    exists ["No input files found to process"]. split; [reflexivity|discriminate]. }
  fold (chosen_format args (input_file :: rest)).
  destruct (chosen_format args (input_file :: rest)) as [fmt|] eqn:F.
  { destruct H as [H|[H|(l & [= <-] & N)]]; [now elim H | discriminate | congruence]. }
  unfold bind, print_stderr, emit, ret.
  exists ["Output format must be specified"]. split; [reflexivity|discriminate].
Qed.

(** An exception raised while the input files are listed (a batch list that
    is a directory or is no text, a pattern that [glob] refuses) ends the
    run with exit code 1 and one error record; nothing is converted. *)
Theorem main_reports_listing_error args w e :
  validation_errors args (fs w) = [] ->
  fst (get_input_files args w) = Raise e ->
  main args w
  = (Return 1, log_event (Log ERROR ("Unexpected error: " ++ str_exn e)) w).
Proof.
  intros V G.
  unfold main. unfold bind at 1. rewrite validate_args_spec, V.
  cbv beta iota. simpl (negb _). cbv beta iota.
  unfold try_except. unfold bind at 1. cbv beta.
  destruct (get_input_files args w) as [o w1] eqn:G'.
  pose proof (get_input_files_world _ _ _ _ G') as ->.
  simpl in G. subst o. reflexivity.
Qed.

(** The file system after a run is the one before it, or the one the
    loop has left. *)
Lemma main_fs args w o w' :
  main args w = (o, w') ->
  fs w' = fs w
  \/ exists input_files fmt,
       fs w' = fs (snd (convert_all input_files fmt (output args) 0 w)).
Proof.
  unfold main. unfold bind at 1. rewrite validate_args_spec.
  destruct (validation_errors args (fs w)) as [|error rest] eqn:V;
    cbv beta iota; simpl (negb _); cbv beta iota;
    [|intros [= _ <-]; now left].
  unfold try_except. unfold bind at 1. cbv beta.
  destruct (get_input_files args w) as [[input_files|e] w1] eqn:G;
    pose proof (get_input_files_world _ _ _ _ G) as ->;
    [|intros [= _ <-]; now left].
  destruct input_files as [|input_file rest]; [intros [= _ <-]; now left|].
  fold (chosen_format args (input_file :: rest)).
  destruct (chosen_format args (input_file :: rest)) as [fmt|];
    [|intros [= _ <-]; now left].
  unfold bind at 1. cbv beta. intros M.
  right. exists (input_file :: rest), fmt.
  destruct (convert_all (input_file :: rest) fmt (output args) 0 w) as [[n|e] v];
    now injection M as _ <-.
Qed.

(** A run of [main] deletes nothing: every regular file is a regular file
    after the run and every directory a directory, whatever the arguments
    are and however the conversions end. *)
Theorem main_keeps_nodes args w :
  keeps (fs w) (fs (snd (main args w))).
Proof.
  destruct (main args w) as [o w'] eqn:M.
  destruct (main_fs _ _ _ _ M) as [E|(input_files & fmt & E)]; simpl; rewrite E.
  - apply keeps_refl.
  - apply convert_all_keeps.
Qed.

End Runs.

Lemma main_stops_before_converting_witness :
  let args := mkNamespace (Some ["."]) None None None false in
  (validation_errors args (fs Demo.world) <> []
   \/ fst (get_input_files args Demo.world) = Return []
   \/ (exists input_files,
         fst (get_input_files args Demo.world) = Return input_files
         /\ chosen_format args input_files = None))
  /\ exists lines,
       main args Demo.world
       = (Return 1, mkWorld (fs Demo.world) (out Demo.world ++ map Stderr lines)%list)
       /\ lines <> [].
Proof.
  assert (H : validation_errors (mkNamespace (Some ["."]) None None None false)
                (fs Demo.world) <> []
              \/ fst (get_input_files (mkNamespace (Some ["."]) None None None false)
                        Demo.world) = Return []
              \/ (exists input_files,
                    fst (get_input_files (mkNamespace (Some ["."]) None None None false)
                           Demo.world) = Return input_files
                    /\ chosen_format (mkNamespace (Some ["."]) None None None false)
                         input_files = None)).
  { right. right. eexists. split; reflexivity. }
  split; [exact H|].
  exact (main_stops_before_converting
           (mkNamespace (Some ["."]) None None None false) Demo.world H).
Defined.

Lemma main_reports_listing_error_witness :
  let args := mkNamespace None (Some (PathLib.of_string ".")) (Some "png") None false in
  validation_errors args (fs Demo.world) = []
  /\ fst (get_input_files args Demo.world) = Raise (OSError "[Errno 21] Is a directory: '.'")
  /\ fst (main args Demo.world) = Return 1.
Proof.
  split; [reflexivity|]. split; [reflexivity|].
  exact (f_equal fst
           (main_reports_listing_error
              (mkNamespace None (Some (PathLib.of_string ".")) (Some "png") None false)
              Demo.world _ eq_refl eq_refl)).
Defined.

(* ================================================================== *)
(** ** The helpers of utils.py *)
(* ================================================================== *)

(** The list of [get_supported_formats] is not the set of the converter:
    a format passes [validate_output_format] on that list and the check of
    [convert] exactly when it is jpg, jpeg, png, gif or bmp, in any letter
    case; ico, webp and tiff pass the converter only. *)
Theorem helper_formats_and_converter_formats fmt :
  Utils.validate_output_format fmt Utils.get_supported_formats
  && PyStr.mem (PyStr.lower fmt) supported_formats
  = PyStr.mem (PyStr.lower fmt) ["jpg"; "jpeg"; "png"; "gif"; "bmp"].
Proof.
  unfold Utils.validate_output_format.
  generalize (PyStr.lower fmt). intros x.
  destruct (PyStr.mem x supported_formats) eqn:S.
  - apply mem_supported_cases in S.
    repeat (destruct S as [S|S]); subst x; reflexivity.
  - rewrite andb_false_r.
    destruct (PyStr.mem x ["jpg"; "jpeg"; "png"; "gif"; "bmp"]) eqn:T; [|reflexivity].
    unfold PyStr.mem in T. simpl in T.
    rewrite !orb_true_iff, !String.eqb_eq in T.
    revert S. intuition (subst x; try discriminate).
Qed.

(* ================================================================== *)
(** ** The whole dispatch table *)
(* ================================================================== *)

(** The table has a routine for a pair of format names exactly when both
    are names of the supported set, spelled in lower case, of different
    families, and the pair does not go from the JPEG family to bmp, ico,
    webp or tiff.  In the other direction these eight pairs have their
    routine, so the table is not symmetric. *)
Theorem conversion_table_pairs f1 f2 :
  (_get_conversion_method f1 f2 = Some image_to_image
   <-> PyStr.mem f1 supported_formats = true
       /\ PyStr.mem f2 supported_formats = true
       /\ f1 <> f2
       /\ ~ (jpeg_family f1 = true /\ jpeg_family f2 = true)
       /\ ~ (jpeg_family f1 = true
             /\ PyStr.mem f2 ["bmp"; "ico"; "webp"; "tiff"] = true))
  /\ (_get_conversion_method f1 f2 = None
      /\ _get_conversion_method f2 f1 = Some image_to_image
      <-> jpeg_family f1 = true
          /\ PyStr.mem f2 ["bmp"; "ico"; "webp"; "tiff"] = true).
Proof.
  rewrite !methods_registered. unfold registered.
  destruct (PyStr.mem f1 supported_formats) eqn:S1.
  - apply mem_supported_cases in S1.
    destruct (PyStr.mem f2 supported_formats) eqn:S2.
    + apply mem_supported_cases in S2.
      repeat (destruct S1 as [S1|S1]); repeat (destruct S2 as [S2|S2]); subst;
        vm_compute; intuition (try discriminate; try congruence).
    + assert (T : PyStr.mem f2 ["bmp"; "ico"; "webp"; "tiff"] = false).
      { destruct (PyStr.mem f2 ["bmp"; "ico"; "webp"; "tiff"]) eqn:T; [|reflexivity].
        unfold PyStr.mem in T. simpl in T.
        rewrite !orb_true_iff, !String.eqb_eq in T.
        revert S2. intuition (try discriminate; try (subst f2; discriminate)). }
      rewrite T. simpl. rewrite ?andb_false_r. simpl.
      intuition (try discriminate; try congruence).
  - assert (J : jpeg_family f1 = false).
    { destruct (jpeg_family f1) eqn:J; [|reflexivity].
      unfold jpeg_family, PyStr.mem in J. simpl in J.
      rewrite !orb_true_iff, !String.eqb_eq in J.
      revert S1. intuition (try discriminate; try (subst f1; discriminate)). }
    rewrite J. simpl. rewrite ?andb_false_r. simpl.
    intuition (try discriminate; try congruence).
Qed.
